(** * PyNoddy history documents: a shallow embedding of [history.py]

    The development follows the layout of the Python source:
    - [PyStr]: the string and number primitives of Python that the source
      relies on ([in], [replace], [split], [rstrip], [int], [float] and the
      [%] formats);
    - [Templates]: the text templates of class [_Templates];
    - [Events]: the event records of [events.py];
    - [History]: class [NoddyHistory], as state-passing functions over a
      record with the instance attributes and a store for the event objects.

    A Python float is held as the exact rational value ([Q]) of the
    double; where the source adds floats, the sum is rounded to the nearest
    double ([round_double]). The values [inf] and [nan] are no values of
    the model; a sum of numpy that overflows is [Infinite]. Strings are
    byte strings. *)

From Stdlib Require Import ZArith QArith Qabs Qround Qpower Lqa String Ascii List Lia.
From stdpp Require Import base option list sorting gmap strings.

Local Open Scope Z_scope.

(** ** Python string primitives *)
Module PyStr.

Definition char_in (c : ascii) (cs : string) : bool :=
  existsb (Ascii.eqb c) (list_ascii_of_string cs).

(** [str.isspace] on the ASCII range: TAB, LF, VT, FF, CR, FS..US and SPACE. *)
Definition is_space (c : ascii) : bool :=
  let n := nat_of_ascii c in
  ((9 <=? n)%nat && (n <=? 13)%nat) || ((28 <=? n)%nat && (n <=? 32)%nat).

Definition is_digit (c : ascii) : bool :=
  let n := nat_of_ascii c in (48 <=? n)%nat && (n <=? 57)%nat.

(** [needle in s] *)
Fixpoint str_in (needle s : string) : bool :=
  String.prefix needle s ||
  match s with
  | EmptyString => false
  | String _ s' => str_in needle s'
  end.

(** [s.replace(old, new)]: leftmost non-overlapping occurrences; [skip]
    counts the characters of a matched occurrence still to be dropped. *)
Fixpoint replace_from (skip : nat) (old new s : string) : string :=
  match s with
  | EmptyString => EmptyString
  | String c s' =>
      match skip with
      | S k => replace_from k old new s'
      | O =>
          if String.prefix old s
          then new +:+ replace_from (String.length old - 1) old new s'
          else String c (replace_from 0 old new s')
      end
  end.

Fixpoint intersperse_after (new s : string) : string :=
  match s with
  | EmptyString => EmptyString
  | String c s' => String c (new +:+ intersperse_after new s')
  end.

Definition replace (old new s : string) : string :=
  match old with
  | EmptyString => new +:+ intersperse_after new s
  | _ => replace_from 0 old new s
  end.

(** [s.split(sep)] for a one-character separator. *)
Fixpoint split (sep : ascii) (s : string) : list string :=
  match s with
  | EmptyString => [EmptyString]
  | String c s' =>
      if Ascii.eqb c sep then EmptyString :: split sep s'
      else match split sep s' with
           | h :: t => String c h :: t
           | [] => [String c EmptyString]
           end
  end.

Fixpoint lstrip (s : string) : string :=
  match s with
  | EmptyString => EmptyString
  | String c s' => if is_space c then lstrip s' else s
  end.

Fixpoint rstrip (s : string) : string :=
  match s with
  | EmptyString => EmptyString
  | String c s' =>
      match rstrip s' with
      | EmptyString => if is_space c then EmptyString else String c EmptyString
      | r => String c r
      end
  end.

Definition strip (s : string) : string := rstrip (lstrip s).

(** The white space that [int] and [float] skip around a literal: TAB, LF,
    VT, FF, CR and SPACE. Unlike [str.strip] they do not skip FS..US. *)
Definition is_blank (c : ascii) : bool :=
  let n := nat_of_ascii c in
  ((9 <=? n)%nat && (n <=? 13)%nat) || (n =? 32)%nat.

Fixpoint lskip (s : string) : string :=
  match s with
  | EmptyString => EmptyString
  | String c s' => if is_blank c then lskip s' else s
  end.

Fixpoint rskip (s : string) : string :=
  match s with
  | EmptyString => EmptyString
  | String c s' =>
      match rskip s' with
      | EmptyString => if is_blank c then EmptyString else String c EmptyString
      | r => String c r
      end
  end.

Definition trim (s : string) : string := rskip (lskip s).

(** [s[a:b]] for non-negative [a <= b]. *)
Definition str_slice (a b : nat) (s : string) : string :=
  String.substring a (b - a) s.

Fixpoint spaces (n : nat) : string :=
  match n with
  | O => EmptyString
  | S k => String " "%char (spaces k)
  end.

Fixpoint zeros (n : nat) : string :=
  match n with
  | O => EmptyString
  | S k => String "0"%char (zeros k)
  end.

(** Right-justify in a field of [w] characters (the width of a [%] format). *)
Definition rjust (w : nat) (s : string) : string :=
  spaces (w - String.length s) +:+ s.

(** Every character of [s] satisfies [p]. *)
Fixpoint all_chars (p : ascii -> bool) (s : string) : bool :=
  match s with
  | EmptyString => true
  | String c s' => p c && all_chars p s'
  end.

(** ** Numbers *)

Definition digit_char (d : N) : ascii := ascii_of_N (48 + d).
Definition digit_val (c : ascii) : N := N_of_ascii c - 48.

(** The last [k] decimal digits of [n], most significant first. *)
Fixpoint fixed_digits (k : nat) (n : N) : string :=
  match k with
  | O => EmptyString
  | S k' => fixed_digits k' (n / 10) +:+ String (digit_char (n mod 10)) EmptyString
  end.

Fixpoint count_digits (fuel : nat) (n : N) : nat :=
  match fuel with
  | O => 1
  | S f => if (n <? 10)%N then 1%nat else S (count_digits f (n / 10))
  end.

(** The number of decimal digits of [n]; the binary length bounds it. *)
Definition ndigits (n : N) : nat := count_digits (S (N.to_nat (N.log2 n))) n.

Definition str_of_N (n : N) : string := fixed_digits (ndigits n) n.

(** ["%d" % z] *)
Definition fmt_d (z : Z) : string :=
  (if z <? 0 then "-" else "") +:+ str_of_N (Z.abs_N z).

(** Rounding to the nearest integer, ties to even, as the C library does
    when it prints a binary fraction that lies exactly between two
    decimals. *)
Definition round_half_even (q : Q) : Z :=
  let d := Zpos (Qden q) in
  let fl := Qnum q / d in
  let r := Qnum q mod d in
  match 2 * r ?= d with
  | Lt => fl
  | Gt => fl + 1
  | Eq => if Z.even fl then fl else fl + 1
  end.

Definition sign_str (q : Q) : string := if Qnum q <? 0 then "-" else "".

(** ["%.<prec>f" % q] *)
Definition fmt_f (prec : nat) (q : Q) : string :=
  let p := 10 ^ Z.of_nat prec in
  let m := round_half_even (Qabs q * inject_Z p) in
  sign_str q +:+ str_of_N (Z.to_N (m / p)) +:+
  match prec with
  | O => ""
  | _ => "." +:+ fixed_digits prec (Z.to_N (m mod p))
  end.


(** *** Doubles *)

Definition pow2 (k : Z) : Q :=
  if 0 <=? k then inject_Z (2 ^ k) else 1 / inject_Z (2 ^ (- k)).

(** A double that is no nan: a number [m * 2^e] with [|m| < 2^53] and
    [-1074 <= e <= 971], held as a rational, or an infinity. *)
Inductive float64 :=
  | Finite (q : Q)
  | Infinite (neg : bool).

(** The exponent of the last mantissa bit of the double nearest to
    [a > 0]: with [l] the difference of the binary lengths of numerator
    and denominator, [a] lies between [2^(l-1)] and [2^(l+1)]. *)
Definition ulp_exp (a : Q) : Z :=
  let l := Z.log2 (Qnum a) - Z.log2 (Zpos (Qden a)) in
  let e := if Qle_bool (pow2 l) a then l - 52 else l - 53 in
  Z.max e (-1074).

(** Rounding to the nearest double, ties to the even mantissa (IEEE 754
    binary64, the rounding of every float operation of Python and numpy);
    a result of [2^1024] or more is an infinity. *)
Definition round_double (q : Q) : float64 :=
  let a := Qabs q in
  if Qeq_bool a 0 then Finite 0
  else
    let e := ulp_exp a in
    let m := round_half_even (a * pow2 (- e)) in
    if Qle_bool (pow2 1024) (inject_Z m * pow2 e) then Infinite (Qnum q <? 0)
    else Finite (inject_Z (if Qnum q <? 0 then - m else m) * pow2 e).

(** [q] is the value of a double. *)
Definition is_double (q : Q) : Prop :=
  exists m e : Z,
    Z.abs m < 2 ^ 53 /\ -1074 <= e <= 971 /\ (q == inject_Z m * pow2 e)%Q.

(** ["%.<prec>f" % x] for a double [x] *)
Definition fmt_double (prec : nat) (x : float64) : string :=
  match x with
  | Finite q => fmt_f prec q
  | Infinite false => "inf"
  | Infinite true => "-inf"
  end.

(** ["%<w>.<prec>f" % q] *)
Definition fmt_wf (w prec : nat) (q : Q) : string := rjust w (fmt_f prec q).

Definition pow10 (k : Z) : Q :=
  if 0 <=? k then inject_Z (10 ^ k) else 1 / inject_Z (10 ^ (- k)).

(** ["%e" % q]: one digit, six decimals, exponent of at least two digits. *)
Definition fmt_e (q : Q) : string :=
  if Qnum q =? 0 then "0.000000e+00"
  else
    let a := Qabs q in
    let e0 := Z.of_nat (ndigits (Z.to_N (Qnum a))) - Z.of_nat (ndigits (Npos (Qden a))) in
    let e1 := if Qle_bool (pow10 e0) a then e0 else e0 - 1 in
    let m1 := round_half_even (a * pow10 (6 - e1)) in
    let '(m, e) := if 10 ^ 7 <=? m1 then (m1 / 10, e1 + 1) else (m1, e1) in
    sign_str q +:+ str_of_N (Z.to_N (m / 10 ^ 6)) +:+ "." +:+
    fixed_digits 6 (Z.to_N (m mod 10 ^ 6)) +:+ "e" +:+
    (if e <? 0 then "-" else "+") +:+
    fixed_digits (Nat.max 2 (ndigits (Z.abs_N e))) (Z.abs_N e).

(** Digit groups may hold single underscores between digits (PEP 515);
    the result is the group without them. *)
Fixpoint drop_underscores (prev_digit : bool) (s : string) : option string :=
  match s with
  | EmptyString => if prev_digit then Some EmptyString else None
  | String c s' =>
      if is_digit c then option_map (String c) (drop_underscores true s')
      else if Ascii.eqb c "_"%char then
        if prev_digit then drop_underscores false s' else None
      else None
  end.

(** The value of a string of digits, read from the left. *)
Fixpoint val_digits (acc : N) (s : string) : N :=
  match s with
  | EmptyString => acc
  | String c s' => val_digits (acc * 10 + digit_val c) s'
  end.

(** A non-empty digit group and its value. *)
Definition digits_value (s : string) : option N :=
  option_map (val_digits 0) (drop_underscores false s).

Definition split_sign (s : string) : bool * string :=
  match s with
  | String "-"%char r => (true, r)
  | String "+"%char r => (false, r)
  | _ => (false, s)
  end.

(** [int(s)]; [None] stands for [ValueError]. *)
Definition py_int (s : string) : option Z :=
  let '(neg, body) := split_sign (trim s) in
  match digits_value body with
  | Some n => Some (if neg then - Z.of_N n else Z.of_N n)
  | None => None
  end.

(** The text before the first character of [cs], and the text after it. *)
Fixpoint cut (cs : string) (s : string) : string * option string :=
  match s with
  | EmptyString => (EmptyString, None)
  | String c s' =>
      if char_in c cs then (EmptyString, Some s')
      else let '(a, b) := cut cs s' in (String c a, b)
  end.

(** An optional digit group: its value and its number of digits. *)
Definition opt_digits (s : string) : option (N * nat) :=
  match s with
  | EmptyString => Some (0%N, O)
  | _ => option_map (fun ds => (val_digits 0 ds, String.length ds))
                    (drop_underscores false s)
  end.

Definition mantissa (s : string) : option Q :=
  let '(ip, rest) := cut "." s in
  let fp := match rest with Some f => f | None => EmptyString end in
  match ip, fp with
  | EmptyString, EmptyString => None
  | _, _ =>
      match opt_digits ip, opt_digits fp with
      | Some (i, _), Some (f, k) =>
          Some (inject_Z (Z.of_N i) + inject_Z (Z.of_N f) * pow10 (- Z.of_nat k))%Q
      | _, _ => None
      end
  end.

Definition exponent (s : option string) : option Z :=
  match s with
  | None => Some 0
  | Some e =>
      let '(neg, body) := split_sign e in
      option_map (fun n => if neg then - Z.of_N n else Z.of_N n) (digits_value body)
  end.

(** [float(s)] on decimal literals; [None] stands for [ValueError]. *)
Definition py_float (s : string) : option Q :=
  let '(neg, body) := split_sign (trim s) in
  let '(m, e) := cut "eE" body in
  match mantissa m, exponent e with
  | Some q, Some k => Some ((if neg then - q else q) * pow10 k)%Q
  | _, _ => None
  end.

End PyStr.

(** ** Values, errors and dictionaries of the Python runtime *)
Module Py.

Import PyStr.

Inductive PyError :=
  | KeyError | IndexError | ValueError | TypeError
  | NameError | UnboundLocalError | AttributeError
  | OverflowError | ZeroDivisionError.

(** The outcome of a call that touches no instance attribute. *)
Inductive result (A : Type) :=
  | Ok (a : A)
  | Err (e : PyError).
Arguments Ok {A} a.
Arguments Err {A} e.

#[export] Instance result_ret : MRet result := fun A a => Ok a.
#[export] Instance result_bind : MBind result := fun A B f r =>
  match r with
  | Ok a => f a
  | Err e => Err e
  end.

Definition of_option {A} (e : PyError) (o : option A) : result A :=
  match o with
  | Some a => Ok a
  | None => Err e
  end.

Definition is_ok {A} (r : result A) : bool :=
  match r with
  | Ok _ => true
  | Err _ => false
  end.

(** Dictionary keys that occur in the source: strings and integers. *)
Inductive PyKey :=
  | KStr (s : string)
  | KInt (z : Z).

#[export] Instance PyKey_eq_dec : EqDecision PyKey.
Proof. solve_decision. Defined.

#[warnings="-register-all"] Inductive PyVal :=
  | VInt (z : Z)
  | VFloat (q : Q)
  | VStr (s : string)
  | VTuple (l : list PyVal)
  | VList (l : list PyVal)
  | VDict (d : list (string * PyVal)).

(** A [dict]: keys are unique and keep their insertion order; assigning to
    a key that is present keeps its position. *)
Section dict.
Context {K V : Type} `{EqDecision K}.

Definition dict := list (K * V).

Fixpoint dict_get (k : K) (d : dict) : option V :=
  match d with
  | [] => None
  | (k', v) :: d' => if decide (k = k') then Some v else dict_get k d'
  end.

Fixpoint dict_set (k : K) (v : V) (d : dict) : dict :=
  match d with
  | [] => [(k, v)]
  | (k', v') :: d' =>
      if decide (k = k') then (k, v) :: d' else (k', v') :: dict_set k v d'
  end.

Definition dict_keys (d : dict) : list K := d.*1.
Definition dict_values (d : dict) : list V := d.*2.

(** [d[k]] *)
Definition dict_item (k : K) (d : dict) : result V :=
  of_option KeyError (dict_get k d).
End dict.
Arguments dict : clear implicits.

(** [l[i]] for a non-negative index. *)
Definition list_item {A} (i : nat) (l : list A) : result A :=
  of_option IndexError (l !! i).

(** [l[i]] with Python's negative indices. *)
Definition py_index {A} (i : Z) (l : list A) : option A :=
  if 0 <=? i then l !! Z.to_nat i
  else if 0 <=? i + Z.of_nat (length l) then l !! Z.to_nat (i + Z.of_nat (length l))
  else None.

(** [l[a:b]] with Python's clamping of negative and oversized bounds. *)
Definition clamp (len i : Z) : Z :=
  if i <? 0 then Z.max 0 (i + len) else Z.min i len.

Definition slice {A} (a b : Z) (l : list A) : list A :=
  let len := Z.of_nat (length l) in
  let a' := clamp len a in
  let b' := clamp len b in
  take (Z.to_nat (b' - a')) (drop (Z.to_nat a') l).

(** [enumerate(l)] *)
Definition enumerate {A} (l : list A) : list (nat * A) := imap (fun i x => (i, x)) l.

Definition nl : string := String (ascii_of_nat 10) EmptyString.
Definition cr : string := String (ascii_of_nat 13) EmptyString.
Definition tab : string := String (ascii_of_nat 9) EmptyString.

(** The right operand of [%]: a tuple gives the arguments, anything else
    is the single argument. *)
Definition percent_args (v : PyVal) : list PyVal :=
  match v with
  | VTuple l => l
  | _ => [v]
  end.

Definition as_number (v : PyVal) : result Q :=
  match v with
  | VInt z => Ok (inject_Z z)
  | VFloat q => Ok q
  | _ => Err TypeError
  end.

Definition single_arg (v : PyVal) : result PyVal :=
  match percent_args v with
  | [x] => Ok x
  | _ => Err TypeError
  end.

(** ["%.1f" % v] *)
Definition percent_f (prec : nat) (v : PyVal) : result string :=
  x ← single_arg v; q ← as_number x; Ok (fmt_f prec q).

(** ["%e" % v] *)
Definition percent_e (v : PyVal) : result string :=
  x ← single_arg v; q ← as_number x; Ok (fmt_e q).

(** Truncation towards zero, as ["%d"] does to a float. *)
Definition trunc (q : Q) : Z := Z.quot (Qnum q) (Zpos (Qden q)).

(** ["%d" % v] *)
Definition percent_d (v : PyVal) : result string :=
  x ← single_arg v;
  match x with
  | VInt z => Ok (fmt_d z)
  | VFloat q => Ok (fmt_d (trunc q))
  | _ => Err TypeError
  end.

(** A double as a value of the model, which has no infinity. *)
Definition finite (x : float64) : result Q :=
  match x with
  | Finite q => Ok q
  | Infinite _ => Err OverflowError
  end.

(** [float(z)]: [OverflowError] for an integer beyond the doubles. *)
Definition float_of_int (z : Z) : result Q := finite (round_double (inject_Z z)).

(** [x + y] on floats: the sum rounded to the nearest double. A sum that
    overflows is [inf] in Python, which is no value of the model:
    [OverflowError] stands for it. *)
Definition float_add (x y : Q) : result PyVal :=
  q ← finite (round_double (x + y)); Ok (VFloat q).

(** [a + b] on the values of the model. *)
Definition py_add (a b : PyVal) : result PyVal :=
  match a, b with
  | VInt x, VInt y => Ok (VInt (x + y))
  | VInt x, VFloat y => x' ← float_of_int x; float_add x' y
  | VFloat x, VInt y => y' ← float_of_int y; float_add x y'
  | VFloat x, VFloat y => float_add x y
  | VStr x, VStr y => Ok (VStr (x +:+ y))
  | VTuple x, VTuple y => Ok (VTuple (x ++ y))
  | VList x, VList y => Ok (VList (x ++ y))
  | _, _ => Err TypeError
  end.

(** A value used as a dictionary key: [1.0] and [1] are the same key; a
    list or a dict is unhashable. Keys that no dictionary of the model can
    hold give [None]. *)
Definition as_key (v : PyVal) : result (option PyKey) :=
  match v with
  | VStr s => Ok (Some (KStr s))
  | VInt z => Ok (Some (KInt z))
  | VFloat q =>
      Ok (if Qeq_bool q (inject_Z (trunc q)) then Some (KInt (trunc q)) else None)
  | VTuple _ => Ok None
  | VList _ | VDict _ => Err TypeError
  end.

(** [v[i]] for an integer index. *)
Definition subscript (v : PyVal) (i : nat) : result PyVal :=
  match v with
  | VTuple l | VList l => list_item i l
  | VStr s =>
      match String.get i s with
      | Some c => Ok (VStr (String c EmptyString))
      | None => Err IndexError
      end
  | VDict _ => Err KeyError
  | VInt _ | VFloat _ => Err TypeError
  end.

Definition as_str (v : PyVal) : result string :=
  match v with
  | VStr s => Ok s
  | _ => Err TypeError
  end.

End Py.

(** ** The text templates of class [_Templates] *)
Module Templates.

Definition strati_layer : string :=
"    Unit Name    = $NAME$
    Height    = $HEIGHT$
    Apply Alterations    = ON
    Density    = $DENSITY$
    Anisotropic Field    = 0
    MagSusX    = 1.60e-003
    MagSusY    = 1.60e-003
    MagSusZ    = 1.60e-003
    MagSus Dip    = 9.00e+001
    MagSus DipDir    = 9.00e+001
    MagSus Pitch    = 0.00e+000
    Remanent Magnetization    = 0
    Inclination    =  30.00
    Angle with the Magn. North    =  30.00
    Strength    = 1.60e-003
    Color Name    = Color 92
    Red    = 0
    Green    = 153
    Blue    = 48 ".

Definition fault : string :=
"    Geometry    = $GEOMETRY$
    Movement    = $MOVEMENT$
    X    = $POS_X$
    Y    = $POS_Y$
    Z    =   $POS_Z$
    Dip Direction    =  $DIP_DIR$
    Dip    =  $DIP$
    Pitch    =  90.00
    Slip    = $SLIP$
    Rotation    = $ROTATION$
    Amplitude    = $AMPLITUDE$
    Radius    = $RADIUS$
    XAxis    = $XAXIS$
    YAxis    = $YAXIS$
    ZAxis    = $ZAXIS$
    Cyl Index    =   0.00
    Profile Pitch    =  90.00
    Color Name    = Custom Colour 8
    Red    = 0
    Green    = 0
    Blue    = 254
    Fourier Series
        Term A 0    =   0.00
        Term B 0    =   0.00
        Term A 1    =   0.00
        Term B 1    =   1.00
        Term A 2    =   0.00
        Term B 2    =   0.00
        Term A 3    =   0.00
        Term B 3    =   0.00
        Term A 4    =   0.00
        Term B 4    =   0.00
        Term A 5    =   0.00
        Term B 5    =   0.00
        Term A 6    =   0.00
        Term B 6    =   0.00
        Term A 7    =   0.00
        Term B 7    =   0.00
        Term A 8    =   0.00
        Term B 8    =   0.00
        Term A 9    =   0.00
        Term B 9    =   0.00
        Term A 10    =   0.00
        Term B 10    =   0.00
    Name    = Fault Plane
    Type    = 1
    Join Type     = LINES
    Graph Length    = 200.000000
    Min X    = 0.000000
    Max X    = 6.280000
    Min Y Scale    = -1.000000
    Max Y Scale    = 1.000000
    Scale Origin    = 0.000000
    Min Y Replace    = -1.000000
    Max Y Replace    = 1.000000
    Num Points    = 21
        Point X    = 0
        Point Y    = 0
        Point X    = 31
        Point Y    = 30
        Point X    = 62
        Point Y    = 58
        Point X    = 94
        Point Y    = 80
        Point X    = 125
        Point Y    = 94
        Point X    = 157
        Point Y    = 99
        Point X    = 188
        Point Y    = 95
        Point X    = 219
        Point Y    = 81
        Point X    = 251
        Point Y    = 58
        Point X    = 282
        Point Y    = 31
        Point X    = 314
        Point Y    = 0
        Point X    = 345
        Point Y    = -31
        Point X    = 376
        Point Y    = -59
        Point X    = 408
        Point Y    = -81
        Point X    = 439
        Point Y    = -95
        Point X    = 471
        Point Y    = -100
        Point X    = 502
        Point Y    = -96
        Point X    = 533
        Point Y    = -82
        Point X    = 565
        Point Y    = -59
        Point X    = 596
        Point Y    = -32
        Point X    = 628
        Point Y    = -1
    Alteration Type     = NONE
    Num Profiles    = 12
    Name    = Density
    Type    = 2
    Join Type     = LINES
    Graph Length    = 200.000000
    Min X    = 0.000000
    Max X    = 0.000000
    Min Y Scale    = 0.000000
    Max Y Scale    = 4.000000
    Scale Origin    = 1.000000
    Min Y Replace    = 0.000000
    Max Y Replace    = 10.000000
    Num Points    = 2
        Point X    = 0
        Point Y    = -50
        Point X    = 628
        Point Y    = -50
    Name    = Anisotropy
    Type    = 3
    Join Type     = LINES
    Graph Length    = 200.000000
    Min X    = 0.000000
    Max X    = 0.000000
    Min Y Scale    = -10.000000
    Max Y Scale    = 10.000000
    Scale Origin    = 0.000000
    Min Y Replace    = -10.000000
    Max Y Replace    = 10.000000
    Num Points    = 2
        Point X    = 0
        Point Y    = 0
        Point X    = 628
        Point Y    = 0
    Name    = - X Axis (Sus)
    Type    = 4
    Join Type     = LINES
    Graph Length    = 200.000000
    Min X    = 0.000000
    Max X    = 0.000000
    Min Y Scale    = -5.000000
    Max Y Scale    = 5.000000
    Scale Origin    = 0.000000
    Min Y Replace    = 2.000000
    Max Y Replace    = 8.000000
    Num Points    = 2
        Point X    = 0
        Point Y    = 0
        Point X    = 628
        Point Y    = 0
    Name    = - Y Axis (Sus)
    Type    = 5
    Join Type     = LINES
    Graph Length    = 200.000000
    Min X    = 0.000000
    Max X    = 0.000000
    Min Y Scale    = -5.000000
    Max Y Scale    = 5.000000
    Scale Origin    = 0.000000
    Min Y Replace    = 2.000000
    Max Y Replace    = 8.000000
    Num Points    = 2
        Point X    = 0
        Point Y    = 0
        Point X    = 628
        Point Y    = 0
    Name    = - Z Axis (Sus)
    Type    = 6
    Join Type     = LINES
    Graph Length    = 200.000000
    Min X    = 0.000000
    Max X    = 0.000000
    Min Y Scale    = -5.000000
    Max Y Scale    = 5.000000
    Scale Origin    = 0.000000
    Min Y Replace    = 2.000000
    Max Y Replace    = 8.000000
    Num Points    = 2
        Point X    = 0
        Point Y    = 0
        Point X    = 628
        Point Y    = 0
    Name    = - Dip (Sus)
    Type    = 7
    Join Type     = LINES
    Graph Length    = 200.000000
    Min X    = 0.000000
    Max X    = 0.000000
    Min Y Scale    = -180.000000
    Max Y Scale    = 180.000000
    Scale Origin    = 1.000000
    Min Y Replace    = -180.000000
    Max Y Replace    = 180.000000
    Num Points    = 2
        Point X    = 0
        Point Y    = 1
        Point X    = 628
        Point Y    = 1
    Name    = - Dip Dir (Sus)
    Type    = 8
    Join Type     = LINES
    Graph Length    = 200.000000
    Min X    = 0.000000
    Max X    = 0.000000
    Min Y Scale    = -360.000000
    Max Y Scale    = 360.000000
    Scale Origin    = 1.000000
    Min Y Replace    = -360.000000
    Max Y Replace    = 360.000000
    Num Points    = 2
        Point X    = 0
        Point Y    = 0
        Point X    = 628
        Point Y    = 0
    Name    = - Pitch (Sus)
    Type    = 9
    Join Type     = LINES
    Graph Length    = 200.000000
    Min X    = 0.000000
    Max X    = 0.000000
    Min Y Scale    = -360.000000
    Max Y Scale    = 360.000000
    Scale Origin    = 1.000000
    Min Y Replace    = -360.000000
    Max Y Replace    = 360.000000
    Num Points    = 2
        Point X    = 0
        Point Y    = 0
        Point X    = 628
        Point Y    = 0
    Name    = Remanence
    Type    = 10
    Join Type     = LINES
    Graph Length    = 200.000000
    Min X    = 0.000000
    Max X    = 0.000000
    Min Y Scale    = -10.000000
    Max Y Scale    = 10.000000
    Scale Origin    = 0.000000
    Min Y Replace    = -10.000000
    Max Y Replace    = 10.000000
    Num Points    = 2
        Point X    = 0
        Point Y    = 0
        Point X    = 628
        Point Y    = 0
    Name    = - Declination (Rem)
    Type    = 11
    Join Type     = LINES
    Graph Length    = 200.000000
    Min X    = 0.000000
    Max X    = 0.000000
    Min Y Scale    = -360.000000
    Max Y Scale    = 360.000000
    Scale Origin    = 1.000000
    Min Y Replace    = -360.000000
    Max Y Replace    = 360.000000
    Num Points    = 2
        Point X    = 0
        Point Y    = 0
        Point X    = 628
        Point Y    = 0
    Name    = - Inclination (Rem)
    Type    = 12
    Join Type     = LINES
    Graph Length    = 200.000000
    Min X    = 0.000000
    Max X    = 0.000000
    Min Y Scale    = -360.000000
    Max Y Scale    = 360.000000
    Scale Origin    = 1.000000
    Min Y Replace    = -360.000000
    Max Y Replace    = 360.000000
    Num Points    = 2
        Point X    = 0
        Point Y    = 0
        Point X    = 628
        Point Y    = 0
    Name    = - Intensity (Rem)
    Type    = 13
    Join Type     = LINES
    Graph Length    = 200.000000
    Min X    = 0.000000
    Max X    = 0.000000
    Min Y Scale    = -5.000000
    Max Y Scale    = 5.000000
    Scale Origin    = 0.000000
    Min Y Replace    = -5.000000
    Max Y Replace    = 5.000000
    Num Points    = 2
        Point X    = 0
        Point Y    = 0
        Point X    = 628
        Point Y    = 0
    Surface Type    = FLAT_SURFACE
    Surface Filename    =      
    Surface Directory    = \psf\Home
    Surface XDim    = 0.000000
    Surface YDim    = 0.000000
    Surface ZDim    = 0.000000
    Name    = $NAME$".

Definition fold : string :=
"	Type	= Sine
	Single Fold	= FALSE
	X	=   $POS_X$
	Y	=   $POS_Y$
	Z	=   $POS_Z$
	Dip Direction	=  $DIP_DIR$
	Dip	=  $DIP$
	Pitch	=   0.00
	Wavelength	= $WAVELENGTH$
	Amplitude	= $AMPLITUDE$
	Cylindricity	=   0.00
	Fourier Series
		Term A 0	=   0.00
		Term B 0	=   0.00
		Term A 1	=   0.00
		Term B 1	=   1.00
		Term A 2	=   0.00
		Term B 2	=   0.00
		Term A 3	=   0.00
		Term B 3	=   0.00
		Term A 4	=   0.00
		Term B 4	=   0.00
		Term A 5	=   0.00
		Term B 5	=   0.00
		Term A 6	=   0.00
		Term B 6	=   0.00
		Term A 7	=   0.00
		Term B 7	=   0.00
		Term A 8	=   0.00
		Term B 8	=   0.00
		Term A 9	=   0.00
		Term B 9	=   0.00
		Term A 10	=   0.00
		Term B 10	=   0.00
	Name	= Fold Profile
	Type	= 1
	Join Type 	= LINES
	Graph Length	= 200.000000
	Min X	= 0.000000
	Max X	= 6.280000
	Min Y Scale	= -1.000000
	Max Y Scale	= 1.000000
	Scale Origin	= 0.000000
	Min Y Replace	= -1.000000
	Max Y Replace	= 1.000000
	Num Points	= 21
		Point X	= 0
		Point Y	= 0
		Point X	= 31
		Point Y	= 30
		Point X	= 62
		Point Y	= 58
		Point X	= 94
		Point Y	= 80
		Point X	= 125
		Point Y	= 94
		Point X	= 157
		Point Y	= 99
		Point X	= 188
		Point Y	= 95
		Point X	= 219
		Point Y	= 81
		Point X	= 251
		Point Y	= 58
		Point X	= 282
		Point Y	= 31
		Point X	= 314
		Point Y	= 0
		Point X	= 345
		Point Y	= -31
		Point X	= 376
		Point Y	= -59
		Point X	= 408
		Point Y	= -81
		Point X	= 439
		Point Y	= -95
		Point X	= 471
		Point Y	= -100
		Point X	= 502
		Point Y	= -96
		Point X	= 533
		Point Y	= -82
		Point X	= 565
		Point Y	= -59
		Point X	= 596
		Point Y	= -32
		Point X	= 628
		Point Y	= -1
	Name	= $NAME$".

Definition tilt : string :=
"X    =   $POS_X$
    Y    =   $POS_Y$
    Z    =   $POS_Z$
    Rotation     =  $ROTATION$
    Plunge Direction     = $PLUNGE_DIRECTION$
    Plunge     =   $PLUNGE$
    Name    = $NAME$".

Definition unconformity : string :=
"X    =   $POS_X$
    Y    =   $POS_Y$
    Z    = $POS_Z$
    Dip Direction    =  $DIP_DIRECTION$
    Dip    =   $DIP$
    Alteration Type     = NONE
    Num Profiles    = 1
    Name    =    
    Type    = 0
    Join Type     = LINES
    Graph Length    = 0.000000
    Min X    = 0.000000
    Max X    = 0.000000
    Min Y Scale    = 0.000000
    Max Y Scale    = 0.000000
    Scale Origin    = 0.000000
    Min Y Replace    = 0.000000
    Max Y Replace    = 0.000000
    Num Points    = 0
    Surface Type    = FLAT_SURFACE
    Surface Filename    =       
    Surface Directory    = /tmp_mnt/sci6/users/mark/Atlas/case
    Surface XDim    = 0.000000
    Surface YDim    = 0.000000
    Surface ZDim    = 0.000000".

Definition footer : string :=
"
#BlockOptions
    Number of Views    = 1
    Current View    = 0
    NAME    = Default
    Origin X    =   0.00
    Origin Y    =   0.00
    Origin Z    = 5000.00
    Length X    = 10000.00
    Length Y    = 7000.00
    Length Z    = 5000.00
    Geology Cube Size    =  50.00
    Geophysics Cube Size    = 50.00

#GeologyOptions
    Scale    =  10.00
    SectionDec    =  90.00
    WellDepth    = 5000.00
    WellAngleZ    =   0.00
    BoreholeX    =   0.00
    BoreholeX    =   0.00
    BoreholeX    = 5000.00
    BoreholeDecl    =  90.00
    BoreholeDip    =   0.00
    BoreholeLength    = 5000.00
    SectionX    =   0.00
    SectionY    =   0.00
    SectionZ    = 5000.00
    SectionDecl    =  90.00
    SectionLength    = 10000.00
    SectionHeight    = 5000.00
    topofile    = FALSE
    Topo Filename    =    
    Topo Directory    = .
    Topo Scale    =   1.00
    Topo Offset    =   0.00
    Topo First Contour    = 100.00
    Topo Contour Interval    = 100.00
    Chair Diagram    = FALSE
    Chair_X    = 5000.00
    Chair_Y    = 3500.00
    Chair_Z    = 2500.00

#GeophysicsOptions
    GPSRange     = 0
    Declination    =   0.00
    Inclination    = -67.00
    Intensity    = 63000.00
    Field Type    = FIXED
    Field xPos    =   0.00
    Field yPos    =   0.00
    Field zPos    = 5000.00
    Inclination Ori    =   0.00
    Inclination Change    =   0.00
    Intensity Ori    =  90.00
    Intensity Change    =   0.00
    Declination Ori    =   0.00
    Declination Change    =   0.00
    Altitude    =  80.00
    Airborne=     FALSE
    Calculation Method    = SPATIAL
    Spectral Padding Type    = RECLECTION_PADDING
    Spectral Fence    = 100
    Spectral Percent    = 100
    Constant Boxing Depth    =   0.00
    Clever Boxing Ratio    =   1.00
    Deformable Remanence=     FALSE
    Deformable Anisotropy=     TRUE
    Vector Components=     FALSE
    Project Vectors=     TRUE
    Pad With Real Geology=     FALSE
    Draped Survey=     FALSE

#3DOptions
    Declination    = 150.000000
    Elevation    = 30.000000
    Scale    = 1.000000
    Offset X    = 1.000000
    Offset Y    = 1.000000
    Offset Z    = 1.000000
    Fill Type    = 2

#ProjectOptions
    Susceptibility Units    = CGS
    Geophysical Calculation    = 2
    Calculation Type    = LOCAL_JOB
    Length Scale    = 0
    Printing Scale    = 1.000000
    Image Scale    = 10.000000
    New Windows    = FALSE
    Background Red Component    = 254
    Background Green Component    = 254
    Background Blue Component    = 254
    Internet Address    = 255.255.255.255
    Account Name    =       
    Noddy Path    = ./noddy
    Help Path    = iexplore %h
    Movie Frames Per Event    = 3
    Movie Play Speed    =  10.00
    Movie Type    = 0
    Gravity Clipping Type    = RELATIVE_CLIPPING
    Gravity Image Display Clip Min    = 0.000000
    Gravity Image Display Clip Max    = 100.000000
    Gravity Image Display Type    = GREY
    Gravity Image Display Num Contour    = 25
    Magnetics Clipping Type    = RELATIVE_CLIPPING
    Magnetics Image Display Clip Min    = 0.000000
    Magnetics Image Display Clip Max    = 100.000000
    Magnetics Image Display Type    = GREY
    Magnetics Image Display Num Contour    = 25
    False Easting    = 0.000000
    False Northing    = 0.000000

#Window Positions
    Num Windows    = 16
    Name    = Block Diagram
    X    = 60
    Y    = 60
    Width    = 500
    Height    = 300
    Name    = Movie
    X    = 60
    Y    = 60
    Width    = -1
    Height    = -1
    Name    = Well Log
    X    = 60
    Y    = 60
    Width    = 400
    Height    = 430
    Name    = Section
    X    = 14
    Y    = 16
    Width    = 490
    Height    = -1
    Name    = Topography Map
    X    = 60
    Y    = 60
    Width    = 490
    Height    = 375
    Name    = 3D Topography Map
    X    = 60
    Y    = 60
    Width    = 490
    Height    = 375
    Name    = 3D Stratigraphy
    X    = 60
    Y    = 60
    Width    = 490
    Height    = 375
    Name    = Line Map
    X    = 60
    Y    = 60
    Width    = 490
    Height    = -1
    Name    = Profile - From Image
    X    = 60
    Y    = 60
    Width    = 490
    Height    = 600
    Name    = Sterographic Projections
    X    = 60
    Y    = 60
    Width    = 430
    Height    = 430
    Name    = Stratigraphic Column
    X    = 60
    Y    = 60
    Width    = 230
    Height    = 400
    Name    = Image
    X    = 30
    Y    = 30
    Width    = -1
    Height    = -1
    Name    = Contour
    X    = 30
    Y    = 30
    Width    = -1
    Height    = -1
    Name    = Toolbar
    X    = 10
    Y    = 0
    Width    = -1
    Height    = -1
    Name    = History
    X    = 229
    Y    = 160
    Width    = 762
    Height    = 898
    Name    = History
    X    = 229
    Y    = 160
    Width    = 762
    Height    = 898

#Icon Positions
    Num Icons    = 3
    Row    = 1
    Column    = 1
    X Position    = 1
    Y Position    = 1
    Row    = 1
    Column    = 2
    X Position    = 4
    Y Position    = 1
    Row    = 1
    Column    = 3
    X Position    = 7
    Y Position    = 1
    Floating Menu Rows    = 1
    Floating Menu Cols    = 24
End of Status Report".

(** The layer template after its [Height] line. *)
Definition strati_rest : string :=
  Eval vm_compute in String.substring 51 475 strati_layer.

End Templates.

(** ** Event records *)
Module Events.

Import PyStr Py.

(** Modelled from the spec: the event classes of [events.py], which is not
    under src/. The nine variants are the classes that [determine_events]
    and the builders of [history.py] instantiate. *)
Inductive EventClass :=
  | Stratigraphy | Fault | Fold | Unconformity | Tilt | Dyke | Plug | Strain | Shear.

(** Modelled from the spec: the type tag that a class of [events.py] gives
    its instances; the tags are the strings [determine_events] looks for. *)
Definition class_tag (c : EventClass) : string :=
  match c with
  | Stratigraphy => "STRATIGRAPHY"
  | Fault => "FAULT"
  | Fold => "FOLD"
  | Unconformity => "UNCONFORMITY"
  | Tilt => "TILT"
  | Dyke => "DYKE"
  | Plug => "PLUG"
  | Strain => "STRAIN"
  | Shear => "SHEAR_ZONE"
  end.

(** Modelled from the spec: a layer of [events.py] with its property
    mapping (the attribute [properties] of a layer object). *)
Record Layer := {
  layer_properties : dict PyKey PyVal
}.

(** Modelled from the spec: an event object of [events.py]: its type tag,
    its raw lines, its property mapping and, for the stratigraphy-bearing
    classes, its layers. *)
Record Event := {
  event_class : EventClass;
  event_type : string;
  event_lines : list string;
  properties : dict PyKey PyVal;
  layers : list Layer;
  num_layers : option PyVal
}.

(** Modelled from the spec: a line [<label> = <value>], with the white
    space around label and value trimmed. *)
Definition field_of_line (line : string) : option (string * string) :=
  match split "="%char line with
  | l :: v :: _ => Some (strip l, strip v)
  | _ => None
  end.

(** Modelled from the spec: a scalar value is a float where the text is a
    number, and the text itself otherwise. *)
Definition parse_value (s : string) : PyVal :=
  match py_float s with
  | Some q => VFloat q
  | None => VStr s
  end.

(** Modelled from the spec: the properties of a span of lines, one entry
    per label, taken from the first line that carries the label. *)
Fixpoint parse_properties (lines : list string) : dict PyKey PyVal :=
  match lines with
  | [] => []
  | line :: rest =>
      match field_of_line line with
      | Some (k, v) =>
          (KStr k, parse_value v) ::
          filter (fun kv => kv.1 ≠ KStr k) (parse_properties rest)
      | None => parse_properties rest
      end
  end.

Definition is_layer_start (line : string) : bool :=
  match field_of_line line with
  | Some (k, _) => String.eqb k "Unit Name"
  | None => false
  end.

(** Modelled from the spec: the lines before the first layer block, and the
    layer blocks, each starting at its [Unit Name] line. *)
Fixpoint layer_blocks (lines : list string) : list string * list (list string) :=
  match lines with
  | [] => ([], [])
  | line :: rest =>
      let '(pre, blocks) := layer_blocks rest in
      if is_layer_start line then ([], (line :: pre) :: blocks)
      else (line :: pre, blocks)
  end.

Definition has_layers (c : EventClass) : bool :=
  match c with
  | Stratigraphy | Unconformity => true
  | _ => false
  end.

(** Modelled from the spec: decoding a span of lines into an event of the
    given class; as many layers as there are layer blocks. *)
Definition parse_event_lines (c : EventClass) (ty : string) (lines : list string) : Event :=
  {| event_class := c;
     event_type := ty;
     event_lines := lines;
     properties := parse_properties lines;
     layers := if has_layers c
               then (fun b => {| layer_properties := parse_properties b |}) <$> (layer_blocks lines).2
               else [];
     num_layers := None |}.

(** Modelled from the spec: the constructor of an event class, called with
    [lines=...] by [determine_events] and without lines by the builders. *)
Definition new_event (c : EventClass) (lines : option (list string)) : Event :=
  parse_event_lines c (class_tag c) (default [] lines).

Definition set_raw_lines (ls : list string) (e : Event) : Event :=
  {| event_class := event_class e;
     event_type := event_type e;
     event_lines := ls;
     properties := properties e;
     layers := layers e;
     num_layers := num_layers e |}.

Definition set_event_type (ty : string) (e : Event) : Event :=
  {| event_class := event_class e;
     event_type := ty;
     event_lines := event_lines e;
     properties := properties e;
     layers := layers e;
     num_layers := num_layers e |}.

Definition set_properties (p : dict PyKey PyVal) (e : Event) : Event :=
  {| event_class := event_class e;
     event_type := event_type e;
     event_lines := event_lines e;
     properties := p;
     layers := layers e;
     num_layers := num_layers e |}.

Definition set_layers (ls : list Layer) (e : Event) : Event :=
  {| event_class := event_class e;
     event_type := event_type e;
     event_lines := event_lines e;
     properties := properties e;
     layers := ls;
     num_layers := num_layers e |}.

Definition set_num_layers (n : option PyVal) (e : Event) : Event :=
  {| event_class := event_class e;
     event_type := event_type e;
     event_lines := event_lines e;
     properties := properties e;
     layers := layers e;
     num_layers := n |}.

(** Modelled from the spec: [set_event_lines] decodes the lines it is
    given, so that a built event is like one loaded from a document. *)
Definition set_event_lines (lines : list string) (e : Event) : Event :=
  set_num_layers (num_layers e) (parse_event_lines (event_class e) (event_type e) lines).

(** Modelled from the spec: [set_event_number] rewrites the embedded order
    field, the first raw line [Event #<n><TAB>= <TYPE>]; an event without
    lines has no such field. *)
Definition event_header (num : Z) (ty : string) : string :=
  "Event #" +:+ fmt_d num +:+ tab +:+ "= " +:+ ty +:+ nl.

Definition set_event_number (num : Z) (e : Event) : Event :=
  set_raw_lines (<[0%nat := event_header num (event_type e)]> (event_lines e)) e.

(** Python's [==] on the scalars of a property mapping. *)
Definition same_scalar (a b : PyVal) : bool :=
  match a, b with
  | VInt x, VInt y => x =? y
  | VInt x, VFloat y => Qeq_bool (inject_Z x) y
  | VFloat x, VInt y => Qeq_bool x (inject_Z y)
  | VFloat x, VFloat y => Qeq_bool x y
  | VStr x, VStr y => String.eqb x y
  | _, _ => false
  end.

Section encode.
(** The number format of a field ([%.1f], [%.2f] or [%e], by field):
    the table is part of [events.py]. *)
Variable field_fmt : string -> Q -> string.

(** Modelled from the spec: the text of a mutated scalar. *)
Definition encode_value (k : string) (v : PyVal) : option string :=
  match v with
  | VInt z => Some (field_fmt k (inject_Z z))
  | VFloat q => Some (field_fmt k q)
  | VStr s => Some s
  | _ => None
  end.

(** Modelled from the spec: a field line [<label><TAB>= <value>]. *)
Definition encode_field (k : string) (v : PyVal) (old : string) : string :=
  match encode_value k v with
  | Some s => tab +:+ k +:+ tab +:+ "= " +:+ s +:+ nl
  | None => old
  end.

(** Modelled from the spec: re-encoding one property: the first line
    that carries the label is rewritten when the value is no longer the
    one the line decodes to, and is kept verbatim otherwise. *)
Fixpoint update_line (k : string) (v : PyVal) (lines : list string) : list string :=
  match lines with
  | [] => []
  | line :: rest =>
      match field_of_line line with
      | Some (k', v') =>
          if String.eqb k' k
          then (if same_scalar (parse_value v') v then line else encode_field k v line) :: rest
          else line :: update_line k v rest
      | None => line :: update_line k v rest
      end
  end.

Definition update_lines (p : dict PyKey PyVal) (lines : list string) : list string :=
  foldl (fun ls kv => match kv.1 with
                      | KStr k => update_line k kv.2 ls
                      | KInt _ => ls
                      end) lines p.

(** Re-encoding the layers, each inside its own block. *)
Fixpoint update_blocks (ls : list Layer) (blocks : list (list string)) : list (list string) :=
  match ls, blocks with
  | l :: ls', b :: blocks' => update_lines (layer_properties l) b :: update_blocks ls' blocks'
  | _, _ => blocks
  end.

(** Modelled from the spec: [update_properties] regenerates the raw
    lines from the properties and the layers. *)
Definition update_properties (e : Event) : Event :=
  let lines1 := update_lines (properties e) (event_lines e) in
  let '(pre, blocks) := layer_blocks lines1 in
  set_raw_lines (pre ++ concat (update_blocks (layers e) blocks)) e.
End encode.

#[export] Instance Event_inhabited : Inhabited Event :=
  populate (new_event Fault None).

End Events.

(** ** Class [NoddyHistory] *)
Module History.

Import PyStr Py Events.

(** An entry of [_raw_events]: the dictionary with the keys [type], [num],
    [line_start] and [line_end]. *)
Record RawEvent := {
  raw_type : string;
  num : Z;
  line_start : Z;
  line_end : option Z
}.

Definition set_line_end (x : Z) (e : RawEvent) : RawEvent :=
  {| raw_type := raw_type e; num := num e; line_start := line_start e; line_end := Some x |}.

(** Event objects are held by reference: [events] maps an order number to
    a location of [store]. Attributes that an instance may lack are
    options. *)
Abbreviation loc := nat (only parsing).

Record NoddyHistory := {
  history_lines : list string;
  footer_lines : option (list string);
  filename : option string;
  header_lines : option string;
  n_events : option Z;
  raw_events : list RawEvent;
  events : dict Z loc;
  store : list Event;
  all_events_begin : Z;
  all_events_end : Z;
  event_counter : option Z;
  cube_size : option Q;
  zmax : option PyVal
}.

Definition set_history_lines (x : list string) (h : NoddyHistory) : NoddyHistory :=
  {| history_lines := x;
     footer_lines := footer_lines h;
     filename := filename h;
     header_lines := header_lines h;
     n_events := n_events h;
     raw_events := raw_events h;
     events := events h;
     store := store h;
     all_events_begin := all_events_begin h;
     all_events_end := all_events_end h;
     event_counter := event_counter h;
     cube_size := cube_size h;
     zmax := zmax h |}.

Definition set_footer_lines (x : option (list string)) (h : NoddyHistory) : NoddyHistory :=
  {| history_lines := history_lines h;
     footer_lines := x;
     filename := filename h;
     header_lines := header_lines h;
     n_events := n_events h;
     raw_events := raw_events h;
     events := events h;
     store := store h;
     all_events_begin := all_events_begin h;
     all_events_end := all_events_end h;
     event_counter := event_counter h;
     cube_size := cube_size h;
     zmax := zmax h |}.

Definition set_filename (x : option string) (h : NoddyHistory) : NoddyHistory :=
  {| history_lines := history_lines h;
     footer_lines := footer_lines h;
     filename := x;
     header_lines := header_lines h;
     n_events := n_events h;
     raw_events := raw_events h;
     events := events h;
     store := store h;
     all_events_begin := all_events_begin h;
     all_events_end := all_events_end h;
     event_counter := event_counter h;
     cube_size := cube_size h;
     zmax := zmax h |}.

Definition set_header_lines (x : option string) (h : NoddyHistory) : NoddyHistory :=
  {| history_lines := history_lines h;
     footer_lines := footer_lines h;
     filename := filename h;
     header_lines := x;
     n_events := n_events h;
     raw_events := raw_events h;
     events := events h;
     store := store h;
     all_events_begin := all_events_begin h;
     all_events_end := all_events_end h;
     event_counter := event_counter h;
     cube_size := cube_size h;
     zmax := zmax h |}.

Definition set_n_events (x : option Z) (h : NoddyHistory) : NoddyHistory :=
  {| history_lines := history_lines h;
     footer_lines := footer_lines h;
     filename := filename h;
     header_lines := header_lines h;
     n_events := x;
     raw_events := raw_events h;
     events := events h;
     store := store h;
     all_events_begin := all_events_begin h;
     all_events_end := all_events_end h;
     event_counter := event_counter h;
     cube_size := cube_size h;
     zmax := zmax h |}.

Definition set_raw_events (x : list RawEvent) (h : NoddyHistory) : NoddyHistory :=
  {| history_lines := history_lines h;
     footer_lines := footer_lines h;
     filename := filename h;
     header_lines := header_lines h;
     n_events := n_events h;
     raw_events := x;
     events := events h;
     store := store h;
     all_events_begin := all_events_begin h;
     all_events_end := all_events_end h;
     event_counter := event_counter h;
     cube_size := cube_size h;
     zmax := zmax h |}.

Definition set_events (x : dict Z loc) (h : NoddyHistory) : NoddyHistory :=
  {| history_lines := history_lines h;
     footer_lines := footer_lines h;
     filename := filename h;
     header_lines := header_lines h;
     n_events := n_events h;
     raw_events := raw_events h;
     events := x;
     store := store h;
     all_events_begin := all_events_begin h;
     all_events_end := all_events_end h;
     event_counter := event_counter h;
     cube_size := cube_size h;
     zmax := zmax h |}.

Definition set_store (x : list Event) (h : NoddyHistory) : NoddyHistory :=
  {| history_lines := history_lines h;
     footer_lines := footer_lines h;
     filename := filename h;
     header_lines := header_lines h;
     n_events := n_events h;
     raw_events := raw_events h;
     events := events h;
     store := x;
     all_events_begin := all_events_begin h;
     all_events_end := all_events_end h;
     event_counter := event_counter h;
     cube_size := cube_size h;
     zmax := zmax h |}.

Definition set_all_events_begin (x : Z) (h : NoddyHistory) : NoddyHistory :=
  {| history_lines := history_lines h;
     footer_lines := footer_lines h;
     filename := filename h;
     header_lines := header_lines h;
     n_events := n_events h;
     raw_events := raw_events h;
     events := events h;
     store := store h;
     all_events_begin := x;
     all_events_end := all_events_end h;
     event_counter := event_counter h;
     cube_size := cube_size h;
     zmax := zmax h |}.

Definition set_all_events_end (x : Z) (h : NoddyHistory) : NoddyHistory :=
  {| history_lines := history_lines h;
     footer_lines := footer_lines h;
     filename := filename h;
     header_lines := header_lines h;
     n_events := n_events h;
     raw_events := raw_events h;
     events := events h;
     store := store h;
     all_events_begin := all_events_begin h;
     all_events_end := x;
     event_counter := event_counter h;
     cube_size := cube_size h;
     zmax := zmax h |}.

Definition set_event_counter (x : option Z) (h : NoddyHistory) : NoddyHistory :=
  {| history_lines := history_lines h;
     footer_lines := footer_lines h;
     filename := filename h;
     header_lines := header_lines h;
     n_events := n_events h;
     raw_events := raw_events h;
     events := events h;
     store := store h;
     all_events_begin := all_events_begin h;
     all_events_end := all_events_end h;
     event_counter := x;
     cube_size := cube_size h;
     zmax := zmax h |}.

Definition set_cube_size (x : option Q) (h : NoddyHistory) : NoddyHistory :=
  {| history_lines := history_lines h;
     footer_lines := footer_lines h;
     filename := filename h;
     header_lines := header_lines h;
     n_events := n_events h;
     raw_events := raw_events h;
     events := events h;
     store := store h;
     all_events_begin := all_events_begin h;
     all_events_end := all_events_end h;
     event_counter := event_counter h;
     cube_size := x;
     zmax := zmax h |}.

Definition set_zmax (x : option PyVal) (h : NoddyHistory) : NoddyHistory :=
  {| history_lines := history_lines h;
     footer_lines := footer_lines h;
     filename := filename h;
     header_lines := header_lines h;
     n_events := n_events h;
     raw_events := raw_events h;
     events := events h;
     store := store h;
     all_events_begin := all_events_begin h;
     all_events_end := all_events_end h;
     event_counter := event_counter h;
     cube_size := cube_size h;
     zmax := x |}.

(** An instance before any attribute is assigned. *)
Definition blank : NoddyHistory :=
  {| history_lines := []; footer_lines := None; filename := None;
     header_lines := None; n_events := None; raw_events := [];
     events := []; store := []; all_events_begin := 0; all_events_end := 0;
     event_counter := None; cube_size := None; zmax := None |}.

(** Methods run on the instance and may raise; what they assigned before
    raising stays assigned. *)
Definition M (A : Type) : Type := NoddyHistory -> NoddyHistory * result A.

#[export] Instance M_ret : MRet M := fun A a h => (h, Ok a).
#[export] Instance M_bind : MBind M := fun A B f m h =>
  match m h with
  | (h', Ok a) => f a h'
  | (h', Err e) => (h', Err e)
  end.

Definition raise {A} (e : PyError) : M A := fun h => (h, Err e).
Definition gets {A} (f : NoddyHistory -> A) : M A := fun h => (h, Ok (f h)).
Definition modify (f : NoddyHistory -> NoddyHistory) : M unit := fun h => (f h, Ok tt).
Definition lift {A} (r : result A) : M A := fun h => (h, r).

(** The value of an attribute, or [AttributeError]. *)
Definition attr {A} (f : NoddyHistory -> option A) : M A :=
  fun h => (h, of_option AttributeError (f h)).

Fixpoint foldM {A B} (f : B -> A -> M B) (b : B) (l : list A) : M B :=
  match l with
  | [] => mret b
  | x :: l' => b' ← f b x; foldM f b' l'
  end.

Definition forM {A} (f : A -> M unit) (l : list A) : M unit :=
  foldM (fun _ x => f x) tt l.

(** The object a location refers to. *)
Definition deref (h : NoddyHistory) (l : loc) : Event := store h !!! l.

Definition update_obj (l : loc) (f : Event -> Event) : M unit :=
  modify (fun h => set_store (<[l := f (deref h l)]> (store h)) h).

(** A new object in the store. *)
Definition alloc (e : Event) : M loc :=
  fun h => (set_store (store h ++ [e]) h, Ok (length (store h))).

(** The index of the first element that satisfies [p]. *)
Fixpoint find_index {A} (p : A -> bool) (l : list A) : option nat :=
  match l with
  | [] => None
  | x :: l' => if p x then Some O else S <$> find_index p l'
  end.

(** *** The footer *)

(** The lines [create_footer_from_template] builds. *)
Definition template_footer : list string :=
  (fun line => replace "    " tab line +:+ nl) <$> split (ascii_of_nat 10) Templates.footer.

Definition create_footer_from_template : M unit :=
  modify (set_footer_lines (Some template_footer)).

(** [if not hasattr(self, "footer_lines"): self.create_footer_from_template()] *)
Definition ensure_footer : M (list string) :=
  f ← gets footer_lines;
  match f with
  | Some ls => mret ls
  | None => create_footer_from_template;; attr footer_lines
  end.

Definition get_footer_lines : M unit :=
  ls ← gets history_lines;
  match ls with
  | [] => raise UnboundLocalError
  | _ =>
      let i := default (length ls - 1)%nat (find_index (str_in "#BlockOptions") ls) in
      modify (set_footer_lines (Some (drop i ls)))
  end.

Definition cube_string (sim_type : string) : string :=
  if str_in "Geology" sim_type then "Geology Cube Size" else "Geophysics Cube Size".

(** The value a cube-size line holds: [float(line.split('=')[1].rstrip())]. *)
Definition cube_value (line : string) : result Q :=
  v ← list_item 1 (split "="%char line);
  of_option ValueError (py_float (rstrip v)).

(** [get_cube_size(type=sim_type)]; the keyword defaults to ['Geophysics'].
    [None] is the value of a call that falls off the loop. *)
Definition get_cube_size (sim_type : string) : M (option Q) :=
  ls ← ensure_footer;
  match find (str_in (cube_string sim_type)) ls with
  | Some line =>
      q ← lift (cube_value line);
      modify (set_cube_size (Some q));;
      mret (Some q)
  | None => mret None
  end.

(** [l[0] + "=" + '%7.2f\r\n' % cube_size] *)
Definition cube_line (cube_size : Q) (line : string) : string :=
  default "" (head (split "="%char line)) +:+ "=" +:+ fmt_wf 7 2 cube_size +:+ cr +:+ nl.

(** One turn of the loop of [change_cube_size]: both tests look at the
    line as it was. *)
Definition change_cube_line (cube_size : Q) (line : string) : string :=
  let l1 := if str_in "Geophysics Cube Size" line then cube_line cube_size line else line in
  if str_in "Geology Cube Size" line then cube_line cube_size line else l1.

Definition change_cube_size (cube_size : Q) : M unit :=
  ls ← ensure_footer;
  modify (set_footer_lines (Some (change_cube_line cube_size <$> ls))).

(** The label of a field line: the text before its first [=]. *)
Definition label_of (line : string) : string :=
  default "" (head (split "="%char line)).

(** The footer that the footer methods work on. *)
Definition current_footer (h : NoddyHistory) : list string :=
  default template_footer (footer_lines h).


(** *** Loading *)

(** [load_history]: [lines] is what [readlines] returned. *)
Definition load_history (lines : list string) : M unit :=
  modify (set_history_lines lines);;
  get_footer_lines.

(** The branch of the [if]/[elif] chain of the first loop that a line takes. *)
Inductive LineKind := CountLine | EventLine | MarkerLine | OtherLine.

Definition line_kind (line : string) : LineKind :=
  if str_in "No of Events" line then CountLine
  else if str_in "Event #" line then EventLine
  else if str_in "BlockOptions" line then MarkerLine
  else OtherLine.

#[export] Instance LineKind_eq_dec : EqDecision LineKind.
Proof. solve_decision. Defined.

(** One turn of the first loop of [determine_events]; [stop] is the local
    [last_event_stop], unbound until a footer marker line is met. *)
Definition scan_line (stop : option Z) (il : nat * string) : M (option Z) :=
  let '(i, line) := il in
  match line_kind line with
  | CountLine =>
      v ← lift (list_item 1 (split "="%char line));
      n ← lift (of_option ValueError (py_int v));
      modify (set_n_events (Some n));;
      mret stop
  | EventLine =>
      t ← lift (list_item 1 (split "="%char line));
      n ← lift (of_option ValueError (py_int (str_slice 7 9 line)));
      modify (fun h => set_raw_events
        (raw_events h ++ [{| raw_type := rstrip t; num := n;
                             line_start := Z.of_nat i; line_end := None |}]) h);;
      mret stop
  | MarkerLine => mret (Some (Z.of_nat i - 2))
  | OtherLine => mret stop
  end.

(** The indices of the event header lines of a document whose first line
    has index [i], in ascending order. *)
Fixpoint event_starts (i : Z) (lines : list string) : list Z :=
  match lines with
  | [] => []
  | line :: rest =>
      (if decide (line_kind line = EventLine) then [i] else []) ++ event_starts (i + 1) rest
  end.

(** The index of the last footer marker line. *)
Fixpoint last_marker (i : Z) (lines : list string) : option Z :=
  match lines with
  | [] => None
  | line :: rest =>
      match last_marker (i + 1) rest with
      | Some j => Some j
      | None => if decide (line_kind line = MarkerLine) then Some i else None
      end
  end.

(** The second loop: every event but the last ends on the line before the
    next event starts. *)
Fixpoint set_line_ends (evs : list RawEvent) : list RawEvent :=
  match evs with
  | e :: (e' :: _) as rest => set_line_end (line_start e' - 1) e :: set_line_ends rest
  | _ => evs
  end.

(** [self._raw_events[-1]['line_end'] = x] *)
Fixpoint set_last_line_end (x : Z) (evs : list RawEvent) : list RawEvent :=
  match evs with
  | [] => []
  | [e] => [set_line_end x e]
  | e :: rest => e :: set_last_line_end x rest
  end.

(** The class that decodes a type string, by the order of the tests. *)
Definition event_class_of (ty : string) : option EventClass :=
  if str_in "FAULT" ty then Some Fault
  else if str_in "SHEAR_ZONE" ty then Some Shear
  else if str_in "FOLD" ty then Some Fold
  else if str_in "UNCONFORMITY" ty then Some Unconformity
  else if str_in "STRATIGRAPHY" ty then Some Stratigraphy
  else if str_in "TILT" ty then Some Tilt
  else if str_in "DYKE" ty then Some Dyke
  else if str_in "PLUG" ty then Some Plug
  else if str_in "STRAIN" ty then Some Strain
  else None.

(** [self.events[k] = ev] for a new object [ev]. *)
Definition store_event (k : Z) (ev : Event) : M unit :=
  l ← alloc ev;
  modify (fun h => set_events (dict_set k l (events h)) h).

(** One turn of the third loop: the event object of a raw event. *)
Definition create_event (e : RawEvent) : M unit :=
  lines ← gets history_lines;
  stop ← lift (of_option KeyError (line_end e));
  let event_lines := slice (line_start e) (stop + 1) lines in
  match event_class_of (raw_type e) with
  | Some c => store_event (num e) (new_event c (Some event_lines))
  | None => mret tt
  end.

Definition determine_events : M unit :=
  modify (set_raw_events []);;
  lines ← gets history_lines;
  stop ← foldM scan_line None (enumerate lines);
  modify (fun h => set_raw_events (set_line_ends (raw_events h)) h);;
  last_event_stop ← lift (of_option UnboundLocalError stop);
  raw ← gets raw_events;
  (if decide (raw = []) then raise IndexError else mret tt);;
  modify (fun h => set_raw_events (set_last_line_end last_event_stop (raw_events h)) h);;
  modify (set_events []);;
  raw ← gets raw_events;
  forM create_event raw;;
  first ← lift (of_option IndexError (head raw));
  final ← lift (of_option IndexError (last raw));
  final_end ← lift (of_option KeyError (line_end final));
  modify (set_all_events_begin (line_start first));;
  modify (set_all_events_end final_end).

Definition create_new_history : M unit :=
  modify (set_event_counter (Some 0));;
  modify (set_all_events_begin 7);;
  modify (set_all_events_end 7);;
  modify (set_history_lines []);;
  modify (set_events []).

(** [NoddyHistory(history)]: the instance, or the exception that leaves
    the caller without one. [history] is the content of the file as
    [readlines] gives it; [None] is a call without a file. *)
Definition NoddyHistory_init (history : option (list string)) : result NoddyHistory :=
  let m := match history with
           | None => create_new_history
           | Some lines => load_history lines;; determine_events
           end in
  match m blank with
  | (h, Ok _) => Ok h
  | (_, Err e) => Err e
  end.

(** *** Reordering *)

Definition update_event_numbers : M unit :=
  evs ← gets events;
  forM (fun kl => update_obj kl.2 (set_event_number kl.1)) evs.

(** The store after the loop of [update_event_numbers] over [evs]. *)
Definition renumbered (evs : dict Z loc) (st : list Event) : list Event :=
  foldl (fun st kl => <[kl.2 := set_event_number kl.1 (st !!! kl.2)]> st) st evs.

(** The last key of [evs], in its order, that refers to the object [l]. *)
Definition owner (l : loc) (evs : dict Z loc) : option Z :=
  foldl (fun o kl => if decide (kl.2 = l) then Some kl.1 else o) None evs.

(** What a renumbering does to an object: its first line is the header of
    its owner, if it has one. *)
Definition renumber_obj (evs : dict Z loc) (l : loc) (e : Event) : Event :=
  from_option (fun k => set_event_number k e) e (owner l evs).

Definition swap_events (event_num_1 event_num_2 : Z) : M unit :=
  evs ← gets events;
  event_tmp ← lift (dict_item event_num_1 evs);
  other ← lift (dict_item event_num_2 evs);
  modify (fun h => set_events (dict_set event_num_1 other (events h)) h);;
  modify (fun h => set_events (dict_set event_num_2 event_tmp (events h)) h);;
  update_event_numbers.

(** *** Parameters *)

(** [self.events[key].properties[sub_key] = val] *)
Definition set_event_param (key : Z) (kv : PyKey * PyVal) : M unit :=
  evs ← gets events;
  l ← lift (dict_item key evs);
  update_obj l (fun e => set_properties (dict_set kv.1 kv.2 (properties e)) e).

Definition set_event_params (params_dict : dict Z (dict PyKey PyVal)) : M unit :=
  forM (fun ks => forM (set_event_param ks.1) ks.2) params_dict.

(** [d[k] += x]: the item is read, added to, and assigned. *)
Definition dict_iadd (k : option PyKey) (x : result PyVal) (d : dict PyKey PyVal)
  : result (dict PyKey PyVal) :=
  k' ← of_option KeyError k;
  old ← dict_item k' d;
  x' ← x;
  new ← py_add old x';
  Ok (dict_set k' new d).

(** [val[name]] for the mapping [val] that describes a layer change. *)
Definition mapping_item (name : string) (val : PyVal) : result PyVal :=
  match val with
  | VDict d => dict_item name d
  | VTuple _ | VList _ | VStr _ => Err TypeError
  | VInt _ | VFloat _ => Err TypeError
  end.

Definition replace_nth {A} (i : nat) (x : A) (l : list A) : list A := <[i := x]> l.

(** The position of [l[i]] in [l], for an index that may be negative. *)
Definition norm_index {A} (i : Z) (l : list A) : result nat :=
  if 0 <=? i then
    (if i <? Z.of_nat (length l) then Ok (Z.to_nat i) else Err IndexError)
  else if 0 <=? i + Z.of_nat (length l) then Ok (Z.to_nat (i + Z.of_nat (length l)))
  else Err IndexError.

Definition change_event_param (key : Z) (kv : PyKey * PyVal) : M unit :=
  evs ← gets events;
  l ← lift (dict_item key evs);
  e ← gets (fun h => deref h l);
  match kv.1 with
  | KInt sub_key =>
      i ← lift (norm_index sub_key (layers e));
      layer ← lift (list_item i (layers e));
      name ← lift (mapping_item "property" kv.2);
      k ← lift (as_key name);
      p ← lift (dict_iadd k (mapping_item "val" kv.2) (layer_properties layer));
      update_obj l (fun e => set_layers (replace_nth i {| layer_properties := p |} (layers e)) e)
  | KStr _ =>
      p ← lift (dict_iadd (Some kv.1) (Ok kv.2) (properties e));
      update_obj l (set_properties p)
  end.

Definition change_event_params (changes_dict : dict Z (dict PyKey PyVal)) : M unit :=
  forM (fun ks => forM (change_event_param ks.1) ks.2) changes_dict.

(** *** Building events *)

Definition lf : ascii := ascii_of_nat 10.


(** [[line + "\n" for line in tmp_lines]] *)
Definition add_nl (tmp_lines : list string) : list string :=
  (fun line => line +:+ nl) <$> tmp_lines.

(** [range(n)] *)
Definition range (n : PyVal) : result (list nat) :=
  match n with
  | VInt z => Ok (seq 0 (Z.to_nat z))
  | _ => Err TypeError
  end.

(** An element of a numpy array of 64-bit integers or of doubles. *)
Inductive np_num :=
  | NInt (z : Z)
  | NFloat (x : float64).

Definition in_int64 (z : Z) : bool := (- 2 ^ 63 <=? z) && (z <? 2 ^ 63).

(** Addition of 64-bit integers wraps around. *)
Definition wrap64 (z : Z) : Z := (z + 2 ^ 63) mod 2 ^ 64 - 2 ^ 63.

(** [a + x] on doubles, for a finite [x]. *)
Definition add_double (a : float64) (x : Q) : float64 :=
  match a with
  | Finite q => round_double (q + x)
  | Infinite neg => Infinite neg
  end.

(** [np.add.accumulate]: the first element as it is, every further one
    the element before it plus the item. *)
Fixpoint cumsum_from {A B} (add : A -> B -> A) (acc : A) (l : list B) : list A :=
  match l with
  | [] => []
  | x :: l' => add acc x :: cumsum_from add (add acc x) l'
  end.

(** The items of a sequence, or the value itself. *)
Definition sequence_items (v : PyVal) : list PyVal :=
  match v with
  | VList l | VTuple l => l
  | _ => [v]
  end.

Definition cumsum_int (zs : list Z) : list Z :=
  match zs with
  | [] => []
  | z :: l => z :: cumsum_from (fun a x => wrap64 (a + x)) z l
  end.

Definition cumsum_double (qs : list Q) : list float64 :=
  match qs with
  | [] => []
  | q :: l => Finite q :: cumsum_from add_double (Finite q) l
  end.

Definition is_int (v : PyVal) : bool :=
  match v with
  | VInt _ => true
  | _ => false
  end.

(** An item of an array of 64-bit integers. An integer beyond 64 bits
    makes numpy choose another element type, which is outside the model:
    [OverflowError] stands for it. *)
Definition as_int64 (v : PyVal) : result Z :=
  match v with
  | VInt z => if in_int64 z then Ok z else Err OverflowError
  | _ => Err TypeError
  end.

(** An item of an array of doubles: the nearest double. *)
Definition as_double (v : PyVal) : result Q :=
  match v with
  | VInt z => z ← as_int64 v; float_of_int z
  | VFloat q => finite (round_double q)
  | _ => Err TypeError
  end.

(** [np.cumsum(v)] on a number or a flat sequence of numbers: an array of
    64-bit integers where every item is an integer, an array of doubles
    otherwise; the sums are those of the element type. Nested sequences
    are outside the model. *)
Definition np_cumsum (v : PyVal) : result (list np_num) :=
  let items := sequence_items v in
  if forallb is_int items then
    zs ← mapM as_int64 items;
    Ok (NInt <$> cumsum_int zs)
  else
    qs ← mapM as_double items;
    Ok (NFloat <$> cumsum_double qs).

(** ["%.<prec>f" % x] for an element [x] of an array: an integer is
    converted to a double first. *)
Definition fmt_np (prec : nat) (x : np_num) : string :=
  match x with
  | NInt z => fmt_double prec (round_double (inject_Z z))
  | NFloat x => fmt_double prec x
  end.

(** The sum of the first [i + 1] numbers of [qs]. *)
Definition prefix_sum (qs : list Q) (i : nat) : Q :=
  foldr Qplus 0%Q (take (S i) qs).

(** The first [i + 1] doubles of [ds] added from the left, every sum
    rounded to the nearest double. *)
Definition double_sum (ds : list Q) (i : nat) : float64 :=
  match ds with
  | [] => Finite 0
  | d :: l => foldl add_double (Finite d) (take i l)
  end.

(** [x] is the sum of the first [i + 1] of the numbers [qs] as numpy
    forms it. In an array of integers ([ints]) it is the 64-bit integer
    that differs from the sum by a multiple of [2^64]; in an array of
    doubles the numbers are rounded to doubles and added as doubles. *)
Definition running_sum (ints : bool) (qs : list Q) (i : nat) (x : np_num) : Prop :=
  if ints then
    exists z s : Z,
      x = NInt z /\ in_int64 z = true /\ (inject_Z s == prefix_sum qs i)%Q /\
      (z - s) mod 2 ^ 64 = 0
  else
    exists ds : list Q,
      Forall2 (fun q d => round_double q = Finite d) qs ds /\
      x = NFloat (double_sum ds i).

(** Nothing is rounded up to item [i]: every number and every sum is a
    double and, in an array of integers, the sum lies within 64 bits. *)
Definition exact_sums (ints : bool) (qs : list Q) (i : nat) : Prop :=
  (forall j q, (j <= i)%nat -> qs !! j = Some q ->
     is_double q /\ is_double (prefix_sum qs j)) /\
  (ints = true ->
   (inject_Z (- 2 ^ 63) <= prefix_sum qs i)%Q /\ (prefix_sum qs i < inject_Z (2 ^ 63))%Q).

(** A layer name without [$] and without a line feed. *)
Definition plain_name (name : string) : bool :=
  all_chars (fun c => negb (Ascii.eqb c "$"%char) && negb (Ascii.eqb c lf)) name.

(** [event_options[k][i]] *)
Definition option_at (event_options : dict string PyVal) (k : string) (i : nat) : result PyVal :=
  v ← dict_item k event_options; subscript v i.

(** [try: density = event_options['density'][i] except KeyError: density = 4.0] *)
Definition layer_density (event_options : dict string PyVal) (i : nat) : result PyVal :=
  match option_at event_options "density" i with
  | Err KeyError => Ok (VFloat 4)
  | r => r
  end.

(** The body of the layer loop of [_create_stratigraphy]. *)
Definition strati_layer_lines (event_options : dict string PyVal) (i : nat) : result (list string) :=
  layer_name ← option_at event_options "layer_names" i;
  density ← layer_density event_options i;
  thickness ← dict_item "layer_thickness" event_options;
  cum_thickness ← np_cumsum thickness;
  let layer_lines := Templates.strati_layer in
  name ← as_str layer_name;
  let layer_lines := replace "$NAME$" name layer_lines in
  height ← list_item i cum_thickness;
  let layer_lines := replace "$HEIGHT$" (fmt_np 1 height) layer_lines in
  let layer_lines := replace "    " tab layer_lines in
  d ← percent_e density;
  let layer_lines := replace "$DENSITY$" d layer_lines in
  Ok (split lf layer_lines).

Definition _create_stratigraphy (event_options : dict string PyVal) : result Event :=
  let ev := new_event Stratigraphy None in
  n ← dict_item "num_layers" event_options;
  count ← percent_d n;
  let tmp_lines := [""; tab +:+ "Num Layers" +:+ tab +:+ "= " +:+ count] in
  turns ← range n;
  layer_lines ← mapM (strati_layer_lines event_options) turns;
  let tmp_lines := tmp_lines ++ concat layer_lines ++ [tab +:+ "Name" +:+ tab +:+ "= Strat"] in
  let ev := set_event_lines (add_nl tmp_lines) ev in
  Ok (set_num_layers (Some n) ev).

(** [text.replace(placeholder, "%.1f" % v)] *)
Definition subst_f (placeholder : string) (v : PyVal) (text : string) : result string :=
  s ← percent_f 1 v; Ok (replace placeholder s text).

(** [event_options.get(k, d)] *)
Definition option_get (event_options : dict string PyVal) (k : string) (d : PyVal) : PyVal :=
  default d (dict_get k event_options).

Definition is_top (v : PyVal) : bool :=
  match v with
  | VStr s => String.eqb s "top"
  | _ => false
  end.

(** The substitutions of [$POS_X$], [$POS_Y$] and [$POS_Z$], shared by
    the builders that take a position. *)
Definition subst_pos (event_options : dict string PyVal) (text : string) : M string :=
  x ← lift (option_at event_options "pos" 0);
  text ← lift (subst_f "$POS_X$" x text);
  y ← lift (option_at event_options "pos" 1);
  text ← lift (subst_f "$POS_Y$" y text);
  pos ← lift (dict_item "pos" event_options);
  if is_top pos then
    z ← attr zmax;
    lift (subst_f "$POS_Z$" z text)
  else
    z ← lift (option_at event_options "pos" 2);
    lift (subst_f "$POS_Z$" z text).

Section runtime.
(** [str(v)] for a value that is not a string: the shortest text of a
    float and the display of a sequence are left to the interpreter. *)
Variable py_str : PyVal -> string.

(** ["%s" % v] *)
Definition percent_s (v : PyVal) : result string :=
  x ← single_arg v;
  match x with
  | VStr s => Ok s
  | _ => Ok (py_str x)
  end.

Definition subst_s (placeholder : string) (v : PyVal) (text : string) : result string :=
  s ← percent_s v; Ok (replace placeholder s text).

Definition _create_fault (event_options : dict string PyVal) : M Event :=
  let ev := new_event Fault None in
  let fault_lines := Templates.fault in
  name ← lift (dict_item "name" event_options ≫= as_str);
  let fault_lines := replace "$NAME$" name fault_lines in
  fault_lines ← subst_pos event_options fault_lines;
  v ← lift (dict_item "dip_dir" event_options);
  fault_lines ← lift (subst_f "$DIP_DIR$" v fault_lines);
  v ← lift (dict_item "dip" event_options);
  fault_lines ← lift (subst_f "$DIP$" v fault_lines);
  v ← lift (dict_item "slip" event_options);
  fault_lines ← lift (subst_f "$SLIP$" v fault_lines);
  fault_lines ← lift (subst_s "$MOVEMENT$" (option_get event_options "movement" (VStr "Hanging Wall")) fault_lines);
  fault_lines ← lift (subst_s "$GEOMETRY$" (option_get event_options "geometry" (VStr "Translation")) fault_lines);
  fault_lines ← lift (subst_f "$ROTATION$" (option_get event_options "rotation" (VFloat 30)) fault_lines);
  fault_lines ← lift (subst_f "$AMPLITUDE$" (option_get event_options "amplitude" (VFloat 2000)) fault_lines);
  fault_lines ← lift (subst_f "$RADIUS$" (option_get event_options "radius" (VFloat 1000)) fault_lines);
  fault_lines ← lift (subst_f "$XAXIS$" (option_get event_options "xaxis" (VFloat 2000)) fault_lines);
  fault_lines ← lift (subst_f "$YAXIS$" (option_get event_options "yaxis" (VFloat 2000)) fault_lines);
  fault_lines ← lift (subst_f "$ZAXIS$" (option_get event_options "zaxis" (VFloat 2000)) fault_lines);
  let tmp_lines := "" :: split lf fault_lines in
  mret (set_event_lines (add_nl tmp_lines) ev).

Definition _create_fold (event_options : dict string PyVal) : M Event :=
  let ev := new_event Fault None in
  let fault_lines := Templates.fold in
  name ← lift (dict_item "name" event_options ≫= as_str);
  let fault_lines := replace "$NAME$" name fault_lines in
  fault_lines ← subst_pos event_options fault_lines;
  v ← lift (dict_item "wavelength" event_options);
  fault_lines ← lift (subst_f "$WAVELENGTH$" v fault_lines);
  v ← lift (dict_item "amplitude" event_options);
  fault_lines ← lift (subst_f "$AMPLITUDE$" v fault_lines);
  fault_lines ← lift (subst_f "$DIP_DIR$" (option_get event_options "dip_dir" (VFloat 90)) fault_lines);
  fault_lines ← lift (subst_f "$DIP$" (option_get event_options "dip" (VFloat 90)) fault_lines);
  let tmp_lines := "" :: split lf fault_lines in
  mret (set_event_lines (add_nl tmp_lines) ev).

Definition _create_tilt (event_options : dict string PyVal) : M Event :=
  let ev := new_event Tilt None in
  let tilt_lines := Templates.tilt in
  name ← lift (dict_item "name" event_options ≫= as_str);
  let tilt_lines := replace "$NAME$" name tilt_lines in
  tilt_lines ← subst_pos event_options tilt_lines;
  v ← lift (dict_item "rotation" event_options);
  tilt_lines ← lift (subst_f "$ROTATION$" v tilt_lines);
  v ← lift (dict_item "plunge_direction" event_options);
  tilt_lines ← lift (subst_f "$PLUNGE_DIRECTION$" v tilt_lines);
  v ← lift (dict_item "plunge" event_options);
  tilt_lines ← lift (subst_f "$PLUNGE$" v tilt_lines);
  let tmp_lines := "" :: split lf tilt_lines in
  mret (set_event_lines (add_nl tmp_lines) ev).

(** The body of the layer loop of [_create_unconformity]. *)
Definition unconformity_layer_lines (event_options : dict string PyVal) (i : nat)
  : result (list string) :=
  layer_name ← option_at event_options "layer_names" i;
  thickness ← dict_item "layer_thickness" event_options;
  cum_thickness ← np_cumsum thickness;
  let layer_lines := Templates.strati_layer in
  name ← as_str layer_name;
  let layer_lines := replace "$NAME$" name layer_lines in
  height ← list_item i cum_thickness;
  let layer_lines := replace "$HEIGHT$" (fmt_np 1 height) layer_lines in
  let layer_lines := replace "    " tab layer_lines in
  Ok (split lf layer_lines).

Definition _create_unconformity (event_options : dict string PyVal) : M Event :=
  let ev := new_event Unconformity None in
  let unconformity_lines := Templates.unconformity in
  name ← lift (dict_item "name" event_options ≫= as_str);
  let unconformity_lines := replace "$NAME$" name unconformity_lines in
  unconformity_lines ← subst_pos event_options unconformity_lines;
  v ← lift (dict_item "dip_direction" event_options);
  unconformity_lines ← lift (subst_f "$DIP_DIRECTION$" v unconformity_lines);
  v ← lift (dict_item "dip" event_options);
  unconformity_lines ← lift (subst_f "$DIP$" v unconformity_lines);
  let tmp_lines := "" :: split lf unconformity_lines in
  n ← lift (dict_item "num_layers" event_options);
  count ← lift (percent_d n);
  let tmp_lines := tmp_lines ++ [tab +:+ "Num Layers" +:+ tab +:+ "= " +:+ count] in
  turns ← lift (range n);
  layer_lines ← lift (mapM (unconformity_layer_lines event_options) turns);
  final ← lift (percent_s (option_get event_options "name" (VStr "Unconf")));
  let tmp_lines := tmp_lines ++ concat layer_lines ++ [tab +:+ "Name" +:+ tab +:+ "= " +:+ final] in
  mret (set_event_lines (add_nl tmp_lines) ev).

Definition get_ev_counter : M Z :=
  c ← attr event_counter;
  modify (set_event_counter (Some (c + 1)));;
  mret (c + 1).

(** The expression that ends [add_event]; its value is not assigned. *)
Definition splice (h : NoddyHistory) (ev : Event) : list string :=
  slice 0 (all_events_begin h) (history_lines h) ++ event_lines ev ++
  slice (all_events_end h) (Z.of_nat (length (history_lines h))) (history_lines h).

(** [add_event(event_type, event_options, event_num=...)]; the default
    of the keyword is computed whether or not the keyword is given. *)
Definition add_event (event_type : string) (event_options : dict string PyVal)
    (event_num : option Z) : M unit :=
  c ← get_ev_counter;
  let event_num := default c event_num in
  ev ← (if String.eqb event_type "stratigraphy" then
          ev ← lift (_create_stratigraphy event_options);
          mret (set_event_type "STRATIGRAPHY" ev)
        else if String.eqb event_type "fault" then
          ev ← _create_fault event_options;
          mret (set_event_type "FAULT" ev)
        else if String.eqb event_type "tilt" then
          ev ← _create_tilt event_options;
          mret (set_event_type "TILT" ev)
        else if String.eqb event_type "unconformity" then
          ev ← _create_unconformity event_options;
          mret (set_event_type "UNCONFORMITY" ev)
        else if String.eqb event_type "fold" then
          ev ← _create_fold event_options;
          mret (set_event_type "FOLD" ev)
        else raise NameError);
  let ev := set_event_number event_num ev in
  store_event event_num ev;;
  modify (fun h => set_all_events_end (all_events_end h + Z.of_nat (length (event_lines ev))) h);;
  _ ← gets (fun h => splice h ev);
  mret tt.

(** *** Writing *)

(** The fields of [time.localtime()] that the header uses. *)
Record tm := {
  tm_mday : Z; tm_mon : Z; tm_year : Z;
  tm_hour : Z; tm_min : Z; tm_sec : Z
}.

Definition time_string (t : tm) : string :=
  fmt_d (tm_mday t) +:+ "/" +:+ fmt_d (tm_mon t) +:+ "/" +:+ fmt_d (tm_year t) +:+ " " +:+
  fmt_d (tm_hour t) +:+ ":" +:+ fmt_d (tm_min t) +:+ ":" +:+ fmt_d (tm_sec t).

Definition header_text (name : string) (t : tm) : string :=
  "#Filename = " +:+ name +:+ " " +:+ nl +:+
  "#Date Saved = " +:+ time_string t +:+ nl +:+
  "FileType = 111" +:+ nl +:+
  "Version = 7.11" +:+ nl +:+ nl.

Definition _create_header (t : tm) : M unit :=
  name ← attr filename;
  modify (set_header_lines (Some (header_text name t))).

(** The number format of a field, as in section [encode] of [Events]. *)
Variable field_fmt : string -> Q -> string.

Definition update_all_event_properties : M unit :=
  evs ← gets events;
  forM (fun l => update_obj l (update_properties field_fmt)) (dict_values evs).

(** [sorted(self.events.keys())] *)
Definition sorted_keys (evs : dict Z loc) : list Z := merge_sort Z.le (dict_keys evs).

(** [self.events[event_id].event_lines] *)
Definition lines_of (h : NoddyHistory) (event_id : Z) : list string :=
  match dict_get event_id (events h) with
  | Some l => event_lines (deref h l)
  | None => []
  end.

(** What the last loop of [write_history] writes for line [i]. *)
Definition write_line (history_lines : list string) (i : nat) (line : string) : list string :=
  (if str_in "BlockOptions" line &&
      negb (String.eqb (default "" (py_index (Z.of_nat i - 1) history_lines)) nl)
   then [nl] else []) ++ [line].

Definition write_lines (history_lines : list string) : list string :=
  concat (imap (write_line history_lines) history_lines).

(** ["No of Events\t= %d\n" % n] *)
Definition count_line (n : nat) : string :=
  "No of Events" +:+ tab +:+ "= " +:+ fmt_d (Z.of_nat n) +:+ nl.

(** The local list [history_lines] of [write_history]. *)
Definition assemble (h : NoddyHistory) (header footer : list string) : list string :=
  header ++
  [count_line (length (events h))] ++
  concat (lines_of h <$> sorted_keys (events h)) ++
  footer.

(** The strings written for [lines] when the line before them is [prev]. *)
Fixpoint write_from (prev : string) (lines : list string) : list string :=
  match lines with
  | [] => []
  | line :: rest =>
      (if str_in "BlockOptions" line && negb (String.eqb prev nl) then [nl] else []) ++
      line :: write_from line rest
  end.

(** [write_history(filename)] at local time [t]; the value is the
    sequence of strings written to the file. *)
Definition write_history (name : string) (t : tm) : M (list string) :=
  update_all_event_properties;;
  modify (fun h => match filename h with
                   | Some _ => h
                   | None => set_filename (Some name) h
                   end);;
  _create_header t;;
  header ← attr header_lines;
  let header := add_nl (split lf header) in
  footer ← ensure_footer;
  h ← gets id;
  mret (write_lines (assemble h header footer)).
(** The store after [update_all_event_properties]. *)
Definition updated_store (evs : dict Z loc) (st : list Event) : list Event :=
  foldl (fun st l => <[l := update_properties field_fmt (st !!! l)]> st) st (dict_values evs).

(** The instance after [write_history name] at time [t]. *)
Definition written (name : string) (t : tm) (h : NoddyHistory) : NoddyHistory :=
  let fn := default name (filename h) in
  set_footer_lines (Some (current_footer h))
    (set_header_lines (Some (header_text fn t))
      (set_filename (Some fn)
        (set_store (updated_store (events h) (store h)) h))).

(** The attributes that [add_event] does not assign agree. *)
Definition add_event_frame (h h' : NoddyHistory) : Prop :=
  history_lines h' = history_lines h /\ footer_lines h' = footer_lines h /\
  filename h' = filename h /\ header_lines h' = header_lines h /\
  n_events h' = n_events h /\ raw_events h' = raw_events h /\
  all_events_begin h' = all_events_begin h /\ cube_size h' = cube_size h /\
  zmax h' = zmax h.

End runtime.

End History.

(** ** Sample documents *)
Module Samples.

Import PyStr Py Events History.

(** A field line [<TAB><label><TAB>= <value>]. *)
Definition field (label value : string) : string :=
  tab +:+ label +:+ tab +:+ "= " +:+ value.

Definition event_line (n ty : string) : string :=
  "Event #" +:+ n +:+ tab +:+ "= " +:+ ty.

Definition sample_header : list string :=
  ["#Filename = two_events.his"; "#Date Saved = 24/3/2014 14:21:0";
   "FileType = 111"; "Version = 7.11"; ""].

Definition sample_strat : list string :=
  [event_line "1" "STRATIGRAPHY"; field "Num Layers" "1"; field "Unit Name" "Base";
   field "Height" "100"; field "Density" "2.65"; field "Name" "Strat"].

Definition sample_fault : list string :=
  [event_line "2" "FAULT"; field "X" "  0.00"; field "Y" "  0.00";
   field "Z" "5000.00"; field "Dip" " 60.00"; field "Name" "Fault1"].

Definition sample_footer : list string :=
  ["#BlockOptions"; field "Number of Views" "1"; field "Length Z" "5000.00";
   field "Geology Cube Size" " 50.00"; field "Geophysics Cube Size" "50.00"].

(** A document in the fixed layout: header, count line, two events, one
    blank line, footer. *)
Definition two_events : list string :=
  add_nl (sample_header ++ ["No of Events" +:+ tab +:+ "= 2"] ++
          sample_strat ++ sample_fault ++ [""] ++ sample_footer).

(** The same document without its event-count line. *)
Definition no_count : list string :=
  add_nl (sample_header ++ sample_strat ++ sample_fault ++ [""] ++ sample_footer).

(** The same events, the fault block first. *)
Definition out_of_order : list string :=
  add_nl (sample_header ++ ["No of Events" +:+ tab +:+ "= 2"] ++
          sample_fault ++ sample_strat ++ [""] ++ sample_footer).

(** The instance after [load_history]. *)
Definition loaded (lines : list string) : NoddyHistory := (load_history lines blank).1.

(** The instance [NoddyHistory(history)] gives, if it gives one. *)
Definition instance (lines : list string) : NoddyHistory :=
  match NoddyHistory_init (Some lines) with
  | Ok h => h
  | Err _ => blank
  end.

(** A layer change for layer 0 of event 1: [{1: {0: {'property': 'Height', 'val': 250}}}]. *)
Definition layer_params : dict Z (dict PyKey PyVal) :=
  [(1, [(KInt 0, VDict [("property", VStr "Height"); ("val", VInt 250)])])].

(** The property [name] of layer [i] of the object at [l]. *)
Definition layer_property (h : NoddyHistory) (l : loc) (i : nat) (name : string) : option PyVal :=
  layer ← layers (deref h l) !! i; dict_get (KStr name) (layer_properties layer).

(** [{'name': 'Fault1', 'pos': (0, 0, 'top'), 'dip_dir': 45, 'dip': 60, 'slip': 500}] *)
Definition fault_top : dict string PyVal :=
  [("name", VStr "Fault1"); ("pos", VTuple [VInt 0; VInt 0; VStr "top"]);
   ("dip_dir", VInt 45); ("dip", VInt 60); ("slip", VInt 500)].

(** The same fault with the z-coordinate given as a number. *)
Definition fault_5000 : dict string PyVal :=
  [("name", VStr "Fault1"); ("pos", VTuple [VInt 0; VInt 0; VInt 5000]);
   ("dip_dir", VInt 45); ("dip", VInt 60); ("slip", VInt 500)].

(** [{'num_layers': 3, 'layer_names': [...], 'layer_thickness': [100, 200, 150]}] *)
Definition three_layers : dict string PyVal :=
  [("num_layers", VInt 3);
   ("layer_names", VList [VStr "layer 1"; VStr "layer 2"; VStr "layer 3"]);
   ("layer_thickness", VList [VInt 100; VInt 200; VInt 150])].

(** [{'num_layers': 2, 'layer_names': [...], 'layer_thickness': [185.5, 19.15]}] *)
Definition two_layers : dict string PyVal :=
  [("num_layers", VInt 2);
   ("layer_names", VList [VStr "layer 1"; VStr "layer 2"]);
   ("layer_thickness", VList [VFloat (371 # 2); VFloat (383 # 20)])].

End Samples.

(** ** Further methods of [NoddyHistory] *)
Module Methods.

Import PyStr Py Events History.

(** A call that does not change the attribute [f], whatever its outcome. *)
Definition keeps {A X} (f : NoddyHistory -> X) (m : M A) : Prop :=
  forall h h' r, m h = (h', r) -> f h' = f h.

(** *** Reordering by a mapping *)

(** One turn of the loop of [reorder_events]: a key that [self.events]
    lacks is reported and skipped. *)
Definition reorder_step (evs tmp_events : dict Z loc) (kv : Z * Z) : dict Z loc :=
  match dict_get kv.1 evs with
  | Some l => dict_set kv.2 l tmp_events
  | None => tmp_events
  end.

Definition reorder_events (reorder_dict : dict Z Z) : M unit :=
  evs ← gets events;
  let tmp_events := foldl (reorder_step evs) evs reorder_dict in
  modify (set_events tmp_events);;
  update_event_numbers.

(** *** Reading parameters *)

(** [get_event_params(event_number)]: the property mapping itself. *)
Definition get_event_params (event_number : Z) : M (dict PyKey PyVal) :=
  evs ← gets events;
  l ← lift (dict_item event_number evs);
  gets (fun h => properties (deref h l)).

(** [get_event_param(event_number, name)]: [None] where either lookup
    raises [KeyError]. *)
Definition get_event_param (event_number : Z) (name : PyKey) : M (option PyVal) :=
  evs ← gets events;
  match dict_get event_number evs with
  | Some l => gets (fun h => dict_get name (properties (deref h l)))
  | None => mret None
  end.

(** The properties after the inner loop of [set_event_params]. *)
Definition assigned (sub_dict : dict PyKey PyVal) (p : dict PyKey PyVal) : dict PyKey PyVal :=
  foldl (fun p kv => dict_set kv.1 kv.2 p) p sub_dict.

(** *** Event headers *)

(** The lines of the document that the raw event [e] spans:
    [self.history_lines[e['line_start']:e['line_end']+1]]. *)
Definition span_lines (lines : list string) (e : RawEvent) : list string :=
  match line_end e with
  | Some stop => slice (line_start e) (stop + 1) lines
  | None => []
  end.

(** The spans of events that start at [starts], the last one ending at
    [stop]. *)
Fixpoint spans (starts : list Z) (stop : Z) : list (Z * Z) :=
  match starts with
  | [] => []
  | [s] => [(s, stop)]
  | s :: (s' :: _) as rest => (s, s' - 1) :: spans rest stop
  end.

(** [EventTitle] of fault [i] in [createPyNoddyHistoryFile]:
    ['Event #%d\t= FAULT' % (i+2)]. *)
Definition fault_title (i : Z) : string :=
  "Event #" +:+ fmt_d (i + 2) +:+ tab +:+ "= FAULT".

(** The number that the first two digits of [n] make. *)
Definition leading_two (n : Z) : Z :=
  if n <? 100 then n else n / 10 ^ (Z.of_nat (ndigits (Z.to_N n)) - 2).

(** *** The header fields of a loaded document *)

(** [self.history_lines[i].split('=')[1].rstrip()] *)
Definition header_field (i : nat) : M string :=
  ls ← gets history_lines;
  line ← lift (list_item i ls);
  v ← lift (list_item 1 (split "="%char line));
  mret (rstrip v).

Definition get_filename : M unit :=
  v ← header_field 0;
  modify (set_filename (Some v)).

End Methods.

(** ** Origin, extent and date: the attributes beside those of [NoddyHistory] *)
Module Geometry.

Import PyStr Py Events History Methods.

(** An instance with the attributes that [get_origin], [set_origin],
    [get_extent], [set_extent] and [get_date_saved] assign; [base] holds
    the others. *)
Record Model := {
  base : NoddyHistory;
  origin_x : option PyVal;
  origin_y : option PyVal;
  origin_z : option PyVal;
  extent_x : option PyVal;
  extent_y : option PyVal;
  extent_z : option PyVal;
  date_saved : option string
}.

Definition set_base (x : NoddyHistory) (m : Model) : Model :=
  {| base := x;
     origin_x := origin_x m;
     origin_y := origin_y m;
     origin_z := origin_z m;
     extent_x := extent_x m;
     extent_y := extent_y m;
     extent_z := extent_z m;
     date_saved := date_saved m |}.

Definition set_origin_x (x : option PyVal) (m : Model) : Model :=
  {| base := base m;
     origin_x := x;
     origin_y := origin_y m;
     origin_z := origin_z m;
     extent_x := extent_x m;
     extent_y := extent_y m;
     extent_z := extent_z m;
     date_saved := date_saved m |}.

Definition set_origin_y (x : option PyVal) (m : Model) : Model :=
  {| base := base m;
     origin_x := origin_x m;
     origin_y := x;
     origin_z := origin_z m;
     extent_x := extent_x m;
     extent_y := extent_y m;
     extent_z := extent_z m;
     date_saved := date_saved m |}.

Definition set_origin_z (x : option PyVal) (m : Model) : Model :=
  {| base := base m;
     origin_x := origin_x m;
     origin_y := origin_y m;
     origin_z := x;
     extent_x := extent_x m;
     extent_y := extent_y m;
     extent_z := extent_z m;
     date_saved := date_saved m |}.

Definition set_extent_x (x : option PyVal) (m : Model) : Model :=
  {| base := base m;
     origin_x := origin_x m;
     origin_y := origin_y m;
     origin_z := origin_z m;
     extent_x := x;
     extent_y := extent_y m;
     extent_z := extent_z m;
     date_saved := date_saved m |}.

Definition set_extent_y (x : option PyVal) (m : Model) : Model :=
  {| base := base m;
     origin_x := origin_x m;
     origin_y := origin_y m;
     origin_z := origin_z m;
     extent_x := extent_x m;
     extent_y := x;
     extent_z := extent_z m;
     date_saved := date_saved m |}.

Definition set_extent_z (x : option PyVal) (m : Model) : Model :=
  {| base := base m;
     origin_x := origin_x m;
     origin_y := origin_y m;
     origin_z := origin_z m;
     extent_x := extent_x m;
     extent_y := extent_y m;
     extent_z := x;
     date_saved := date_saved m |}.

Definition set_date_saved (x : option string) (m : Model) : Model :=
  {| base := base m;
     origin_x := origin_x m;
     origin_y := origin_y m;
     origin_z := origin_z m;
     extent_x := extent_x m;
     extent_y := extent_y m;
     extent_z := extent_z m;
     date_saved := x |}.

Definition G (A : Type) : Type := Model -> Model * result A.

#[export] Instance G_ret : MRet G := fun A a m => (m, Ok a).
#[export] Instance G_bind : MBind G := fun A B f g m =>
  match g m with
  | (m', Ok a) => f a m'
  | (m', Err e) => (m', Err e)
  end.

(** A method of the base instance, run on the whole instance. *)
Definition on_base {A} (f : M A) : G A :=
  fun m => let '(h, r) := f (base m) in (set_base h m, r).

Definition gmodify (f : Model -> Model) : G unit := fun m => (f m, Ok tt).
Definition glift {A} (r : result A) : G A := fun m => (m, r).
Definition gattr {A} (f : Model -> option A) : G A :=
  fun m => (m, of_option AttributeError (f m)).

(** An instance that has none of the further attributes yet. *)
Definition model_of (h : NoddyHistory) : Model :=
  {| base := h; origin_x := None; origin_y := None; origin_z := None;
     extent_x := None; extent_y := None; extent_z := None; date_saved := None |}.

(** [float(self.footer_lines[i].split("=")[1])] *)
Definition line_value (ls : list string) (i : nat) : result PyVal :=
  line ← list_item i ls;
  v ← list_item 1 (split "="%char line);
  q ← of_option ValueError (py_float v);
  Ok (VFloat q).

(** The loop of [get_origin] and [get_extent]: the first line that holds
    [anchor] and the two lines after it give the three attributes, each
    assigned as soon as it is read. *)
Definition read_triple (anchor : string)
    (set_x set_y set_z : option PyVal -> Model -> Model) : G unit :=
  ls ← on_base ensure_footer;
  match find_index (str_in anchor) ls with
  | Some i =>
      x ← glift (line_value ls i);
      gmodify (set_x (Some x));;
      y ← glift (line_value ls (i + 1));
      gmodify (set_y (Some y));;
      z ← glift (line_value ls (i + 2));
      gmodify (set_z (Some z))
  | None => mret tt
  end.

Definition get_origin : G (PyVal * PyVal * PyVal) :=
  read_triple "Origin X" set_origin_x set_origin_y set_origin_z;;
  x ← gattr origin_x;
  y ← gattr origin_y;
  z ← gattr origin_z;
  mret (x, y, z).

Definition get_extent : G (PyVal * PyVal * PyVal) :=
  read_triple "Length X" set_extent_x set_extent_y set_extent_z;;
  x ← gattr extent_x;
  y ← gattr extent_y;
  z ← gattr extent_z;
  mret (x, y, z).

(** [self.footer_lines[i] = line], for [i] that is not negative. *)
Definition set_footer_line (i : nat) (line : string) : G unit :=
  ls ← on_base (attr footer_lines);
  if decide (i < length ls)%nat
  then on_base (modify (set_footer_lines (Some (<[i := line]> ls))))
  else glift (Err IndexError).

(** ["    <label>    =   %.2f\n" % v] *)
Definition triple_line (label : string) (v : PyVal) : result string :=
  s ← percent_f 2 v;
  Ok ("    " +:+ label +:+ "    =   " +:+ s +:+ nl).

(** The loop of [set_origin] and [set_extent]. *)
Definition write_triple (anchor : string) (x_line y_line z_line : string) : G unit :=
  ls ← on_base (attr footer_lines);
  match find_index (str_in anchor) ls with
  | Some i =>
      set_footer_line i x_line;;
      set_footer_line (i + 1) y_line;;
      set_footer_line (i + 2) z_line
  | None => mret tt
  end.

Definition set_origin (origin_x origin_y origin_z : PyVal) : G unit :=
  on_base ensure_footer;;
  gmodify (set_origin_x (Some origin_x));;
  gmodify (set_origin_y (Some origin_y));;
  gmodify (set_origin_z (Some origin_z));;
  origin_x_line ← glift (triple_line "Origin X" origin_x);
  origin_y_line ← glift (triple_line "Origin Y" origin_y);
  origin_z_line ← glift (triple_line "Origin Z" origin_z);
  write_triple "Origin X" origin_x_line origin_y_line origin_z_line.

Definition set_extent (extent_x extent_y extent_z : PyVal) : G unit :=
  on_base ensure_footer;;
  gmodify (set_extent_x (Some extent_x));;
  gmodify (set_extent_y (Some extent_y));;
  gmodify (set_extent_z (Some extent_z));;
  extent_x_line ← glift (triple_line "Length X" extent_x);
  extent_y_line ← glift (triple_line "Length Y" extent_y);
  extent_z_line ← glift (triple_line "Length Z" extent_z);
  write_triple "Length X" extent_x_line extent_y_line extent_z_line.

Definition get_date_saved : G unit :=
  v ← on_base (header_field 1);
  gmodify (set_date_saved (Some v)).


(** The line that a setter writes for a number. *)
Definition number_line (label : string) (q : Q) : string :=
  "    " +:+ label +:+ "    =   " +:+ fmt_f 2 q +:+ nl.

(** The footer that the geometry methods work on. *)
Definition footer_of (m : Model) : list string := current_footer (base m).


(** Line [j] is none of the three lines from the first that holds
    [anchor] on. *)
Definition outside_triple (anchor : string) (ls : list string) (j : nat) : Prop :=
  forall i, find_index (str_in anchor) ls = Some i -> (j < i \/ i + 2 < j)%nat.

(** From [m] to [m'] the base instance differs in its footer at most,
    the footer keeps its length, and it keeps its lines outside the three
    from the first that holds [anchor] on. *)
Definition footer_frame (anchor : string) (m m' : Model) : Prop :=
  base m' = set_footer_lines (footer_lines (base m')) (base m) /\
  length (footer_of m') = length (footer_of m) /\
  forall j, outside_triple anchor (footer_of m) j -> footer_of m' !! j = footer_of m !! j.

(** A footer that ends with its [Length X] line. *)
Definition short_footer : list string :=
  add_nl ["#BlockOptions"; tab +:+ "Length X" +:+ tab +:+ "= 10000.00"].

End Geometry.

(** ** The model information *)

Module Info.

Import PyStr Py Events History Methods Geometry.

(** [self.<name>] *)
Definition the {A} (o : option A) : result A := of_option AttributeError o.

(** [n * s] *)
Fixpoint times (n : nat) (s : string) : string :=
  match n with
  | O => EmptyString
  | S k => s +:+ times k s
  end.

(** [if not hasattr(self, name): getter()] *)
Definition unless_has {A B} (f : Model -> option A) (getter : G B) : G unit :=
  fun m => match f m with
           | Some _ => (m, Ok tt)
           | None => (getter;; mret tt) m
           end.

(** The five tests that [get_info_string] starts with, unless
    [events_only] is set. *)
Definition complete : G unit :=
  unless_has extent_x get_extent;;
  unless_has origin_x get_origin;;
  unless_has (fun m => cube_size (base m)) (on_base (get_cube_size "Geophysics"));;
  unless_has (fun m => filename (base m)) (on_base get_filename);;
  unless_has date_saved get_date_saved.

(** [60 * "*" + "\n\t\t\t<title>\n" + 60 * "*"] and ["\n\n"] *)
Definition banner (title : string) : string :=
  times 60 "*" +:+ nl +:+ tab +:+ tab +:+ tab +:+ title +:+ nl +:+ times 60 "*"
  +:+ nl +:+ nl.

(** ["\t(%d) - %s\n" % (k, ev.event_type)] *)
Definition event_entry (h : NoddyHistory) (kl : Z * loc) : string :=
  tab +:+ "(" +:+ fmt_d kl.1 +:+ ") - " +:+ event_type (deref h kl.2) +:+ nl.

(** The text on the events. *)
Definition events_info (h : NoddyHistory) : result string :=
  n ← the (n_events h);
  if n =? 0 then Ok ("The model does not yet contain any events" +:+ nl)
  else Ok ("This model consists of " +:+ fmt_d n +:+ " events:" +:+ nl +:+
           String.concat "" (event_entry h <$> events h)).

(** ["\t<axis> - %.1f m\n" % v] *)
Definition extent_entry (axis : string) (v : PyVal) : result string :=
  s ← percent_f 1 v;
  Ok (tab +:+ axis +:+ " - " +:+ s +:+ " m" +:+ nl).

(** [v / c] for a float [c]: the quotient rounded to the nearest
    double. *)
Definition div_float (v : PyVal) (c : Q) : result Q :=
  q ← match v with
      | VInt z => float_of_int z
      | VFloat q => Ok q
      | _ => Err TypeError
      end;
  if Qeq_bool c 0 then Err ZeroDivisionError
  else finite (round_double (q / c)).

(** ["\t<name> = %d\n" % (v / self.cube_size)] *)
Definition cells_entry (name : string) (v : PyVal) (m : Model) : result string :=
  c ← the (cube_size (base m));
  q ← div_float v c;
  Ok (tab +:+ name +:+ " = " +:+ fmt_d (trunc q) +:+ nl).

(** One of the three arguments of the format of the origin. *)
Definition origin_arg (v : PyVal) : result string :=
  q ← as_number v; Ok (fmt_f 1 q).

(** The text on extent, cells, origin and cube size. *)
Definition geometry_info (m : Model) : result string :=
  ex ← the (extent_x m);
  sx ← extent_entry "x" ex;
  ey ← the (extent_y m);
  sy ← extent_entry "y" ey;
  ez ← the (extent_z m);
  sz ← extent_entry "z" ez;
  nx ← cells_entry "nx" ex m;
  ny ← cells_entry "ny" ey m;
  nz ← cells_entry "nz" ez m;
  ox ← the (origin_x m);
  oy ← the (origin_y m);
  oz ← the (origin_z m);
  tx ← origin_arg ox;
  ty ← origin_arg oy;
  tz ← origin_arg oz;
  c ← the (cube_size (base m));
  Ok ("The model extent is:" +:+ nl +:+ sx +:+ sy +:+ sz +:+
      "Number of cells in each direction:" +:+ nl +:+ nx +:+ ny +:+ nz +:+
      "The model origin is located at: " +:+ nl +:+ tab +:+
      "(" +:+ tx +:+ ", " +:+ ty +:+ ", " +:+ tz +:+ ")" +:+ nl +:+
      "The cubesize for model export is: " +:+ nl +:+ tab +:+
      fmt_d (trunc c) +:+ " m" +:+ nl).

(** The text on file name and date. *)
Definition meta_info (m : Model) : result string :=
  name ← the (filename (base m));
  date ← the (date_saved m);
  Ok (nl +:+ nl +:+ banner "Meta Data" +:+
      "The filename of the model is:" +:+ nl +:+ tab +:+ name +:+ nl +:+
      "It was last saved (if origin was a history file!) at:" +:+ nl +:+ tab +:+
      date +:+ nl).

(** The text that [get_info_string] builds once the attributes are
    there. *)
Definition info_text (events_only : bool) (m : Model) : result string :=
  ev ← events_info (base m);
  if events_only then Ok ev
  else
    geo ← geometry_info m;
    meta ← meta_info m;
    Ok (banner "Model Information" +:+ ev +:+ geo +:+ meta).

(** [get_info_string(events_only=events_only)]; the keyword defaults to
    [False]. *)
Definition get_info_string (events_only : bool) : G string :=
  (if events_only then mret tt else complete);;
  m ← (fun m => (m, Ok m));
  glift (info_text events_only m).

End Info.

(** ** Reading back what was written *)
Module RoundTrip.

Import PyStr Py Events History Samples Methods.

Fixpoint ascending (l : list Z) : bool :=
  match l with
  | x :: (y :: _) as rest => (x <? y) && ascending rest
  | _ => true
  end.

(** The event numbers grow along the document. *)
Definition numbered_in_order (h : NoddyHistory) : bool :=
  ascending (num <$> raw_events h).

(** The type of an event header is one that [determine_events] decodes. *)
Definition supported (e : RawEvent) : bool :=
  match event_class_of (raw_type e) with
  | Some _ => true
  | None => false
  end.

Definition all_supported (h : NoddyHistory) : bool := forallb supported (raw_events h).

(** The last line with [BlockOptions] comes after the last event header. *)
Definition marker_after_events (lines : list string) : bool :=
  match last (event_starts 0 lines), last_marker 0 lines with
  | Some s, Some m => s <? m
  | _, _ => false
  end.

(** The lines of a document that its event objects hold: from the first
    event header to two lines before the last line with [BlockOptions]. *)
Definition events_text (lines : list string) : list string :=
  match head (event_starts 0 lines), last_marker 0 lines with
  | Some s, Some m => slice s (m - 1) lines
  | _, _ => []
  end.

(** The footer that [get_footer_lines] keeps. *)
Definition footer_text (lines : list string) : list string :=
  drop (default (length lines - 1)%nat (find_index (str_in "#BlockOptions") lines)) lines.

(** The local list [history_lines] of [write_history] for an instance
    loaded from [lines]. *)
Definition regenerated (name : string) (t : tm) (lines : list string) : list string :=
  add_nl (split lf (header_text name t)) ++
  [count_line (length (event_starts 0 lines))] ++
  events_text lines ++ footer_text lines.

(** The strings [write_history] writes, or nothing where it raises. *)
Definition output (fmt : string -> Q -> string) (name : string) (t : tm)
    (h : NoddyHistory) : list string :=
  match (write_history fmt name t h).2 with
  | Ok out => out
  | Err _ => []
  end.

(** The sample document without the blank line before its footer. *)
Definition no_separator : list string :=
  add_nl (sample_header ++ ["No of Events" +:+ tab +:+ "= 2"] ++
          sample_strat ++ sample_fault ++ sample_footer).

(** [NoddyHistory()]: a history made from scratch. *)
Definition new_history : NoddyHistory :=
  match NoddyHistory_init None with
  | Ok h => h
  | Err _ => blank
  end.

(** The display of a value that is not a string, for the samples. *)
Definition sample_str (v : PyVal) : string := "?".

(** A number format for the samples. *)
Definition sample_fmt (k : string) (q : Q) : string := fmt_f 2 q.

(** A file name and a local time for the samples. *)
Definition sample_name : string := "out.his".

Definition sample_time : tm :=
  {| tm_mday := 3; tm_mon := 11; tm_year := 2026; tm_hour := 9; tm_min := 30; tm_sec := 5 |}.

End RoundTrip.


(** * Properties *)

Module StrFacts.
Import PyStr.

#[local] Arguments String.append : simpl nomatch.

Lemma app_cons c (a b : string) : String c a +:+ b = String c (a +:+ b).
Proof. reflexivity. Qed.

Lemma app_nil_l (b : string) : "" +:+ b = b.
Proof. reflexivity. Qed.

Lemma app_assoc_s (a b c : string) : (a +:+ b) +:+ c = a +:+ (b +:+ c).
Proof. induction a as [|x a IH]; simpl; [done | by rewrite IH]. Qed.

Lemma app_empty_r (a : string) : a +:+ "" = a.
Proof. induction a as [|x a IH]; simpl; [done | by rewrite IH]. Qed.

Lemma app_length_s (a b : string) :
  String.length (a +:+ b) = (String.length a + String.length b)%nat.
Proof. induction a as [|x a IH]; simpl; [done | by rewrite IH]. Qed.

Lemma all_chars_app p a b :
  all_chars p (a +:+ b) = all_chars p a && all_chars p b.
Proof.
  induction a as [|x a IH]; simpl; [done |].
  rewrite IH. by destruct (p x).
Qed.

Lemma all_chars_impl (p q : ascii -> bool) s :
  (forall c, p c = true -> q c = true) ->
  all_chars p s = true -> all_chars q s = true.
Proof.
  intros Hpq. induction s as [|x s IH]; simpl; [done |].
  intros [Hx Hs]%andb_true_iff. rewrite (Hpq _ Hx). simpl. auto.
Qed.

(** *** [in] *)

Lemma prefix_app_stop (A x y : string) d :
  all_chars (fun c => negb (Ascii.eqb c d)) A = true ->
  String.prefix A (x +:+ String d y) = String.prefix A x.
Proof.
  revert x. induction A as [|a A IH]; intros x HA; [by destruct x |].
  simpl in HA. apply andb_true_iff in HA as [Ha HA].
  destruct x as [|c x]; simpl.
  - destruct (ascii_dec a d) as [->|Hne]; [by rewrite Ascii.eqb_refl in Ha | done].
  - destruct (ascii_dec a c); [auto | done].
Qed.

Lemma str_in_no_start a A y :
  all_chars (fun c => negb (Ascii.eqb c a)) y = true ->
  str_in (String a A) y = false.
Proof.
  induction y as [|c y IH]; simpl; [done |].
  intros [Hc Hy]%andb_true_iff.
  destruct (ascii_dec a c) as [->|Hne]; [by rewrite Ascii.eqb_refl in Hc |].
  simpl. auto.
Qed.


Lemma prefix_app_l A x y :
  String.prefix A x = true -> String.prefix A (x +:+ y) = true.
Proof.
  revert x. induction A as [|a A IH]; intros x; [by destruct x, y |].
  destruct x as [|c x]; simpl; [done |].
  destruct (ascii_dec a c); [apply IH | done].
Qed.

Lemma str_in_app_l A x y : str_in A x = true -> str_in A (x +:+ y) = true.
Proof.
  induction x as [|c x IH].
  - simpl. rewrite orb_false_r. intros H.
    pose proof (prefix_app_l A "" y H) as Hy. change ("" +:+ y) with y in *.
    destruct y; simpl in *; by rewrite Hy.
  - change (str_in A (String c x +:+ y))
      with (String.prefix A (String c x +:+ y) || str_in A (x +:+ y)).
    simpl. intros [H|H]%orb_true_iff; apply orb_true_iff.
    + left. by apply (prefix_app_l A (String c x) y).
    + right. auto.
Qed.

(** *** [split] *)

Lemma split_no_sep sep s :
  all_chars (fun c => negb (Ascii.eqb c sep)) s = true -> split sep s = [s].
Proof.
  induction s as [|c s IH]; simpl; [done |].
  intros [Hc Hs]%andb_true_iff. apply negb_true_iff in Hc. rewrite Hc, (IH Hs). done.
Qed.

Lemma split_app sep a b :
  all_chars (fun c => negb (Ascii.eqb c sep)) a = true ->
  split sep (a +:+ String sep b) = a :: split sep b.
Proof.
  induction a as [|c a IH]; simpl.
  - by rewrite Ascii.eqb_refl.
  - intros [Hc Ha]%andb_true_iff. apply negb_true_iff in Hc. rewrite Hc, (IH Ha). done.
Qed.

Lemma split_nonempty sep s : split sep s <> [].
Proof.
  destruct s as [|c s]; simpl; [done |].
  destruct (Ascii.eqb c sep); [done | by destruct (split sep s)].
Qed.

(** The first field holds no separator, and the line starts with it. *)
Lemma split_head sep s :
  exists h t r, split sep s = h :: t /\ s = h +:+ r /\
    all_chars (fun c => negb (Ascii.eqb c sep)) h = true /\
    (t = [] -> r = "").
Proof.
  induction s as [|c s (h & t & r & Hs & Heq & Hh & Hr)]; simpl.
  - by exists "", [], "".
  - destruct (Ascii.eqb c sep) eqn:Hc.
    + exists "", (split sep s), (String c s). repeat split; try done.
      intros Hnil. by destruct (split_nonempty sep s).
    + rewrite Hs. exists (String c h), t, r. simpl. rewrite Hc, Hh, <- Heq. done.
Qed.

(** *** [strip] *)

Lemma rstrip_keep s c :
  is_space c = false -> rstrip (s +:+ String c "") = s +:+ String c "".
Proof.
  intros Hc. induction s as [|x s IH]; simpl.
  - by rewrite Hc.
  - rewrite IH. by destruct s.
Qed.

Lemma rstrip_app_space s t :
  all_chars is_space t = true -> rstrip (s +:+ t) = rstrip s.
Proof.
  intros Ht. assert (Hr : rstrip t = "").
  { induction t as [|x t IH]; simpl; [done |].
    simpl in Ht. apply andb_true_iff in Ht as [Hx Ht]. by rewrite (IH Ht), Hx. }
  induction s as [|x s IH]; simpl; [done | by rewrite IH].
Qed.

Lemma lstrip_spaces k s : lstrip (spaces k +:+ s) = lstrip s.
Proof. induction k as [|k IH]; simpl; done. Qed.

Lemma lstrip_keep c s : is_space c = false -> lstrip (String c s) = String c s.
Proof. intros Hc. simpl. by rewrite Hc. Qed.

(** *** [trim] *)

Lemma blank_space c : is_blank c = true -> is_space c = true.
Proof.
  unfold is_blank, is_space. intros [H|H]%orb_true_iff; apply orb_true_iff.
  - by left.
  - right. apply Nat.eqb_eq in H. by rewrite H.
Qed.

Lemma not_space_not_blank c : is_space c = false -> is_blank c = false.
Proof.
  intros Hc. destruct (is_blank c) eqn:Hb; [| done].
  apply blank_space in Hb. congruence.
Qed.


Lemma rskip_app_blank s t :
  all_chars is_blank t = true -> rskip (s +:+ t) = rskip s.
Proof.
  intros Ht. assert (Hr : rskip t = "").
  { induction t as [|x t IH]; simpl; [done |].
    simpl in Ht. apply andb_true_iff in Ht as [Hx Ht]. by rewrite (IH Ht), Hx. }
  induction s as [|x s IH]; simpl; [done | by rewrite IH].
Qed.


Lemma lskip_keep c s : is_space c = false -> lskip (String c s) = String c s.
Proof. intros Hc%not_space_not_blank. simpl. by rewrite Hc. Qed.

(** *** [cut] *)



End StrFacts.

Module NumFacts.
Import PyStr StrFacts.

#[local] Arguments String.append : simpl nomatch.

Lemma digit_char_spec d :
  (d < 10)%N -> is_digit (digit_char d) = true /\ digit_val (digit_char d) = d.
Proof.
  intros Hd. unfold digit_char, digit_val.
  assert (Hc : d = 0%N \/ d = 1%N \/ d = 2%N \/ d = 3%N \/ d = 4%N \/
               d = 5%N \/ d = 6%N \/ d = 7%N \/ d = 8%N \/ d = 9%N) by lia.
  repeat (destruct Hc as [-> | Hc]; [by vm_compute |]). subst. by vm_compute.
Qed.

Lemma fixed_digits_length k n : String.length (fixed_digits k n) = k.
Proof.
  revert n. induction k as [|k IH]; intros n; simpl; [done |].
  rewrite app_length_s, IH. simpl. lia.
Qed.

Lemma fixed_digits_chars k n : all_chars is_digit (fixed_digits k n) = true.
Proof.
  revert n. induction k as [|k IH]; intros n; simpl; [done |].
  rewrite all_chars_app, IH. simpl.
  destruct (digit_char_spec (n mod 10)) as [-> _]; [apply N.mod_lt; lia | done].
Qed.

Lemma val_digits_app acc a b :
  val_digits acc (a +:+ b) = val_digits (val_digits acc a) b.
Proof. revert acc. induction a as [|c a IH]; intros acc; simpl; [done | apply IH]. Qed.

Lemma val_fixed_digits k n acc :
  val_digits acc (fixed_digits k n) = (acc * 10 ^ N.of_nat k + n mod 10 ^ N.of_nat k)%N.
Proof.
  revert n acc. induction k as [|k IH]; intros n acc.
  - simpl. rewrite N.mod_1_r. lia.
  - cbn [fixed_digits]. rewrite val_digits_app, IH. simpl.
    destruct (digit_char_spec (n mod 10)) as [_ ->]; [apply N.mod_lt; lia |].
    rewrite Nat2N.inj_succ, N.pow_succ_r'.
    assert (H10 : (10 ^ N.of_nat k <> 0)%N) by (apply N.pow_nonzero; lia).
    rewrite (N.Div0.mod_mul_r n 10 (10 ^ N.of_nat k)). lia.
Qed.

Lemma count_digits_bound fuel n :
  (n < 2 ^ N.of_nat fuel)%N -> (n < 10 ^ N.of_nat (count_digits fuel n))%N.
Proof.
  revert n. induction fuel as [|f IH]; intros n Hn.
  - simpl in *. lia.
  - cbn [count_digits]. destruct (n <? 10)%N eqn:Hlt.
    + apply N.ltb_lt in Hlt. simpl. lia.
    + apply N.ltb_ge in Hlt. rewrite Nat2N.inj_succ, N.pow_succ_r'.
      rewrite Nat2N.inj_succ, N.pow_succ_r' in Hn.
      assert (Hq : (n / 10 < 2 ^ N.of_nat f)%N).
      { apply N.Div0.div_lt_upper_bound. lia. }
      specialize (IH _ Hq).
      pose proof (N.Div0.div_mod n 10). pose proof (N.mod_lt n 10). lia.
Qed.

Lemma ndigits_bound n : (n < 10 ^ N.of_nat (ndigits n))%N.
Proof.
  unfold ndigits. apply count_digits_bound.
  destruct (N.eq_dec n 0%N) as [->|Hn]; [by vm_compute |].
  rewrite Nat2N.inj_succ, N2Nat.id.
  apply N.log2_spec. lia.
Qed.

Lemma ndigits_pos n : (1 <= ndigits n)%nat.
Proof.
  unfold ndigits. generalize (N.to_nat (N.log2 n)). intros f.
  cbn [count_digits]. destruct (n <? 10)%N; lia.
Qed.

Lemma val_str_of_N n : val_digits 0%N (str_of_N n) = n.
Proof.
  unfold str_of_N. rewrite val_fixed_digits.
  rewrite N.mod_small by apply ndigits_bound. lia.
Qed.

Lemma str_of_N_chars n : all_chars is_digit (str_of_N n) = true.
Proof. apply fixed_digits_chars. Qed.

Lemma str_of_N_cons n : exists c s, str_of_N n = String c s /\ is_digit c = true.
Proof.
  pose proof (str_of_N_chars n) as Hc. pose proof (ndigits_pos n) as Hp.
  unfold str_of_N in *. pose proof (fixed_digits_length (ndigits n) n) as Hl.
  destruct (fixed_digits (ndigits n) n) as [|c s]; simpl in *; [lia |].
  apply andb_true_iff in Hc as [Hc _]. eauto.
Qed.

Lemma drop_underscores_digits b s :
  all_chars is_digit s = true -> (s <> "" \/ b = true) ->
  drop_underscores b s = Some s.
Proof.
  revert b. induction s as [|c s IH]; intros b Hs Hb; simpl.
  - destruct Hb as [? | ->]; done.
  - simpl in Hs. apply andb_true_iff in Hs as [Hc Hs].
    rewrite Hc, (IH true Hs); [done | by right].
Qed.

Lemma digits_value_digits s :
  all_chars is_digit s = true -> s <> "" -> digits_value s = Some (val_digits 0%N s).
Proof.
  intros Hs Hne. unfold digits_value. rewrite drop_underscores_digits; auto.
Qed.

End NumFacts.

Module FloatFacts.
Import PyStr StrFacts NumFacts.

#[local] Arguments String.append : simpl nomatch.

Definition is_numchar (c : ascii) : bool := is_digit c || Ascii.eqb c "."%char.

Lemma digit_not_space c : is_digit c = true -> is_space c = false.
Proof.
  unfold is_digit, is_space. intros [H1 H2]%andb_true_iff.
  apply Nat.leb_le in H1. apply Nat.leb_le in H2.
  apply orb_false_iff. split; apply andb_false_iff.
  - right. apply Nat.leb_gt. lia.
  - right. apply Nat.leb_gt. lia.
Qed.

Lemma split_sign_digit c s :
  is_digit c = true -> split_sign (String c s) = (false, String c s).
Proof.
  destruct c as [[] [] [] [] [] [] [] []]; vm_compute; done.
Qed.




Lemma inject_Z_nonzero z : z <> 0 -> ~ (inject_Z z == 0)%Q.
Proof. intros Hz. unfold Qeq. simpl. lia. Qed.



Lemma fmt_f_shape p v :
  let P := 10 ^ Z.of_nat (S p) in
  let m := round_half_even (Qabs v * inject_Z P) in
  fmt_f (S p) v = sign_str v +:+ str_of_N (Z.to_N (m / P)) +:+ "." +:+
                  fixed_digits (S p) (Z.to_N (m mod P)).
Proof. reflexivity. Qed.

Lemma fmt_f_chars p v :
  all_chars (fun c => is_numchar c || Ascii.eqb c "-"%char) (fmt_f (S p) v) = true.
Proof.
  rewrite fmt_f_shape. rewrite !all_chars_app.
  assert (Hd : forall s, all_chars is_digit s = true ->
                all_chars (fun c => is_numchar c || Ascii.eqb c "-"%char) s = true).
  { intros s. apply all_chars_impl. intros c Hc. unfold is_numchar. by rewrite Hc. }
  rewrite (Hd _ (str_of_N_chars _)), (Hd _ (fixed_digits_chars _ _)).
  unfold sign_str. by destruct (Qnum v <? 0).
Qed.

Lemma fmt_f_first p v :
  exists c s, fmt_f (S p) v = String c s /\ is_space c = false.
Proof.
  rewrite fmt_f_shape. cbv zeta. unfold sign_str.
  destruct (Qnum v <? 0); [by eexists _, _ |].
  destruct (str_of_N_cons (Z.to_N (round_half_even (Qabs v * inject_Z (10 ^ Z.of_nat (S p)))
                                    / 10 ^ Z.of_nat (S p)))) as (c & s & -> & Hc).
  eexists c, _. split; [reflexivity | by apply digit_not_space].
Qed.

Lemma fmt_f_last p v :
  exists s c, fmt_f (S p) v = s +:+ String c "" /\ is_space c = false.
Proof.
  rewrite fmt_f_shape. cbv zeta. cbn [fixed_digits].
  eexists _, _. split.
  - rewrite <- !app_assoc_s. reflexivity.
  - apply digit_not_space.
    destruct (digit_char_spec (Z.to_N (round_half_even (Qabs v * inject_Z (10 ^ Z.of_nat (S p)))
                               mod 10 ^ Z.of_nat (S p)) mod 10)) as [H _]; [| exact H].
    apply N.mod_lt. lia.
Qed.

Lemma strip_fmt_wf w p v t :
  all_chars is_space t = true ->
  strip (rstrip (fmt_wf w (S p) v +:+ t)) = fmt_f (S p) v.
Proof.
  intros Ht. rewrite rstrip_app_space by done.
  unfold fmt_wf, rjust.
  destruct (fmt_f_last p v) as (s & c & Hs & Hc).
  destruct (fmt_f_first p v) as (c' & s' & Hs' & Hc').
  assert (Hr : forall k, rstrip (spaces k +:+ fmt_f (S p) v) = spaces k +:+ fmt_f (S p) v).
  { intros k. rewrite Hs, <- app_assoc_s. by apply rstrip_keep. }
  rewrite Hr. unfold strip. rewrite lstrip_spaces.
  rewrite Hs' at 1. rewrite lstrip_keep by done. rewrite <- Hs'.
  apply (Hr O).
Qed.






End FloatFacts.

(** ** Running methods *)
Module MonadFacts.
Import Py History.

Lemma bind_run {A B} (m : M A) (f : A -> M B) h :
  (m ≫= f) h = match m h with
               | (h', Ok a) => f a h'
               | (h', Err e) => (h', Err e)
               end.
Proof. reflexivity. Qed.

Lemma bind_ok {A B} (m : M A) (f : A -> M B) h h' b :
  (m ≫= f) h = (h', Ok b) ->
  exists h1 a, m h = (h1, Ok a) /\ f a h1 = (h', Ok b).
Proof.
  rewrite bind_run. destruct (m h) as [h1 [a|e]]; [eauto | done].
Qed.

Lemma mret_ok {A} (a b : A) h h' : (mret a : M A) h = (h', Ok b) -> h' = h /\ b = a.
Proof. by intros [= -> ->]. Qed.

Lemma modify_ok f h h' u : modify f h = (h', Ok u) -> h' = f h.
Proof. by intros [= ->]. Qed.

Lemma gets_ok {A} (f : NoddyHistory -> A) h h' a :
  gets f h = (h', Ok a) -> h' = h /\ a = f h.
Proof. by intros [= -> ->]. Qed.

Lemma lift_ok {A} (r : result A) h h' a :
  lift r h = (h', Ok a) -> h' = h /\ r = Ok a.
Proof. by intros [= -> ->]. Qed.

Lemma attr_ok {A} (f : NoddyHistory -> option A) h h' a :
  attr f h = (h', Ok a) -> h' = h /\ f h = Some a.
Proof.
  unfold attr. destruct (f h) as [x|] eqn:Hf; simpl; [| done].
  by intros [= -> ->].
Qed.

Lemma raise_ok {A} e h h' (a : A) : raise e h = (h', Ok a) -> False.
Proof. done. Qed.

Lemma of_option_ok {A} e (o : option A) a : of_option e o = Ok a -> o = Some a.
Proof. destruct o; simpl; congruence. Qed.

Lemma result_bind_ok {A B} (r : result A) (f : A -> result B) b :
  r ≫= f = Ok b -> exists a, r = Ok a /\ f a = Ok b.
Proof. destruct r as [a|e]; [eauto | done]. Qed.

(** Take the successful runs among the hypotheses apart, one call at a
    time. *)
Ltac inv_step :=
  match goal with
  | H : (mbind _ _) _ = (_, Ok _) |- _ =>
      let h1 := fresh "h" in
      let a := fresh "a" in
      let H1 := fresh H in
      apply bind_ok in H as (h1 & a & H1 & H)
  | H : mret _ _ = (_, Ok _) |- _ => apply mret_ok in H as [-> ->]
  | H : modify _ _ = (_, Ok _) |- _ => apply modify_ok in H as ->
  | H : gets _ _ = (_, Ok _) |- _ => apply gets_ok in H as [-> ->]
  | H : lift _ _ = (_, Ok _) |- _ => apply lift_ok in H as [-> H]
  | H : attr _ _ = (_, Ok _) |- _ => apply attr_ok in H as [-> H]
  | H : raise _ _ = (_, Ok _) |- _ => apply raise_ok in H as []
  | H : of_option _ _ = Ok _ |- _ => apply of_option_ok in H
  end.

Ltac inv_run := repeat inv_step.

Lemma foldM_nil {A B} (f : B -> A -> M B) b h : foldM f b [] h = (h, Ok b).
Proof. reflexivity. Qed.

Lemma foldM_cons {A B} (f : B -> A -> M B) b x l h :
  foldM f b (x :: l) h = (f b x ≫= fun b' => foldM f b' l) h.
Proof. reflexivity. Qed.

Lemma foldM_app {A B} (f : B -> A -> M B) b l1 l2 h :
  foldM f b (l1 ++ l2) h = (foldM f b l1 ≫= fun b' => foldM f b' l2) h.
Proof.
  revert b h. induction l1 as [|x l1 IH]; intros b h; [done |].
  rewrite <- app_comm_cons, foldM_cons, !bind_run, foldM_cons, bind_run.
  destruct (f b x h) as [h1 [b1|e]]; [| done].
  by rewrite IH, bind_run.
Qed.

(** A loop whose turns keep an invariant keeps it. *)
Lemma forM_invariant {A} (P : NoddyHistory -> Prop) (f : A -> M unit) l h h' r :
  (forall x h1 h2 r1, P h1 -> f x h1 = (h2, r1) -> P h2) ->
  P h -> forM f l h = (h', r) -> P h'.
Proof.
  intros Hf. unfold forM. generalize tt at 1. revert h.
  induction l as [|x l IH]; intros h u Hh.
  - by intros [= <- _].
  - rewrite foldM_cons, bind_run. destruct (f x h) as [h1 [u1|e]] eqn:Hx.
    + apply IH. eapply Hf; eauto.
    + intros [= <- _]. eapply Hf; eauto.
Qed.

End MonadFacts.

Module CubeFacts.
Import PyStr Py Events History StrFacts NumFacts FloatFacts MonadFacts.

#[local] Arguments String.append : simpl nomatch.

Lemma set_footer_lines_same h ls :
  footer_lines h = Some ls -> set_footer_lines (Some ls) h = h.
Proof. destruct h. simpl. by intros ->. Qed.

Lemma ensure_footer_spec h :
  ensure_footer h =
  (set_footer_lines (Some (current_footer h)) h, Ok (current_footer h)).
Proof.
  unfold ensure_footer, current_footer, mbind, M_bind, gets. simpl.
  destruct (footer_lines h) as [ls|] eqn:Hf; simpl.
  - by rewrite set_footer_lines_same.
  - reflexivity.
Qed.

Lemma strip_fmt_f p v : strip (fmt_f (S p) v) = fmt_f (S p) v.
Proof.
  pose proof (strip_fmt_wf 0 p v "" eq_refl) as H.
  unfold fmt_wf, rjust in H. simpl spaces in H.
  rewrite app_nil_l, app_empty_r in H.
  destruct (fmt_f_last p v) as (s & c & Hs & Hc).
  rewrite Hs in H at 1. rewrite rstrip_keep in H by done. by rewrite <- Hs in H.
Qed.










Lemma set_footer_lines_twice a b h :
  set_footer_lines a (set_footer_lines b h) = set_footer_lines a h.
Proof. reflexivity. Qed.

Lemma change_cube_size_spec v h :
  change_cube_size v h =
  (set_footer_lines (Some (change_cube_line v <$> current_footer h)) h, Ok tt).
Proof.
  unfold change_cube_size. rewrite bind_run, ensure_footer_spec. reflexivity.
Qed.





End CubeFacts.

Module C1.
Import PyStr Py Events History StrFacts NumFacts FloatFacts CubeFacts.





End C1.

(** ** The anchor scan *)
Module ScanFacts.
Import PyStr Py Events History StrFacts MonadFacts.

(** What one turn of the first loop does to the instance. *)
Lemma scan_line_ok stop i line h h' stop' :
  scan_line stop (i, line) h = (h', Ok stop') ->
  match line_kind line with
  | CountLine => (exists n, h' = set_n_events (Some n) h) /\ stop' = stop
  | EventLine =>
      (exists t n, h' = set_raw_events
         (raw_events h ++ [{| raw_type := t; num := n;
                              line_start := Z.of_nat i; line_end := None |}]) h) /\
      stop' = stop
  | MarkerLine => h' = h /\ stop' = Some (Z.of_nat i - 2)
  | OtherLine => h' = h /\ stop' = stop
  end.
Proof.
  unfold scan_line. destruct (line_kind line); intros H.
  - inv_run. eauto.
  - inv_run. eauto.
  - by inv_run.
  - by inv_run.
Qed.

Lemma scan_fold ls : forall k stop h h' stop',
  foldM scan_line stop (imap (fun i x => ((k + i)%nat, x)) ls) h = (h', Ok stop') ->
  exists new n',
    h' = set_n_events n' (set_raw_events (raw_events h ++ new) h) /\
    line_start <$> new = event_starts (Z.of_nat k) ls /\
    Forall (fun e => line_end e = None) new /\
    stop' = from_option (fun j => Some (j - 2)) stop (last_marker (Z.of_nat k) ls).
Proof.
  induction ls as [|x ls IH]; intros k stop h h' stop' H.
  - apply mret_ok in H as [-> ->]. exists [], (n_events h).
    rewrite app_nil_r. by destruct h.
  - cbn [imap] in H. rewrite foldM_cons in H.
    apply bind_ok in H as (h1 & stop1 & Hx & H).
    rewrite Nat.add_0_r in Hx. apply scan_line_ok in Hx.
    rewrite (imap_ext _ (fun i x => ((S k + i)%nat, x))) in H
      by (intros; simpl; f_equal; lia).
    apply IH in H as (new & n' & -> & Hstarts & Hends & ->).
    cbn [event_starts last_marker].
    replace (Z.of_nat k + 1) with (Z.of_nat (S k)) by lia.
    destruct (line_kind x) eqn:Hk.
    + destruct Hx as [[n ->] ->]. exists new, n'.
      rewrite decide_False by done. rewrite decide_False by done.
      repeat split; try done. by destruct (last_marker _ ls).
    + destruct Hx as [(t & n & ->) ->].
      eexists (_ :: new), n'. rewrite decide_True by done. rewrite decide_False by done.
      repeat split.
      * cbn. by rewrite <- app_assoc.
      * cbn. by rewrite Hstarts.
      * by constructor.
      * by destruct (last_marker _ ls).
    + destruct Hx as [-> ->]. exists new, n'.
      rewrite decide_False by done. rewrite decide_True by done.
      repeat split; try done. by destruct (last_marker _ ls).
    + destruct Hx as [-> ->]. exists new, n'.
      rewrite !decide_False by done.
      repeat split; try done. by destruct (last_marker _ ls).
Qed.

Lemma scan_enumerate lines stop h h' stop' :
  foldM scan_line stop (enumerate lines) h = (h', Ok stop') ->
  exists new n',
    h' = set_n_events n' (set_raw_events (raw_events h ++ new) h) /\
    line_start <$> new = event_starts 0 lines /\
    Forall (fun e => line_end e = None) new /\
    stop' = from_option (fun j => Some (j - 2)) stop (last_marker 0 lines).
Proof. apply (scan_fold lines 0). Qed.

(** *** Line ends *)

Lemma set_line_ends_starts evs : line_start <$> set_line_ends evs = line_start <$> evs.
Proof.
  induction evs as [|e [|e' evs] IH]; [done | done |].
  cbn [set_line_ends fmap list_fmap] in *. by rewrite IH.
Qed.

Lemma set_line_ends_next evs i e e' :
  set_line_ends evs !! i = Some e -> set_line_ends evs !! S i = Some e' ->
  line_end e = Some (line_start e' - 1).
Proof.
  revert i. induction evs as [|x [|y evs] IH]; intros i; [done | by destruct i |].
  cbn [set_line_ends]. destruct i as [|i].
  - intros [= <-]. cbn [lookup list_lookup].
    destruct evs as [|z evs]; cbn [set_line_ends]; by intros [= <-].
  - apply IH.
Qed.

Lemma set_last_line_end_starts x evs :
  line_start <$> set_last_line_end x evs = line_start <$> evs.
Proof.
  induction evs as [|e [|e' evs] IH]; [done | done |].
  cbn [set_last_line_end fmap list_fmap] in *. by rewrite IH.
Qed.

Lemma set_last_line_end_last x evs :
  evs <> [] -> exists e, last (set_last_line_end x evs) = Some e /\ line_end e = Some x.
Proof.
  induction evs as [|e [|e' evs] IH]; [done | by eexists | intros _].
  destruct IH as (e0 & He0 & Hx); [done |]. exists e0. split; [| done].
  cbn [set_last_line_end] in *. by rewrite last_cons, He0.
Qed.

Lemma set_last_line_end_lookup x evs i e :
  set_last_line_end x evs !! i = Some e -> is_Some (evs !! S i) -> evs !! i = Some e.
Proof.
  revert i. induction evs as [|y [|z evs] IH]; intros i; [done | |].
  - destruct i; by intros _ [? ?].
  - destruct i as [|i]; [done |]. cbn [set_last_line_end]. apply IH.
Qed.

Lemma set_last_line_end_length x evs : length (set_last_line_end x evs) = length evs.
Proof.
  induction evs as [|y [|z evs] IH]; [done | done |].
  cbn [set_last_line_end length] in *. by rewrite IH.
Qed.

Lemma set_last_line_end_next x evs i e e' :
  (forall i e e', evs !! i = Some e -> evs !! S i = Some e' ->
                  line_end e = Some (line_start e' - 1)) ->
  set_last_line_end x evs !! i = Some e -> set_last_line_end x evs !! S i = Some e' ->
  line_end e = Some (line_start e' - 1).
Proof.
  intros Hevs Hi HSi.
  assert (Hlen : (S i < length evs)%nat).
  { rewrite <- (set_last_line_end_length x). by eapply lookup_lt_Some. }
  destruct (lookup_lt_is_Some_2 evs (S i) Hlen) as [e0 He0].
  pose proof (set_last_line_end_lookup x evs i e Hi (ex_intro _ e0 He0)) as Hi'.
  rewrite (Hevs i e e0 Hi' He0). do 2 f_equal.
  assert (Hs : (line_start <$> set_last_line_end x evs) !! S i = (line_start <$> evs) !! S i)
    by (by rewrite set_last_line_end_starts).
  rewrite !list_lookup_fmap, HSi, He0 in Hs. simpl in Hs. congruence.
Qed.

(** *** The event objects *)

(** [create_event] assigns [events] and [store] only. *)
Lemma create_event_frame e h h' r :
  create_event e h = (h', r) -> h' = set_events (events h') (set_store (store h') h).
Proof.
  unfold create_event. rewrite !bind_run. unfold gets, lift. cbn [fst snd].
  destruct (of_option KeyError (line_end e)) as [stop|]; [| intros [= <- _]; by destruct h].
  destruct (event_class_of (raw_type e)); [| intros [= <- _]; by destruct h].
  unfold store_event. rewrite bind_run. unfold alloc, modify.
  intros [= <- _]. reflexivity.
Qed.

Lemma create_events_frame raw h h' r :
  forM create_event raw h = (h', r) ->
  raw_events h' = raw_events h /\ history_lines h' = history_lines h /\
  footer_lines h' = footer_lines h /\ n_events h' = n_events h.
Proof.
  apply (forM_invariant
    (fun h1 => raw_events h1 = raw_events h /\ history_lines h1 = history_lines h /\
               footer_lines h1 = footer_lines h /\ n_events h1 = n_events h)); [| done].
  intros x h1 h2 r1 (? & ? & ? & ?) Hx. apply create_event_frame in Hx. by rewrite Hx.
Qed.

(** The raw events that a successful [determine_events] leaves. *)
Lemma determine_events_raw h h' :
  determine_events h = (h', Ok tt) ->
  exists new bo,
    line_start <$> new = event_starts 0 (history_lines h) /\
    new <> [] /\
    last_marker 0 (history_lines h) = Some bo /\
    raw_events h' = set_last_line_end (bo - 2) (set_line_ends new) /\
    history_lines h' = history_lines h.
Proof.
  unfold determine_events. intros H.
  inv_run.
  match goal with
  | H : foldM scan_line _ _ _ = _ |- _ =>
      apply scan_enumerate in H as (new & n' & -> & Hstarts & Hends & Hstop)
  end.
  cbn [raw_events set_raw_events set_n_events set_events history_lines app] in *.
  subst. destruct (last_marker 0 (history_lines h)) as [bo|] eqn:Hbo; [| done].
  cbn [from_option] in *. simplify_eq.
  match goal with
  | H : (if decide ?P is left _ then _ else _) _ = _ |- _ =>
      destruct (decide P) as [Hnil|Hne]; inv_run
  end.
  cbn [raw_events set_raw_events set_n_events set_events history_lines app] in *.
  match goal with
  | H : forM create_event _ _ = _ |- _ =>
      apply create_events_frame in H as (Hraw & Hlines & _)
  end.
  cbn [raw_events set_raw_events set_n_events set_events history_lines
       set_all_events_begin set_all_events_end] in *.
  exists new, bo. repeat split; try done.
  intros ->. by apply Hne.
Qed.

End ScanFacts.

Module C5.
Import PyStr Py Events History MonadFacts ScanFacts Samples.

(** C5. When [determine_events] succeeds, the raw events are the event
    header lines in file order; each event but the last ends on the line
    before the next event starts, and the last event ends two lines before
    the last footer marker line (a line with [BlockOptions]). *)
Theorem determine_events_boundaries (h h' : NoddyHistory) :
  determine_events h = (h', Ok tt) ->
  line_start <$> raw_events h' = event_starts 0 (history_lines h) /\
  (forall i e e', raw_events h' !! i = Some e -> raw_events h' !! S i = Some e' ->
                  line_end e = Some (line_start e' - 1)) /\
  (exists e bo, last (raw_events h') = Some e /\
                last_marker 0 (history_lines h) = Some bo /\
                line_end e = Some (bo - 2)).
Proof.
  intros H. apply determine_events_raw in H as (new & bo & Hstarts & Hne & Hbo & -> & _).
  repeat split.
  - by rewrite set_last_line_end_starts, set_line_ends_starts.
  - intros i e e'. apply set_last_line_end_next. apply set_line_ends_next.
  - destruct (set_last_line_end_last (bo - 2) (set_line_ends new)) as (e & He & Hend).
    { by destruct new as [|e1 [|e2 new]]. }
    eauto.
Qed.

(** The sample document with two events: the first ends on line 11, the
    second on line 17, two lines before the marker on line 19. *)
Lemma determine_events_boundaries_witness :
  determine_events (loaded two_events) = ((determine_events (loaded two_events)).1, Ok tt) /\
  let h' := (determine_events (loaded two_events)).1 in
  line_start <$> raw_events h' = event_starts 0 (history_lines (loaded two_events)) /\
  (forall i e e', raw_events h' !! i = Some e -> raw_events h' !! S i = Some e' ->
                  line_end e = Some (line_start e' - 1)) /\
  (exists e bo, last (raw_events h') = Some e /\
                last_marker 0 (history_lines (loaded two_events)) = Some bo /\
                line_end e = Some (bo - 2)).
Proof.
  assert (H : determine_events (loaded two_events)
              = ((determine_events (loaded two_events)).1, Ok tt)) by (by vm_compute).
  split; [exact H |].
  exact (determine_events_boundaries _ _ H).
Defined.

End C5.

Module C6.
Import PyStr Py Events History MonadFacts ScanFacts Samples.

Lemma last_marker_elem ls : forall k j,
  last_marker k ls = Some j -> exists line, line ∈ ls /\ line_kind line = MarkerLine.
Proof.
  induction ls as [|x ls IH]; intros k j; [done |].
  cbn [last_marker]. destruct (last_marker (k + 1) ls) as [j'|] eqn:Hl.
  - destruct (IH _ _ Hl) as (line & Hin & Hk). intros _. exists line. split; [by right | done].
  - destruct (decide (line_kind x = MarkerLine)); [| done].
    intros _. exists x. split; [by left | done].
Qed.

Lemma marker_in line : line_kind line = MarkerLine -> str_in "BlockOptions" line = true.
Proof.
  unfold line_kind. destruct (str_in "No of Events" line); [done |].
  destruct (str_in "Event #" line); [done |].
  by destruct (str_in "BlockOptions" line).
Qed.

Lemma load_history_lines lines h h' :
  load_history lines h = (h', Ok tt) -> history_lines h' = lines.
Proof.
  unfold load_history, get_footer_lines. intros H. inv_run.
  cbn [history_lines set_history_lines] in *.
  destruct lines; inv_run. reflexivity.
Qed.

(** C6 (amended). A line sequence in which no line holds the footer marker
    [BlockOptions] does not load: the constructor raises, and the caller
    gets no instance. *)
Theorem load_without_marker_fails (lines : list string) :
  (forall line, line ∈ lines -> str_in "BlockOptions" line = false) ->
  exists e, NoddyHistory_init (Some lines) = Err e.
Proof.
  intros Hno. unfold NoddyHistory_init.
  destruct ((load_history lines;; determine_events) blank) as [h' [[]|e]] eqn:H; [| eauto].
  exfalso. inv_run.
  match goal with
  | H : determine_events _ = _ |- _ =>
      apply determine_events_raw in H as (new & bo & _ & _ & Hbo & _ & _)
  end.
  match goal with
  | H : load_history _ _ = (_, Ok ?a) |- _ =>
      destruct a; apply load_history_lines in H; rewrite H in Hbo
  end.
  apply last_marker_elem in Hbo as (line & Hin & Hk).
  apply marker_in in Hk. rewrite (Hno line Hin) in Hk. done.
Qed.

(** The sample header alone: no line holds the marker. *)
Lemma load_without_marker_fails_witness :
  (forall line, line ∈ add_nl sample_header -> str_in "BlockOptions" line = false) /\
  exists e, NoddyHistory_init (Some (add_nl sample_header)) = Err e.
Proof.
  assert (H : forall line, line ∈ add_nl sample_header -> str_in "BlockOptions" line = false).
  { intros line Hin.
    assert (Hall : Forall (fun l => str_in "BlockOptions" l = false) (add_nl sample_header)).
    { repeat constructor. }
    rewrite Forall_forall in Hall. by apply Hall. }
  split; [exact H |]. exact (load_without_marker_fails _ H).
Defined.

(** C6 as stated fails for a missing event-count line: the sample document
    without its count line loads, with both events, and [n_events] unset. *)
Lemma load_without_count_succeeds :
  forallb (fun line => negb (str_in "No of Events" line)) no_count = true /\
  exists h, NoddyHistory_init (Some no_count) = Ok h /\
            dict_keys (events h) = [1; 2] /\ n_events h = None.
Proof.
  split; [by vm_compute |].
  exists (instance no_count). by vm_compute.
Qed.

End C6.

(** ** Dictionaries and the object store *)
Module DictFacts.
Import Py Events History MonadFacts.

Section dict_facts.
Context {K V : Type} `{EqDecision K}.
Implicit Types (d : dict K V) (k : K) (v : V).

Lemma dict_get_set_eq k v d : dict_get k (dict_set k v d) = Some v.
Proof.
  induction d as [|[k' v'] d IH]; simpl.
  - by rewrite decide_True.
  - destruct (decide (k = k')) as [->|Hne]; simpl.
    + by rewrite decide_True.
    + by rewrite decide_False.
Qed.

Lemma dict_get_set_ne k k' v d :
  k <> k' -> dict_get k (dict_set k' v d) = dict_get k d.
Proof.
  intros Hne. induction d as [|[k0 v0] d IH]; simpl.
  - by rewrite decide_False.
  - destruct (decide (k' = k0)) as [->|Hne0]; simpl.
    + by rewrite !decide_False.
    + destruct (decide (k = k0)); [done | apply IH].
Qed.

Lemma dict_set_id k v d : dict_get k d = Some v -> dict_set k v d = d.
Proof.
  induction d as [|[k0 v0] d IH]; simpl; [done |].
  destruct (decide (k = k0)) as [->|Hne]; [by intros [= ->] |].
  intros H. by rewrite IH.
Qed.

Lemma dict_set_set k v w d : dict_set k v (dict_set k w d) = dict_set k v d.
Proof.
  induction d as [|[k0 v0] d IH]; simpl.
  - by rewrite decide_True.
  - destruct (decide (k = k0)) as [->|Hne]; simpl.
    + by rewrite decide_True.
    + by rewrite decide_False, IH.
Qed.

(** Assignments to two keys that are present commute. *)
Lemma dict_set_comm k k' v w d :
  k <> k' -> is_Some (dict_get k d) -> is_Some (dict_get k' d) ->
  dict_set k v (dict_set k' w d) = dict_set k' w (dict_set k v d).
Proof.
  intros Hne. induction d as [|[k0 v0] d IH]; simpl; [by intros [? ?] |].
  intros Hk1 Hk2.
  repeat (case_decide; simplify_eq; simpl; try done).
  rewrite IH; done.
Qed.

Lemma dict_set_values_subseteq k v d v0 :
  dict_get k d = Some v0 -> forall x, x ∈ dict_values (dict_set k v d) -> x = v \/ x ∈ dict_values d.
Proof.
  unfold dict_values. induction d as [|[k1 v1] d IH]; simpl; [done |].
  destruct (decide (k = k1)) as [->|Hne].
  - intros _ x. cbn. rewrite !elem_of_cons. naive_solver.
  - intros Hg x. cbn. rewrite !elem_of_cons. intros [->|Hx]; [by right; left |].
    destruct (IH Hg x Hx); auto.
Qed.

Lemma dict_get_value k d v : dict_get k d = Some v -> v ∈ dict_values d.
Proof.
  unfold dict_values. induction d as [|[k1 v1] d IH]; simpl; [done |].
  destruct (decide (k = k1)); cbn; rewrite elem_of_cons; [intros [= ->]; by left | auto].
Qed.

Lemma dict_set_keys k v d v0 :
  dict_get k d = Some v0 -> dict_keys (dict_set k v d) = dict_keys d.
Proof.
  unfold dict_keys. induction d as [|[k1 v1] d IH]; simpl; [done |].
  destruct (decide (k = k1)) as [->|Hne]; [done |].
  intros Hg. cbn. by rewrite IH.
Qed.

End dict_facts.

(** A loop of [update_obj] changes the store, and nothing else. *)
Lemma forM_update_obj {A} (loc_of : A -> loc) (g : A -> Event -> Event) l h :
  forM (fun x => update_obj (loc_of x) (g x)) l h =
  (set_store (foldl (fun st x => <[loc_of x := g x (st !!! loc_of x)]> st) (store h) l) h,
   Ok tt).
Proof.
  unfold forM. generalize tt at 1. revert h.
    induction l as [|x l IH]; intros h u.
  - destruct u. simpl. by destruct h.
  - rewrite foldM_cons, bind_run. unfold update_obj at 1, modify at 1.
    rewrite IH. reflexivity.
Qed.

Lemma update_event_numbers_run h :
  update_event_numbers h = (set_store (renumbered (events h) (store h)) h, Ok tt).
Proof.
  unfold update_event_numbers. rewrite bind_run. unfold gets.
  apply (forM_update_obj (fun kl : Z * loc => kl.2) (fun kl => set_event_number kl.1)).
Qed.

End DictFacts.

(** ** Reordering *)
Module SwapFacts.
Import Py Events History MonadFacts DictFacts.

Lemma set_event_number_twice k k' e :
  set_event_number k (set_event_number k' e) = set_event_number k e.
Proof.
  unfold set_event_number, set_raw_lines. cbn.
  f_equal. destruct (event_lines e); reflexivity.
Qed.

Lemma owner_snoc l evs k l' :
  owner l (evs ++ [(k, l')]) = if decide (l' = l) then Some k else owner l evs.
Proof. unfold owner. by rewrite foldl_app. Qed.

Lemma renumbered_snoc evs k l st :
  renumbered (evs ++ [(k, l)]) st =
  <[l := set_event_number k (renumbered evs st !!! l)]> (renumbered evs st).
Proof. unfold renumbered. by rewrite foldl_app. Qed.

Lemma renumbered_length evs st : length (renumbered evs st) = length st.
Proof.
  induction evs as [|[k l] evs IH] using rev_ind; [done |].
  by rewrite renumbered_snoc, length_insert.
Qed.

Lemma renumbered_lookup evs st l :
  renumbered evs st !! l = renumber_obj evs l <$> st !! l.
Proof.
  induction evs as [|[k l'] evs IH] using rev_ind.
  - unfold renumber_obj. simpl. by destruct (st !! l).
  - rewrite renumbered_snoc. unfold renumber_obj in *. rewrite owner_snoc.
    destruct (decide (l' = l)) as [->|Hne].
    + destruct (st !! l) as [e|] eqn:He.
      * assert (Hl : (l < length (renumbered evs st))%nat).
        { rewrite renumbered_length. by eapply lookup_lt_Some. }
        rewrite list_lookup_insert_eq by done.
        simpl in IH.
        rewrite (list_lookup_total_correct _ _ _ IH). simpl. f_equal.
        destruct (owner l evs); simpl; [apply set_event_number_twice | done].
      * rewrite list_insert_ge.
        2:{ rewrite renumbered_length. by apply lookup_ge_None. }
        by rewrite IH.
    + by rewrite list_lookup_insert_ne.
Qed.

Lemma renumber_obj_twice evs evs' l e :
  (owner l evs = None -> owner l evs' = None) ->
  renumber_obj evs l (renumber_obj evs' l e) = renumber_obj evs l e.
Proof.
  unfold renumber_obj. intros H.
  destruct (owner l evs) as [k|]; simpl.
  - destruct (owner l evs'); simpl; [apply set_event_number_twice | done].
  - by rewrite H.
Qed.

Lemma owner_None l evs : owner l evs = None <-> l ∉ dict_values evs.
Proof.
  unfold dict_values. induction evs as [|[k l'] evs IH] using rev_ind.
  { split; [intros _ H; inversion H | done]. }
  rewrite owner_snoc, fmap_app, elem_of_app. cbn. rewrite list_elem_of_singleton.
  destruct (decide (l' = l)) as [->|Hne]; [naive_solver |].
  rewrite IH. naive_solver.
Qed.

(** Renumbering by [evs] after a renumbering by a dictionary with no other
    objects is renumbering by [evs]. *)
Lemma renumbered_twice evs evs' st :
  (forall l, l ∈ dict_values evs' -> l ∈ dict_values evs) ->
  renumbered evs (renumbered evs' st) = renumbered evs st.
Proof.
  intros Hsub. apply list_eq. intros l.
  rewrite (renumbered_lookup evs (renumbered evs' st)), (renumbered_lookup evs' st),
    (renumbered_lookup evs st).
  match goal with |- _ = _ <$> ?o => destruct o as [e|] end; simpl; [| reflexivity].
  f_equal. apply renumber_obj_twice. rewrite !owner_None. naive_solver.
Qed.

(** A renumbering touches the first line of an object only. *)
Lemma renumber_obj_frame evs l e :
  properties (renumber_obj evs l e) = properties e /\
  layers (renumber_obj evs l e) = layers e /\
  event_type (renumber_obj evs l e) = event_type e /\
  event_class (renumber_obj evs l e) = event_class e /\
  drop 1 (event_lines (renumber_obj evs l e)) = drop 1 (event_lines e).
Proof.
  unfold renumber_obj. destruct (owner l evs); simpl; [| done].
  repeat split. by destruct (event_lines e).
Qed.

Lemma swap_events_run a b la lb h :
  dict_get a (events h) = Some la -> dict_get b (events h) = Some lb ->
  let evs := dict_set b la (dict_set a lb (events h)) in
  swap_events a b h = (set_store (renumbered evs (store h)) (set_events evs h), Ok tt).
Proof.
  intros Ha Hb evs. unfold swap_events.
  rewrite bind_run. unfold gets at 1. rewrite bind_run. unfold lift at 1, dict_item at 1.
  rewrite Ha. cbn [of_option]. rewrite bind_run. unfold lift at 1, dict_item at 1.
  rewrite Hb. cbn [of_option].
  rewrite bind_run. unfold modify at 1. rewrite bind_run. unfold modify at 1.
  rewrite update_event_numbers_run. reflexivity.
Qed.

Lemma swap_back {V} (a b : Z) (la lb : V) (d : dict Z V) :
  dict_get a d = Some la -> dict_get b d = Some lb ->
  dict_set b lb (dict_set a la (dict_set b la (dict_set a lb d))) = d.
Proof.
  intros Ha Hb. destruct (decide (a = b)) as [->|Hne].
  - rewrite !dict_set_set. by apply dict_set_id.
  - rewrite (dict_set_comm a b la la).
    + rewrite dict_set_set, dict_set_set. rewrite (dict_set_id a la d Ha).
      by apply dict_set_id.
    + done.
    + by rewrite dict_get_set_eq.
    + rewrite dict_get_set_ne by done. by rewrite Hb.
Qed.

End SwapFacts.

Module C4.
Import Py Events History MonadFacts DictFacts SwapFacts Samples.

(** C4. For order numbers [a] and [b] that are both in the events mapping,
    two calls of [swap_events a b] leave every key with the object it had
    and every object with its properties, its layers, its type and its
    raw lines after the first; the first line, which embeds the event
    number, is what [update_event_numbers] writes for the original
    mapping: the header of the key when no later key shares the object. *)
Theorem swap_events_twice (h : NoddyHistory) (a b : Z) (la lb : loc) :
  dict_get a (events h) = Some la -> dict_get b (events h) = Some lb ->
  exists h',
    (swap_events a b;; swap_events a b) h = (h', Ok tt) /\
    events h' = events h /\
    h' = (update_event_numbers h).1 /\
    (forall l, properties (deref h' l) = properties (deref h l) /\
               layers (deref h' l) = layers (deref h l) /\
               event_type (deref h' l) = event_type (deref h l) /\
               drop 1 (event_lines (deref h' l)) = drop 1 (event_lines (deref h l))) /\
    (forall k l e, owner l (events h) = Some k -> store h !! l = Some e ->
                   event_lines e <> [] ->
                   head (event_lines (deref h' l)) = Some (event_header k (event_type e))).
Proof.
  intros Ha Hb.
  set (evs1 := dict_set b la (dict_set a lb (events h))).
  assert (Ha1 : dict_get a evs1 = Some lb /\ dict_get b evs1 = Some la).
  { unfold evs1. destruct (decide (a = b)) as [->|Hne].
    - rewrite dict_get_set_eq. rewrite Ha in Hb. by simplify_eq.
    - rewrite dict_get_set_eq, dict_get_set_ne, dict_get_set_eq by done. done. }
  destruct Ha1 as [Ha1 Hb1].
  assert (Hrun : (swap_events a b;; swap_events a b) h =
                 (set_store (renumbered (events h) (store h)) h, Ok tt)).
  { rewrite bind_run, (swap_events_run a b la lb h Ha Hb). fold evs1.
    rewrite (swap_events_run a b lb la
               (set_store (renumbered evs1 (store h)) (set_events evs1 h)) Ha1 Hb1).
    cbn [events store set_store set_events].
    unfold evs1. rewrite (swap_back a b la lb _ Ha Hb).
    rewrite renumbered_twice.
    2:{ intros l Hl. apply (dict_set_values_subseteq b la _ lb) in Hl.
        - destruct Hl as [->|Hl]; [by eapply dict_get_value |].
          apply (dict_set_values_subseteq a lb _ la) in Hl; [| done].
          destruct Hl as [->|Hl]; [by eapply dict_get_value | done].
        - destruct (decide (b = a)) as [->|Hne].
          + by rewrite dict_get_set_eq; rewrite Ha in Hb; simplify_eq.
          + by rewrite dict_get_set_ne. }
    by destruct h. }
  eexists. split; [exact Hrun |].
  split; [done |]. split; [by rewrite update_event_numbers_run |]. split.
  - intros l. unfold deref. cbn [store set_store].
    rewrite !list_lookup_total_alt, renumbered_lookup.
    match goal with
    | |- context [renumber_obj _ _ <$> ?o] => destruct o as [e|]
    end; simpl; [| done].
    pose proof (renumber_obj_frame (events h) l e). naive_solver.
  - intros k l e Hk He Hlines. unfold deref. cbn [store set_store].
    rewrite list_lookup_total_alt, renumbered_lookup, He. simpl.
    unfold renumber_obj. rewrite Hk. simpl.
    by destruct (event_lines e).
Qed.

(** The sample document: swapping its events 1 and 2 twice. *)
Lemma swap_events_twice_witness :
  dict_get 1 (events (instance two_events)) = Some 0%nat /\
  dict_get 2 (events (instance two_events)) = Some 1%nat /\
  exists h',
    (swap_events 1 2;; swap_events 1 2) (instance two_events) = (h', Ok tt) /\
    events h' = events (instance two_events) /\
    h' = (update_event_numbers (instance two_events)).1 /\
    (forall l, properties (deref h' l) = properties (deref (instance two_events) l) /\
               layers (deref h' l) = layers (deref (instance two_events) l) /\
               event_type (deref h' l) = event_type (deref (instance two_events) l) /\
               drop 1 (event_lines (deref h' l))
               = drop 1 (event_lines (deref (instance two_events) l))) /\
    (forall k l e, owner l (events (instance two_events)) = Some k ->
                   store (instance two_events) !! l = Some e ->
                   event_lines e <> [] ->
                   head (event_lines (deref h' l)) = Some (event_header k (event_type e))).
Proof.
  assert (H1 : dict_get 1 (events (instance two_events)) = Some 0%nat) by (by vm_compute).
  assert (H2 : dict_get 2 (events (instance two_events)) = Some 1%nat) by (by vm_compute).
  split; [exact H1 |]. split; [exact H2 |].
  exact (swap_events_twice (instance two_events) 1 2 0%nat 1%nat H1 H2).
Defined.

End C4.

(** ** Writing *)
Module WriteFacts.
Import PyStr Py Events History MonadFacts DictFacts CubeFacts.

(** [history_lines[i - 1]]: the line before, or the last line for the
    first. *)
Lemma prev_line (L pre : list string) line rest :
  L = pre ++ line :: rest ->
  py_index (Z.of_nat (length pre) - 1) L = Some (default (default "" (last L)) (last pre)).
Proof.
  intros HL. unfold py_index. destruct pre as [|p pre' _] using rev_ind.
  - simpl length. replace (0 <=? Z.of_nat 0 - 1) with false by (symmetry; apply Z.leb_gt; lia).
    assert (Hlen : (0 < length L)%nat) by (rewrite HL; simpl; lia).
    replace (0 <=? Z.of_nat 0 - 1 + Z.of_nat (length L)) with true
      by (symmetry; apply Z.leb_le; lia).
    rewrite last_lookup.
    replace (Z.to_nat (Z.of_nat 0 - 1 + Z.of_nat (length L))) with (pred (length L)) by lia.
    destruct (L !! pred (length L)) eqn:Hl; [done |].
    apply lookup_ge_None in Hl. lia.
  - rewrite last_snoc, length_app. simpl.
    replace (0 <=? Z.of_nat (length pre' + 1) - 1) with true
      by (symmetry; apply Z.leb_le; lia).
    replace (Z.to_nat (Z.of_nat (length pre' + 1) - 1)) with (length pre') by lia.
    assert (Hp : L !! length pre' = Some p).
    { rewrite HL, <- app_assoc. by apply list_lookup_middle. }
    by rewrite Hp.
Qed.

Lemma write_lines_suffix (L : list string) rest : forall pre,
  L = pre ++ rest ->
  concat (imap (fun i => write_line L (length pre + i)) rest) =
  write_from (default (default "" (last L)) (last pre)) rest.
Proof.
  induction rest as [|line rest IH]; intros pre HL; [reflexivity |].
  cbn [imap concat write_from]. unfold write_line at 1.
  rewrite Nat.add_0_r, (prev_line L pre line rest HL). cbn [default].
  rewrite <- app_assoc. cbn [app]. do 2 f_equal.
  rewrite (imap_ext _ (fun i => write_line L (length (pre ++ [line]) + i))).
  2:{ intros i x _. simpl. rewrite length_app. simpl. f_equal. lia. }
  rewrite IH by (by rewrite <- app_assoc).
  by rewrite last_snoc.
Qed.

(** The loop over the lines writes what [write_from] writes, the line
    before the first being the last, as index [-1] has it. *)
Lemma write_lines_from (L : list string) :
  write_lines L = write_from (default "" (last L)) L.
Proof. apply (write_lines_suffix L L []). reflexivity. Qed.

Lemma write_from_app prev a b :
  write_from prev (a ++ b) = write_from prev a ++ write_from (default prev (last a)) b.
Proof.
  revert prev. induction a as [|x a IH]; intros prev; [done |].
  assert (Hl : default prev (last (x :: a)) = default x (last a)).
  { rewrite last_cons. by destruct (last a). }
  rewrite Hl. cbn [app write_from]. rewrite IH. rewrite <- !app_assoc. reflexivity.
Qed.

(** A line with the marker is written after a blank line: the line before
    it when that is blank, a line of its own otherwise. *)
Lemma write_from_marker prev pre p line post :
  str_in "BlockOptions" line = true ->
  write_from prev (pre ++ p :: line :: post) =
  write_from prev (pre ++ [p]) ++ (if decide (p = nl) then [] else [nl]) ++
  line :: write_from line post.
Proof.
  intros Hm. replace (pre ++ p :: line :: post) with ((pre ++ [p]) ++ line :: post)
    by (by rewrite <- app_assoc).
  rewrite write_from_app, last_snoc. cbn [default write_from]. rewrite Hm. f_equal.
  unfold id. destruct (decide (p = nl)) as [->|Hne].
  - by rewrite String.eqb_refl.
  - apply String.eqb_neq in Hne. by rewrite Hne.
Qed.

Section write_facts.
Variable fmt : string -> Q -> string.

Lemma update_all_event_properties_run h :
  update_all_event_properties fmt h =
  (set_store (updated_store fmt (events h) (store h)) h, Ok tt).
Proof.
  unfold update_all_event_properties. rewrite bind_run. unfold gets.
  apply (forM_update_obj (fun l : nat => l) (fun _ => update_properties fmt)).
Qed.

Lemma create_header_run t fn h :
  filename h = Some fn ->
  _create_header t h = (set_header_lines (Some (header_text fn t)) h, Ok tt).
Proof.
  intros Hfn. unfold _create_header. rewrite bind_run. unfold attr. by rewrite Hfn.
Qed.

Lemma write_history_run name t h :
  write_history fmt name t h =
  (written fmt name t h,
   Ok (write_lines (assemble (written fmt name t h)
         (add_nl (split lf (header_text (default name (filename h)) t)))
         (current_footer h)))).
Proof.
  unfold write_history.
  rewrite bind_run, update_all_event_properties_run.
  rewrite bind_run. unfold modify at 1.
  cbn [filename set_store]. unfold written.
  destruct (filename h) as [fn|] eqn:Hfn; cbn [default].
  - rewrite bind_run, (create_header_run t fn) by done.
    rewrite bind_run. unfold attr at 1. cbn [header_lines set_header_lines of_option].
    rewrite bind_run, ensure_footer_spec, bind_run. unfold gets.
    destruct h; cbn [filename] in Hfn; subst; reflexivity.
  - rewrite bind_run, (create_header_run t name) by done.
    rewrite bind_run. unfold attr at 1. cbn [header_lines set_header_lines of_option].
    rewrite bind_run, ensure_footer_spec, bind_run. unfold gets.
    reflexivity.
Qed.

End write_facts.
End WriteFacts.

(** ** What [add_event] leaves alone *)
Module FrameFacts.
Import PyStr Py Events History MonadFacts DictFacts CubeFacts WriteFacts.

(** A call that assigns no attribute. *)
Definition pure {A} (m : M A) : Prop := forall h, (m h).1 = h.

(** A call that assigns none of the attributes of [add_event_frame]. *)
Definition framed {A} (m : M A) : Prop :=
  forall h h' r, m h = (h', r) -> add_event_frame h h'.

Lemma frame_refl h : add_event_frame h h.
Proof. by repeat split. Qed.

Lemma frame_trans h1 h2 h3 :
  add_event_frame h1 h2 -> add_event_frame h2 h3 -> add_event_frame h1 h3.
Proof. unfold add_event_frame. intuition congruence. Qed.

Lemma pure_bind {A B} (m : M A) (f : A -> M B) :
  pure m -> (forall a, pure (f a)) -> pure (m ≫= f).
Proof.
  intros Hm Hf h. rewrite bind_run. specialize (Hm h).
  destruct (m h) as [h1 [a|e]]; simpl in *; subst; [apply Hf | done].
Qed.

Lemma pure_lift {A} (r : result A) : pure (lift r).
Proof. done. Qed.

Lemma pure_attr {A} (f : NoddyHistory -> option A) : pure (attr f).
Proof. done. Qed.

Lemma pure_mret {A} (a : A) : pure (mret a : M A).
Proof. done. Qed.

Lemma pure_raise {A} e : pure (raise e : M A).
Proof. done. Qed.

Lemma pure_gets {A} (f : NoddyHistory -> A) : pure (gets f).
Proof. done. Qed.

Ltac solve_pure :=
  repeat first
    [ apply pure_lift | apply pure_attr | apply pure_mret | apply pure_raise
    | apply pure_gets
    | apply pure_bind; [| intros ?]
    | match goal with |- pure (if ?b then _ else _) => destruct b end ].

Lemma pure_subst_pos opts text : pure (subst_pos opts text).
Proof. unfold subst_pos. solve_pure. Qed.

Section builders.
Variable py_str : PyVal -> string.

Lemma pure_create_fault opts : pure (_create_fault py_str opts).
Proof. unfold _create_fault. cbv zeta. solve_pure; apply pure_subst_pos. Qed.

Lemma pure_create_fold opts : pure (_create_fold opts).
Proof. unfold _create_fold. cbv zeta. solve_pure; apply pure_subst_pos. Qed.

Lemma pure_create_tilt opts : pure (_create_tilt opts).
Proof. unfold _create_tilt. cbv zeta. solve_pure; apply pure_subst_pos. Qed.

Lemma pure_create_unconformity opts : pure (_create_unconformity py_str opts).
Proof. unfold _create_unconformity. cbv zeta. solve_pure; apply pure_subst_pos. Qed.

Lemma pure_framed {A} (m : M A) : pure m -> framed m.
Proof. intros Hm h h' r H. specialize (Hm h). rewrite H in Hm. simpl in Hm. subst. apply frame_refl. Qed.

Lemma framed_bind {A B} (m : M A) (f : A -> M B) :
  framed m -> (forall a, framed (f a)) -> framed (m ≫= f).
Proof.
  intros Hm Hf h h' r. rewrite bind_run.
  destruct (m h) as [h1 [a|e]] eqn:H1.
  - intros H2. eapply frame_trans; [by eapply Hm | by eapply Hf].
  - intros [= <- _]. by eapply Hm.
Qed.

Lemma framed_modify (f : NoddyHistory -> NoddyHistory) :
  (forall h, add_event_frame h (f h)) -> framed (modify f).
Proof. intros Hf h h' r [= <- _]. apply Hf. Qed.

Lemma framed_get_ev_counter : framed get_ev_counter.
Proof.
  unfold get_ev_counter. apply framed_bind; [apply pure_framed, pure_attr | intros c].
  apply framed_bind; [| intros ?; apply pure_framed, pure_mret].
  apply framed_modify. intros h. by repeat split.
Qed.

Lemma framed_store_event k ev : framed (store_event k ev).
Proof.
  unfold store_event. apply framed_bind.
  - intros h h' r [= <- _]. by repeat split.
  - intros l. apply framed_modify. intros h. by repeat split.
Qed.

Lemma framed_add_event ty opts num : framed (add_event py_str ty opts num).
Proof.
  unfold add_event.
  apply framed_bind; [apply framed_get_ev_counter | intros c]. cbv zeta.
  apply framed_bind.
  - apply pure_framed.
    repeat match goal with |- pure (if ?b then _ else _) => destruct b end;
      solve_pure;
      auto using pure_create_fault, pure_create_fold, pure_create_tilt,
                 pure_create_unconformity.
  - intros ev. apply framed_bind; [apply framed_store_event | intros ?].
    apply framed_bind; [| intros ?; apply pure_framed; solve_pure].
    apply framed_modify. intros h. by repeat split.
Qed.

End builders.
End FrameFacts.

Module C10.
Import PyStr Py Events History MonadFacts DictFacts CubeFacts WriteFacts FrameFacts.

Lemma written_ext fmt name t h1 h2 :
  events h1 = events h2 -> store h1 = store h2 -> filename h1 = filename h2 ->
  footer_lines h1 = footer_lines h2 ->
  (write_history fmt name t h1).2 = (write_history fmt name t h2).2.
Proof.
  intros He Hs Hf Hl. rewrite !write_history_run. cbn [snd]. do 2 f_equal.
  unfold assemble, lines_of, deref, written, current_footer.
  cbn [events store set_store set_filename set_header_lines set_footer_lines].
  by rewrite He, Hs, Hf, Hl.
Qed.

(** C10. Whatever its outcome, [add_event] leaves [history_lines] and
    every attribute other than the events mapping with its objects, the
    event counter and [all_events_end] as they were. What [write_history]
    writes depends on the events mapping with its objects, the file name
    and the footer lines only: no [history_lines] reaches the output. *)
Theorem add_event_keeps_history_lines (py_str : PyVal -> string)
    (fmt : string -> Q -> string) :
  (forall ty opts event_num h h' r,
     add_event py_str ty opts event_num h = (h', r) ->
     history_lines h' = history_lines h /\ add_event_frame h h') /\
  (forall name t h1 h2,
     events h1 = events h2 -> store h1 = store h2 -> filename h1 = filename h2 ->
     footer_lines h1 = footer_lines h2 ->
     (write_history fmt name t h1).2 = (write_history fmt name t h2).2) /\
  (forall name t h lines,
     (write_history fmt name t (set_history_lines lines h)).2 =
     (write_history fmt name t h).2).
Proof.
  split; [| split].
  - intros ty opts n h h' r H.
    pose proof (framed_add_event py_str ty opts n h h' r H) as Hf.
    split; [apply Hf | exact Hf].
  - intros. by apply written_ext.
  - intros. by apply written_ext.
Qed.

End C10.

Module C9.
Import PyStr Py Events History Samples.

(** C9, at the failing input: with the integer sub-key 0 for event 1 of
    the sample document, [change_event_params] adds 250 to the height of
    layer 0, while [set_event_params] leaves the layer as it was and files
    the mapping under the key 0 of the event's own properties. *)
Theorem set_event_params_integer_key :
  exists h1 h2 q0 q1 q2,
    set_event_params layer_params (instance two_events) = (h1, Ok tt) /\
    change_event_params layer_params (instance two_events) = (h2, Ok tt) /\
    layer_property (instance two_events) 0 0 "Height" = Some (VFloat q0) /\
    layer_property h1 0 0 "Height" = Some (VFloat q1) /\
    layer_property h2 0 0 "Height" = Some (VFloat q2) /\
    (q0 == 100)%Q /\ (q1 == 100)%Q /\ (q2 == 350)%Q /\
    dict_get (KInt 0) (properties (deref h1 0)) =
      Some (VDict [("property", VStr "Height"); ("val", VInt 250)]) /\
    dict_get (KInt 0) (properties (deref h2 0)) = None.
Proof.
  eexists _, _, _, _, _.
  split; [by vm_compute |]. split; [by vm_compute |].
  split; [by vm_compute |]. split; [by vm_compute |]. split; [by vm_compute |].
  by vm_compute.
Qed.

End C9.

Module C7.
Import PyStr Py Events History Samples.

(** C7, at the failing input: with [pos = (0, 0, 'top')] the test
    [event_options['pos'] == 'top'] compares the whole tuple with the
    string and fails, so the builder formats ['top'] with [%.1f] and
    raises [TypeError], whatever the upper z-extent of the document; with
    the z-coordinate 5000 given as a number the decoded event has
    [Z = 5000.0] and [Dip Direction = 45.0]. *)
Theorem create_fault_top_raises (py_str : PyVal -> string) (h : NoddyHistory) :
  _create_fault py_str fault_top h = (h, Err TypeError) /\
  exists ev qz qd,
    _create_fault py_str fault_5000 h = (h, Ok ev) /\
    dict_get (KStr "Z") (properties ev) = Some (VFloat qz) /\ (qz == 5000)%Q /\
    dict_get (KStr "Dip Direction") (properties ev) = Some (VFloat qd) /\ (qd == 45)%Q.
Proof.
  split; [by vm_compute |].
  eexists _, _, _.
  split; [by vm_compute |]. split; [by vm_compute |]. split; [by vm_compute |].
  split; by vm_compute.
Qed.

End C7.

(** ** Rounding to doubles *)
Module DoubleFacts.
Import PyStr Py FloatFacts.

Local Open Scope Q_scope.

Lemma pow2_Qpower k : pow2 k == 2 ^ k.
Proof.
  unfold pow2. destruct (0 <=? k)%Z eqn:Hk.
  - apply Z.leb_le in Hk. by rewrite Zpower_Qpower.
  - apply Z.leb_gt in Hk. rewrite Zpower_Qpower by lia.
    rewrite Qpower_opp. change (inject_Z 2) with 2.
    assert (H : ~ 2 ^ k == 0) by (apply Qpower_not_0; lra).
    field. intros E. apply H. rewrite <- (Qinv_involutive (2 ^ k)), E. reflexivity.
Qed.

Lemma pow2_pos k : 0 < pow2 k.
Proof. rewrite pow2_Qpower. apply Qpower_0_lt. lra. Qed.

Lemma pow2_add a b : pow2 (a + b) == pow2 a * pow2 b.
Proof. rewrite !pow2_Qpower. apply Qpower_plus. lra. Qed.

Lemma pow2_le a b : (a <= b)%Z -> pow2 a <= pow2 b.
Proof. intros H. rewrite !pow2_Qpower. apply Qpower_le_compat_l; [done | lra]. Qed.

Lemma pow2_lt a b : (a < b)%Z -> pow2 a < pow2 b.
Proof. intros H. rewrite !pow2_Qpower. apply Qpower_lt_compat_l; [done | lra]. Qed.

Lemma pow2_0 : pow2 0 == 1.
Proof. reflexivity. Qed.

Lemma pow2_opp k : pow2 k * pow2 (- k) == 1.
Proof. rewrite <- pow2_add. by replace (k + - k)%Z with 0%Z by lia. Qed.

Lemma pow2_inv k : pow2 (- k) == / pow2 k.
Proof. rewrite !pow2_Qpower. apply Qpower_opp. Qed.

Lemma pow2_nonneg_Z k : (0 <= k)%Z -> pow2 k = inject_Z (2 ^ k).
Proof. intros H. unfold pow2. by replace (0 <=? k)%Z with true by (symmetry; apply Z.leb_le; lia). Qed.

(** *** Rounding to an integer *)

Lemma inject_Z_sub x y : inject_Z (x - y) == inject_Z x - inject_Z y.
Proof. unfold Z.sub, Qminus. by rewrite inject_Z_plus, inject_Z_opp. Qed.

Lemma inj_pos z : (0 < z)%Z -> 0 < inject_Z z.
Proof. intros H. change 0 with (inject_Z 0). by rewrite <- Zlt_Qlt. Qed.

Lemma inj_nonneg z : (0 <= z)%Z -> 0 <= inject_Z z.
Proof. intros H. change 0 with (inject_Z 0). by rewrite <- Zle_Qle. Qed.

Lemma round_half_even_cases q :
  let z := round_half_even q in
  (Qabs (q - inject_Z z) < 1 # 2) \/
  (Qabs (q - inject_Z z) == 1 # 2 /\ Z.even z = true).
Proof.
  destruct q as [n d]. unfold round_half_even. cbn [Qnum Qden].
  pose proof (Z.div_mod n (Z.pos d) ltac:(lia)) as Hdm.
  pose proof (Z.mod_pos_bound n (Z.pos d) ltac:(lia)) as Hr.
  set (fl := (n / Z.pos d)%Z) in *. set (r := (n mod Z.pos d)%Z) in *.
  assert (Hq : n # d == inject_Z fl + inject_Z r / inject_Z (Z.pos d)).
  { rewrite (Qmake_Qdiv n d). rewrite Hdm. rewrite inject_Z_plus, inject_Z_mult.
    field. intros E. apply (inject_Z_nonzero (Z.pos d)); [lia | done]. }
  assert (HD : 0 < inject_Z (Z.pos d)) by (apply inj_pos; lia).
  assert (Hr0 : 0 <= inject_Z r) by (apply inj_nonneg; lia).
  set (x := inject_Z r / inject_Z (Z.pos d)) in *.
  assert (Hx0 : 0 <= x) by (apply Qle_shift_div_l; [done | lra]).
  assert (Hcmp : forall c, (2 * r ?= Z.pos d)%Z = c ->
            match c with
            | Lt => x < 1 # 2
            | Eq => x == 1 # 2
            | Gt => 1 # 2 < x
            end).
  { intros c Hc. destruct c.
    - apply Z.compare_eq in Hc. unfold x.
      assert (E : inject_Z (Z.pos d) == 2 * inject_Z r).
      { rewrite <- Hc. rewrite inject_Z_mult. reflexivity. }
      rewrite E. field. rewrite E in HD. lra.
    - apply Z.compare_lt_iff in Hc. apply Qlt_shift_div_r; [done |].
      assert (E : 2 * inject_Z r < inject_Z (Z.pos d)).
      { change 2 with (inject_Z 2). rewrite <- inject_Z_mult, <- Zlt_Qlt. done. }
      lra.
    - apply Z.compare_gt_iff in Hc. apply Qlt_shift_div_l; [done |].
      assert (E : inject_Z (Z.pos d) < 2 * inject_Z r).
      { change 2 with (inject_Z 2). rewrite <- inject_Z_mult, <- Zlt_Qlt. done. }
      lra. }
  assert (Hx1 : x < 1).
  { apply Qlt_shift_div_r; [done |]. rewrite Qmult_1_l, <- Zlt_Qlt. apply Hr. }
  specialize (Hcmp _ eq_refl).
  assert (E0 : (n # d) - inject_Z fl == x) by (rewrite Hq; ring).
  assert (E1 : (n # d) - inject_Z (fl + 1) == - (1 - x)).
  { rewrite Hq, inject_Z_plus. change (inject_Z 1) with 1. ring. }
  destruct (2 * r ?= Z.pos d)%Z.
  - right. destruct (Z.even fl) eqn:Hev.
    + split; [| done]. rewrite E0, Qabs_pos by done. done.
    + split.
      * rewrite E1, Qabs_opp, Qabs_pos by lra. lra.
      * rewrite Z.even_add, Hev. reflexivity.
  - left. rewrite E0, Qabs_pos by done. done.
  - left. rewrite E1, Qabs_opp, Qabs_pos by lra. lra.
Qed.

Lemma round_half_even_near q : Qabs (q - inject_Z (round_half_even q)) <= 1 # 2.
Proof. destruct (round_half_even_cases q) as [H | [H _]]; lra. Qed.

(** Two integers that differ are one apart at least. *)
Lemma int_apart (a b : Z) : a <> b -> 1 <= Qabs (inject_Z a - inject_Z b).
Proof.
  intros Hne. unfold Qminus. rewrite <- inject_Z_opp, <- inject_Z_plus.
  change 1 with (inject_Z 1).
  apply Qabs_case; intros H; [| rewrite <- inject_Z_opp];
    rewrite <- Zle_Qle; change 0 with (inject_Z 0) in H; rewrite <- Zle_Qle in H; lia.
Qed.

Lemma Qabs_diff_sym a b : Qabs (a - b) == Qabs (b - a).
Proof. by rewrite Qabs_Qminus. Qed.

(** No integer is nearer to [q] than [round_half_even q]. *)
Lemma round_half_even_nearest q k :
  Qabs (q - inject_Z (round_half_even q)) <= Qabs (q - inject_Z k).
Proof.
  destruct (decide (round_half_even q = k)) as [->|Hne]; [lra |].
  pose proof (round_half_even_near q) as Hn.
  pose proof (int_apart _ _ Hne) as Ha.
  pose proof (Qabs_triangle (inject_Z (round_half_even q) - q) (q - inject_Z k)) as Ht.
  setoid_replace (inject_Z (round_half_even q) - q + (q - inject_Z k))
    with (inject_Z (round_half_even q) - inject_Z k) using relation Qeq in Ht by ring.
  rewrite (Qabs_diff_sym (inject_Z _) q) in Ht. lra.
Qed.

Lemma round_half_even_int q z : q == inject_Z z -> round_half_even q = z.
Proof.
  intros Hq. destruct (decide (round_half_even q = z)) as [|Hne]; [done |].
  pose proof (round_half_even_near q) as Hn.
  pose proof (int_apart _ _ Hne) as Ha.
  assert (Hn' : Qabs (inject_Z z - inject_Z (round_half_even q)) <= 1 # 2).
  { rewrite <- Hq. exact Hn. }
  rewrite Qabs_diff_sym in Hn'. lra.
Qed.

Lemma round_half_even_le q k : q <= inject_Z k -> (round_half_even q <= k)%Z.
Proof.
  intros Hq. destruct (Z_le_gt_dec (round_half_even q) k) as [|Hgt]; [done |].
  pose proof (round_half_even_near q) as Hn.
  apply Qabs_Qle_condition in Hn as [Hn _].
  assert (H1 : inject_Z k + 1 <= inject_Z (round_half_even q)).
  { change 1 with (inject_Z 1). rewrite <- inject_Z_plus, <- Zle_Qle. lia. }
  lra.
Qed.

Lemma round_half_even_ge q k : inject_Z k <= q -> (k <= round_half_even q)%Z.
Proof.
  intros Hq. destruct (Z_le_gt_dec k (round_half_even q)) as [|Hgt]; [done |].
  pose proof (round_half_even_near q) as Hn.
  apply Qabs_Qle_condition in Hn as [_ Hn].
  assert (H1 : inject_Z (round_half_even q) + 1 <= inject_Z k).
  { change 1 with (inject_Z 1). rewrite <- inject_Z_plus, <- Zle_Qle. lia. }
  lra.
Qed.

(** *** The exponent *)

Lemma log2_bounds a :
  0 < a ->
  let l := (Z.log2 (Qnum a) - Z.log2 (Zpos (Qden a)))%Z in
  pow2 (l - 1) < a /\ a < pow2 (l + 1).
Proof.
  destruct a as [n d]. intros Ha. cbn [Qnum Qden].
  assert (Hn : (0 < n)%Z).
  { unfold Qlt in Ha. cbn in Ha. lia. }
  pose proof (Z.log2_spec n Hn) as [Hn1 Hn2].
  pose proof (Z.log2_spec (Z.pos d) ltac:(lia)) as [Hd1 Hd2].
  pose proof (Z.log2_nonneg n) as Hln. pose proof (Z.log2_nonneg (Z.pos d)) as Hld.
  set (ln := Z.log2 n) in *. set (ld := Z.log2 (Z.pos d)) in *.
  rewrite Z.pow_succ_r in Hn2, Hd2 by done.
  assert (PN : 0 < inject_Z (2 ^ ln)) by (apply inj_pos, Z.pow_pos_nonneg; lia).
  assert (PD : 0 < inject_Z (2 ^ ld)) by (apply inj_pos, Z.pow_pos_nonneg; lia).
  assert (HD : 0 < inject_Z (Z.pos d)) by (apply inj_pos; lia).
  assert (E1 : pow2 (ln - ld - 1) == inject_Z (2 ^ ln) / (2 * inject_Z (2 ^ ld))).
  { replace (ln - ld - 1)%Z with (ln + (- ld + -1))%Z by lia.
    rewrite !pow2_add, pow2_inv, (pow2_nonneg_Z ln), (pow2_nonneg_Z ld) by done.
    change (pow2 (-1)) with (1 # 2). field. lra. }
  assert (E2 : pow2 (ln - ld + 1) == 2 * inject_Z (2 ^ ln) / inject_Z (2 ^ ld)).
  { replace (ln - ld + 1)%Z with (ln + (- ld + 1))%Z by lia.
    rewrite !pow2_add, pow2_inv, (pow2_nonneg_Z ln), (pow2_nonneg_Z ld) by done.
    change (pow2 1) with 2. field. lra. }
  rewrite E1, E2, (Qmake_Qdiv n d).
  rewrite Zle_Qle in Hn1, Hd1. rewrite Zlt_Qlt in Hn2, Hd2.
  rewrite inject_Z_mult in Hn2, Hd2. change (inject_Z 2) with 2 in Hn2, Hd2.
  set (N := inject_Z n) in *. set (D := inject_Z (Z.pos d)) in *.
  set (A := inject_Z (2 ^ ln)) in *. set (B := inject_Z (2 ^ ld)) in *.
  split.
  - apply Qlt_shift_div_l; [done |].
    setoid_replace (A / (2 * B) * D) with (A * D / (2 * B)) using relation Qeq by (field; lra).
    apply Qlt_shift_div_r; [lra |]. nra.
  - apply Qlt_shift_div_r; [done |].
    setoid_replace (2 * A / B * D) with (2 * A * D / B) using relation Qeq by (field; lra).
    apply Qlt_shift_div_l; [done |]. nra.
Qed.

Lemma ulp_exp_upper a : 0 < a -> a < pow2 (53 + ulp_exp a).
Proof.
  intros Ha. pose proof (log2_bounds a Ha) as [_ H2]. unfold ulp_exp.
  set (l := (Z.log2 (Qnum a) - Z.log2 (Z.pos (Qden a)))%Z) in *.
  destruct (Qle_bool (pow2 l) a) eqn:Hb.
  - eapply Qlt_le_trans; [exact H2 |]. apply pow2_le. lia.
  - assert (H : a < pow2 l).
    { apply Qnot_le_lt. intros H. apply Qle_bool_iff in H. congruence. }
    eapply Qlt_le_trans; [exact H |]. apply pow2_le. lia.
Qed.

Lemma ulp_exp_lower a :
  0 < a -> (-1074 < ulp_exp a)%Z -> pow2 (52 + ulp_exp a) <= a.
Proof.
  intros Ha. pose proof (log2_bounds a Ha) as [H1 _]. unfold ulp_exp.
  set (l := (Z.log2 (Qnum a) - Z.log2 (Z.pos (Qden a)))%Z) in *.
  destruct (Qle_bool (pow2 l) a) eqn:Hb; intros He.
  - apply Qle_bool_iff in Hb. rewrite Z.max_l by lia.
    by replace (52 + (l - 52))%Z with l by lia.
  - rewrite Z.max_l by lia. replace (52 + (l - 53))%Z with (l - 1)%Z by lia. lra.
Qed.

Lemma ulp_exp_min a : (-1074 <= ulp_exp a)%Z.
Proof. unfold ulp_exp. lia. Qed.

(** *** Doubles are kept *)

Lemma pow2_lt_inv a b : pow2 a < pow2 b -> (a < b)%Z.
Proof.
  intros H. destruct (Z_lt_ge_dec a b) as [|Hge]; [done |].
  pose proof (pow2_le b a ltac:(lia)). lra.
Qed.

Lemma Qnum_neg q : (Qnum q <? 0)%Z = true <-> q < 0.
Proof.
  destruct q as [n d]. unfold Qlt. cbn. rewrite Z.ltb_lt. lia.
Qed.

Lemma Qabs_zero q : Qabs q == 0 <-> q == 0.
Proof.
  split; intros H.
  - revert H. apply Qabs_case; intros; lra.
  - rewrite H. reflexivity.
Qed.

Lemma Qabs_inject_Z m : Qabs (inject_Z m) = inject_Z (Z.abs m).
Proof. reflexivity. Qed.

Lemma Qabs_not_zero q : Qeq_bool (Qabs q) 0 = false -> 0 < Qabs q.
Proof.
  intros H. pose proof (Qabs_nonneg q) as Hn.
  apply Qeq_bool_neq in H. apply Qle_lt_or_eq in Hn as [|E]; [done |].
  exfalso. apply H. by rewrite <- E.
Qed.

(** The sign put back on the magnitude. *)
Lemma signed_abs q (x : Z) (p : Q) :
  inject_Z x * p == Qabs q ->
  inject_Z (if (Qnum q <? 0)%Z then (- x)%Z else x) * p == q.
Proof.
  intros H. destruct (Qnum q <? 0)%Z eqn:Hs.
  - apply Qnum_neg in Hs. rewrite inject_Z_opp.
    rewrite Qabs_neg in H by lra. lra.
  - assert (Hq : 0 <= q).
    { apply Qnot_lt_le. intros Hq. apply Qnum_neg in Hq. congruence. }
    rewrite Qabs_pos in H by done. done.
Qed.

Lemma double_below m e :
  (Z.abs m < 2 ^ 53)%Z -> inject_Z (Z.abs m) * pow2 e < pow2 (53 + e).
Proof.
  intros Hm. rewrite pow2_add, (pow2_nonneg_Z 53) by lia.
  apply Qmult_lt_r; [apply pow2_pos |]. by rewrite <- Zlt_Qlt.
Qed.

(** A double is rounded to itself. *)
Lemma round_double_exact q :
  is_double q -> exists r, round_double q = Finite r /\ r == q.
Proof.
  intros (m & e & Hm & He & Hq). unfold round_double.
  destruct (Qeq_bool (Qabs q) 0) eqn:Hz.
  - apply Qeq_bool_iff in Hz. apply -> Qabs_zero in Hz.
    exists 0. split; [done | by rewrite Hz].
  - apply Qabs_not_zero in Hz. set (a := Qabs q) in *. set (E := ulp_exp a).
    assert (Haq : a == inject_Z (Z.abs m) * pow2 e).
    { unfold a. rewrite Hq, Qabs_Qmult, Qabs_inject_Z.
      rewrite (Qabs_pos (pow2 e)); [reflexivity |]. apply Qlt_le_weak, pow2_pos. }
    pose proof (double_below m e Hm) as Hup. rewrite <- Haq in Hup.
    assert (HEe : (E <= e)%Z).
    { pose proof (ulp_exp_min a). fold E in H.
      destruct (Z.eq_dec E (-1074)%Z); [lia |].
      pose proof (ulp_exp_lower a Hz ltac:(fold E; lia)) as Hl. fold E in Hl.
      assert (Hlt : pow2 (52 + E) < pow2 (53 + e)) by lra.
      apply pow2_lt_inv in Hlt. lia. }
    set (M := (Z.abs m * 2 ^ (e - E))%Z).
    assert (HM : a * pow2 (- E) == inject_Z M).
    { rewrite Haq. unfold M. rewrite inject_Z_mult, <- pow2_nonneg_Z by lia.
      rewrite <- Qmult_assoc, <- pow2_add. by replace (e + - E)%Z with (e - E)%Z by lia. }
    rewrite (round_half_even_int _ M HM).
    assert (HMa : inject_Z M * pow2 E == a).
    { rewrite <- HM, <- Qmult_assoc, (Qmult_comm (pow2 (- E))), pow2_opp. ring. }
    assert (Hov : Qle_bool (pow2 1024) (inject_Z M * pow2 E) = false).
    { destruct (Qle_bool (pow2 1024) (inject_Z M * pow2 E)) eqn:Hb; [| done].
      apply Qle_bool_iff in Hb. rewrite HMa in Hb.
      pose proof (pow2_le (53 + e) 1024 ltac:(lia)). lra. }
    rewrite Hov. eexists. split; [reflexivity |]. by apply signed_abs.
Qed.

(** *** The nearest double *)

Section nearest.
Variable a : Q.
Hypothesis Ha : 0 < a.

Let E := ulp_exp a.
Let t := a * pow2 (- E).
Let M := round_half_even t.

Lemma scaled_back : a == t * pow2 E.
Proof.
  unfold t. rewrite <- Qmult_assoc, (Qmult_comm (pow2 (- E))), pow2_opp. ring.
Qed.

Lemma scaled_below : t < pow2 53.
Proof.
  pose proof (ulp_exp_upper a Ha) as H. fold E in H.
  rewrite pow2_add in H. pose proof (pow2_pos E) as HE.
  rewrite scaled_back in H at 1. by apply Qmult_lt_r in H.
Qed.

Lemma scaled_above : (-1074 < E)%Z -> pow2 52 <= t.
Proof.
  intros He. pose proof (ulp_exp_lower a Ha He) as H. fold E in H.
  rewrite pow2_add in H. pose proof (pow2_pos E) as HE.
  rewrite scaled_back in H at 1. by apply Qmult_le_r in H.
Qed.

Lemma mantissa_max : (M <= 2 ^ 53)%Z.
Proof.
  apply round_half_even_le. rewrite <- (pow2_nonneg_Z 53) by lia.
  apply Qlt_le_weak, scaled_below.
Qed.

Lemma mantissa_min : (-1074 < E)%Z -> (2 ^ 52 <= M)%Z.
Proof.
  intros He. apply round_half_even_ge. rewrite <- (pow2_nonneg_Z 52) by lia.
  by apply scaled_above.
Qed.

Lemma mantissa_nonneg : (0 <= M)%Z.
Proof.
  apply round_half_even_ge. unfold t. change (inject_Z 0) with 0.
  pose proof (pow2_pos (- E)). apply Qmult_le_0_compat; lra.
Qed.

(** The distance to a multiple of the last mantissa bit. *)
Lemma distance_scaled (x : Q) :
  Qabs (a - x * pow2 E) == Qabs (t - x) * pow2 E.
Proof.
  pose proof (pow2_pos E) as HE.
  rewrite <- (Qabs_pos (pow2 E)) at 2 by lra. rewrite <- Qabs_Qmult.
  apply Qabs_wd. rewrite scaled_back at 1. ring.
Qed.

(** No double is nearer to [a] than [M * 2^E]. *)
Lemma nearest_core d :
  is_double d -> Qabs (a - inject_Z M * pow2 E) <= Qabs (a - d).
Proof.
  intros (m' & e' & Hm' & He' & Hd). pose proof (pow2_pos E) as HE.
  rewrite distance_scaled.
  destruct (Z_le_gt_dec E e') as [Hle|Hgt].
  - assert (Hk : d == inject_Z (m' * 2 ^ (e' - E)) * pow2 E).
    { rewrite Hd, inject_Z_mult, <- pow2_nonneg_Z by lia.
      rewrite <- Qmult_assoc, <- pow2_add. by replace (e' - E + E)%Z with e' by lia. }
    rewrite Hk, distance_scaled. apply Qmult_le_r; [done |].
    apply round_half_even_nearest.
  - assert (Hx : d == (d * pow2 (- E)) * pow2 E).
    { rewrite <- Qmult_assoc, (Qmult_comm (pow2 (- E))), pow2_opp. ring. }
    rewrite Hx, distance_scaled. apply Qmult_le_r; [done |].
    pose proof (scaled_above ltac:(lia)) as Ht.
    assert (Hlt : d * pow2 (- E) < pow2 52).
    { apply (Qmult_lt_r _ _ (pow2 E)); [done |]. rewrite <- Hx, <- pow2_add.
      eapply Qle_lt_trans; [apply Qle_Qabs |].
      rewrite Hd, Qabs_Qmult, Qabs_inject_Z, (Qabs_pos (pow2 e'))
        by (apply Qlt_le_weak, pow2_pos).
      eapply Qlt_le_trans; [by apply double_below |]. apply pow2_le. lia. }
    pose proof (round_half_even_nearest t (2 ^ 52)) as Hn. fold M in Hn.
    rewrite <- (pow2_nonneg_Z 52) in Hn by lia.
    rewrite (Qabs_pos (t - pow2 52)) in Hn by lra.
    rewrite (Qabs_pos (t - d * pow2 (- E))) by lra. lra.
Qed.

(** Where another double is as near, the mantissa [M] is even and that
    of the other double is odd. *)
Lemma nearest_tie d :
  is_double d -> Qabs (a - inject_Z M * pow2 E) == Qabs (a - d) ->
  ~ d == inject_Z M * pow2 E ->
  Z.even M = true /\ exists k, Z.odd k = true /\ d == inject_Z k * pow2 E.
Proof.
  intros (m' & e' & Hm' & He' & Hd) Htie Hne. pose proof (pow2_pos E) as HE.
  rewrite distance_scaled in Htie.
  destruct (Z_le_gt_dec E e') as [Hle|Hgt].
  - assert (Hk : d == inject_Z (m' * 2 ^ (e' - E)) * pow2 E).
    { rewrite Hd, inject_Z_mult, <- pow2_nonneg_Z by lia.
      rewrite <- Qmult_assoc, <- pow2_add. by replace (e' - E + E)%Z with e' by lia. }
    set (k := (m' * 2 ^ (e' - E))%Z) in *.
    rewrite Hk, distance_scaled in Htie. apply Qmult_inj_r in Htie; [| lra].
    assert (HkM : M <> k).
    { intros EM. apply Hne. rewrite Hk. by rewrite EM. }
    pose proof (int_apart _ _ HkM) as Hap.
    pose proof (Qabs_triangle (inject_Z M - t) (t - inject_Z k)) as Htr.
    assert (Esum : inject_Z M - t + (t - inject_Z k) == inject_Z M - inject_Z k) by ring.
    rewrite Esum in Htr. rewrite (Qabs_diff_sym (inject_Z M) t) in Htr.
    pose proof (round_half_even_cases t) as Hc. cbv zeta in Hc.
    change (round_half_even t) with M in Hc.
    destruct Hc as [Hlt | [Heq Hev]]; [lra |].
    split; [done |]. exists k. split; [| done].
    assert (Hd1 : Qabs (inject_Z M - inject_Z k) == 1) by lra.
    assert (Hk1 : k = (M + 1)%Z \/ k = (M - 1)%Z).
    { unfold Qminus in Hd1. rewrite <- inject_Z_opp, <- inject_Z_plus in Hd1.
      rewrite Qabs_inject_Z in Hd1. change 1 with (inject_Z 1) in Hd1.
      unfold Qeq in Hd1. cbn [Qnum Qden inject_Z] in Hd1. lia. }
    rewrite <- Z.negb_even.
    destruct Hk1 as [-> | ->]; [rewrite Z.even_add | rewrite Z.even_sub];
      by rewrite Hev.
  - exfalso.
    assert (Hx : d == (d * pow2 (- E)) * pow2 E).
    { rewrite <- Qmult_assoc, (Qmult_comm (pow2 (- E))), pow2_opp. ring. }
    rewrite Hx, distance_scaled in Htie. apply Qmult_inj_r in Htie; [| lra].
    pose proof (scaled_above ltac:(lia)) as Ht.
    assert (Hlt : d * pow2 (- E) < pow2 52).
    { apply (Qmult_lt_r _ _ (pow2 E)); [done |]. rewrite <- Hx, <- pow2_add.
      eapply Qle_lt_trans; [apply Qle_Qabs |].
      rewrite Hd, Qabs_Qmult, Qabs_inject_Z, (Qabs_pos (pow2 e'))
        by (apply Qlt_le_weak, pow2_pos).
      eapply Qlt_le_trans; [by apply double_below |]. apply pow2_le. lia. }
    pose proof (round_half_even_nearest t (2 ^ 52)) as Hn. fold M in Hn.
    rewrite <- (pow2_nonneg_Z 52) in Hn by lia.
    rewrite (Qabs_pos (t - pow2 52)) in Hn by lra.
    rewrite (Qabs_pos (t - d * pow2 (- E))) in Htie by lra. lra.
Qed.

(** The result is a double unless it overflows. *)
Lemma mantissa_double :
  inject_Z M * pow2 E < pow2 1024 -> is_double (inject_Z M * pow2 E).
Proof.
  intros Hov. pose proof mantissa_max as Hmax. pose proof mantissa_nonneg as H0.
  pose proof (ulp_exp_min a) as Hmin. fold E in Hmin. pose proof (pow2_pos E) as HE.
  destruct (Z.eq_dec M (2 ^ 53)%Z) as [EM|HM].
  - exists (2 ^ 52)%Z, (E + 1)%Z. split; [lia |].
    assert (HE1 : (E < 971)%Z).
    { apply pow2_lt_inv. rewrite EM, <- (pow2_nonneg_Z 53), <- pow2_add in Hov by lia.
      apply pow2_lt_inv in Hov. apply pow2_lt. lia. }
    split; [lia |]. rewrite EM, pow2_add, <- !pow2_nonneg_Z by lia.
    change (pow2 53) with (pow2 52 * pow2 1). ring.
  - exists M, E. split; [lia |]. split; [| reflexivity].
    split; [done |]. destruct (Z.eq_dec E (-1074)%Z) as [|HE']; [lia |].
    pose proof (mantissa_min ltac:(lia)) as H52.
    assert (Hlt : pow2 (52 + E) < pow2 1024).
    { eapply Qle_lt_trans; [| exact Hov]. rewrite pow2_add, (pow2_nonneg_Z 52) by lia.
      apply Qmult_le_r; [done |]. by rewrite <- Zle_Qle. }
    apply pow2_lt_inv in Hlt. lia.
Qed.

(** It overflows from [2^1024 - 2^970] on. *)
Lemma mantissa_overflow :
  pow2 1024 <= inject_Z M * pow2 E <-> pow2 1024 - pow2 970 <= a.
Proof.
  pose proof mantissa_max as Hmax. pose proof (pow2_pos E) as HE.
  pose proof (ulp_exp_upper a Ha) as Hup. fold E in Hup.
  pose proof (round_half_even_near t) as Hnear. change (round_half_even t) with M in Hnear.
  apply Qabs_Qle_condition in Hnear as [Hn1 Hn2].
  assert (H970 : pow2 1024 - pow2 970 == (pow2 53 - (1 # 2)) * pow2 971).
  { change (pow2 1024) with (pow2 (53 + 971)). change (pow2 970) with (pow2 (-1 + 971)).
    rewrite !pow2_add. change (pow2 (-1)) with (1 # 2). ring. }
  split; intros H.
  - assert (HE1 : (971 <= E)%Z).
    { assert (Hlt : pow2 1024 <= pow2 (53 + E)).
      { eapply Qle_trans; [exact H |]. rewrite pow2_add, (pow2_nonneg_Z 53) by lia.
        apply Qmult_le_r; [done |]. by rewrite <- Zle_Qle. }
      destruct (Z_le_gt_dec 971%Z E); [done |].
      pose proof (pow2_lt (53 + E) 1024 ltac:(lia)). lra. }
    destruct (Z.eq_dec E 971%Z) as [EE|HE2].
    + assert (HM : M = (2 ^ 53)%Z).
      { destruct (Z.eq_dec M (2 ^ 53)%Z); [done |]. exfalso.
        assert (Hlt : inject_Z M * pow2 E < pow2 53 * pow2 E).
        { apply Qmult_lt_r; [done |]. rewrite (pow2_nonneg_Z 53), <- Zlt_Qlt by lia. lia. }
        rewrite <- pow2_add, EE in Hlt. change (pow2 (53 + 971)) with (pow2 1024) in Hlt.
        rewrite EE in H. exact (Qlt_not_le _ _ Hlt H). }
      rewrite H970. rewrite scaled_back, EE. apply Qmult_le_r; [apply pow2_pos |].
      rewrite HM, <- (pow2_nonneg_Z 53) in Hn1 by lia. lra.
    + pose proof (ulp_exp_lower a Ha ltac:(fold E; lia)) as Hlow. fold E in Hlow.
      pose proof (pow2_le 1024 (52 + E) ltac:(lia)). pose proof (pow2_pos 970). lra.
  - rewrite H970 in H.
    assert (HE1 : (971 <= E)%Z).
    { assert (Hlt : pow2 1023 < pow2 (53 + E)).
      { eapply Qle_lt_trans; [| exact Hup]. eapply Qle_trans; [| exact H].
        change (pow2 1023) with (pow2 (52 + 971)). rewrite pow2_add.
        apply Qmult_le_r; [apply pow2_pos |].
        change (pow2 53) with (pow2 52 * 2). pose proof (pow2_pos 52).
        assert (1 <= pow2 52) by (change 1 with (pow2 0); by apply pow2_le). lra. }
      apply pow2_lt_inv in Hlt. lia. }
    destruct (Z.eq_dec E 971%Z) as [EE|HE2].
    + assert (Ht : pow2 53 - (1 # 2) <= t).
      { rewrite scaled_back, EE in H. by apply Qmult_le_r in H; [| apply pow2_pos]. }
      assert (HM : M = (2 ^ 53)%Z).
      { assert (H1 : (2 ^ 53 - 1 <= M)%Z).
        { apply round_half_even_ge. rewrite inject_Z_sub, <- (pow2_nonneg_Z 53) by lia.
          change (inject_Z 1) with 1. lra. }
        destruct (Z.eq_dec M (2 ^ 53)%Z); [done |]. exfalso.
        assert (EM : M = (2 ^ 53 - 1)%Z) by lia.
        pose proof (round_half_even_cases t) as Hc. cbv zeta in Hc.
        change (round_half_even t) with M in Hc.
        assert (Hd : inject_Z M == pow2 53 - 1).
        { rewrite EM, inject_Z_sub, <- (pow2_nonneg_Z 53) by lia. reflexivity. }
        destruct Hc as [Hlt | [_ Hev]].
        - rewrite Hd in Hlt. rewrite Qabs_pos in Hlt by lra. lra.
        - rewrite EM in Hev. by vm_compute in Hev. }
      rewrite HM, EE, <- (pow2_nonneg_Z 53), <- pow2_add by lia. apply Qle_refl.
    + pose proof (mantissa_min ltac:(lia)) as H52.
      eapply Qle_trans; [apply (pow2_le 1024 (52 + E)); lia |].
      rewrite pow2_add, (pow2_nonneg_Z 52) by lia.
      apply Qmult_le_r; [done |]. by rewrite <- Zle_Qle.
Qed.

End nearest.

(** *** What [round_double] gives *)

Lemma is_double_opp d : is_double d -> is_double (- d).
Proof.
  intros (m & e & Hm & He & Hd). exists (- m)%Z, e.
  split; [lia |]. split; [done |]. rewrite Hd, inject_Z_opp. ring.
Qed.

Lemma round_double_unfold q :
  Qeq_bool (Qabs q) 0 = false ->
  let a := Qabs q in
  let E := ulp_exp a in
  let M := round_half_even (a * pow2 (- E)) in
  round_double q =
  if Qle_bool (pow2 1024) (inject_Z M * pow2 E) then Infinite (Qnum q <? 0)%Z
  else Finite (inject_Z (if (Qnum q <? 0)%Z then (- M)%Z else M) * pow2 E).
Proof. intros H. unfold round_double. by rewrite H. Qed.

Lemma is_double_0 : is_double 0.
Proof. exists 0%Z, 0%Z. by repeat split. Qed.

(** The distance of [q] to a signed magnitude. *)
Lemma distance_signed q (x y : Q) :
  (if (Qnum q <? 0)%Z then y == - x else y == x) ->
  Qabs (q - y) == Qabs (Qabs q - x).
Proof.
  destruct (Qnum q <? 0)%Z eqn:Hs; intros Hy.
  - apply Qnum_neg in Hs. rewrite (Qabs_neg q) by lra. rewrite Hy.
    rewrite <- (Qabs_opp (- q - x)). apply Qabs_wd. ring.
  - assert (Hq : 0 <= q).
    { apply Qnot_lt_le. intros Hq. apply Qnum_neg in Hq. congruence. }
    rewrite (Qabs_pos q) by done. by rewrite Hy.
Qed.

Lemma signed_value q (M : Z) (p : Q) :
  if (Qnum q <? 0)%Z
  then inject_Z (if (Qnum q <? 0)%Z then (- M)%Z else M) * p == - (inject_Z M * p)
  else inject_Z (if (Qnum q <? 0)%Z then (- M)%Z else M) * p == inject_Z M * p.
Proof.
  destruct (Qnum q <? 0)%Z; [| reflexivity]. rewrite inject_Z_opp. ring.
Qed.

(** A finite result is a double, and no double is nearer to [q]. *)
Lemma round_double_nearest q r :
  round_double q = Finite r ->
  is_double r /\ forall d, is_double d -> Qabs (q - r) <= Qabs (q - d).
Proof.
  destruct (Qeq_bool (Qabs q) 0) eqn:Hz.
  - unfold round_double. rewrite Hz. intros [= <-].
    apply Qeq_bool_iff in Hz. apply -> Qabs_zero in Hz.
    split; [apply is_double_0 |]. intros d _. rewrite Hz.
    setoid_replace (0 - 0) with 0 using relation Qeq by ring. apply Qabs_nonneg.
  - rewrite (round_double_unfold q Hz). cbv zeta.
    pose proof (Qabs_not_zero q Hz) as Ha.
    set (a := Qabs q) in *. set (E := ulp_exp a). set (M := round_half_even (a * pow2 (- E))).
    destruct (Qle_bool (pow2 1024) (inject_Z M * pow2 E)) eqn:Hov; [done |].
    intros [= <-].
    assert (Hlt : inject_Z M * pow2 E < pow2 1024).
    { apply Qnot_le_lt. intros H. apply Qle_bool_iff in H. congruence. }
    pose proof (mantissa_double a Ha Hlt) as HD. fold E M in HD.
    pose proof (signed_value q M (pow2 E)) as Hs.
    split.
    + destruct (Qnum q <? 0)%Z.
      * destruct (is_double_opp _ HD) as (m & e & ? & ? & Hd). exists m, e.
        split; [done |]. split; [done |]. by rewrite Hs.
      * done.
    + intros d Hd. rewrite (distance_signed q (inject_Z M * pow2 E)) by exact Hs.
      fold a.
      assert (Hd' : exists d', is_double d' /\ Qabs (q - d) == Qabs (a - d')).
      { destruct (Qnum q <? 0)%Z eqn:Hneg.
        - exists (- d). split; [by apply is_double_opp |].
          apply (distance_signed q (- d) d). rewrite Hneg. ring.
        - exists d. split; [done |].
          apply (distance_signed q d d). rewrite Hneg. reflexivity. }
      destruct Hd' as (d' & Hdd & ->). by apply nearest_core.
Qed.

(** Between two nearest doubles the one with the even mantissa is
    taken. *)
Lemma round_double_tie q r d :
  round_double q = Finite r -> is_double d ->
  Qabs (q - r) == Qabs (q - d) -> ~ d == r ->
  exists m k e, Z.even m = true /\ Z.odd k = true /\
                r == inject_Z m * pow2 e /\ d == inject_Z k * pow2 e.
Proof.
  destruct (Qeq_bool (Qabs q) 0) eqn:Hz.
  - unfold round_double. rewrite Hz. intros [= <-] _ Htie Hne. exfalso.
    apply Qeq_bool_iff in Hz. apply -> Qabs_zero in Hz. rewrite Hz in Htie.
    apply Hne. symmetry in Htie.
    setoid_replace (0 - 0) with 0 using relation Qeq in Htie by ring.
    change (Qabs 0) with 0 in Htie. apply -> Qabs_zero in Htie. lra.
  - rewrite (round_double_unfold q Hz). cbv zeta.
    pose proof (Qabs_not_zero q Hz) as Ha.
    set (a := Qabs q) in *. set (E := ulp_exp a). set (M := round_half_even (a * pow2 (- E))).
    destruct (Qle_bool (pow2 1024) (inject_Z M * pow2 E)) eqn:Hov; [done |].
    intros [= <-] Hd Htie Hne.
    pose proof (signed_value q M (pow2 E)) as Hs.
    rewrite (distance_signed q (inject_Z M * pow2 E)) in Htie by exact Hs. fold a in Htie.
    destruct (Qnum q <? 0)%Z eqn:Hneg.
    + rewrite (distance_signed q (- d) d) in Htie by (rewrite Hneg; ring). fold a in Htie.
      destruct (nearest_tie a Ha (- d) (is_double_opp _ Hd) Htie) as (Hev & k & Hk & Hdk).
      { intros EE. apply Hne. rewrite Hs. fold E M in EE. rewrite <- EE. ring. }
      exists (- M)%Z, (- k)%Z, E. rewrite Z.even_opp, Z.odd_opp.
      repeat split; try done. rewrite inject_Z_opp. fold E in Hdk.
      setoid_replace d with (- - d) using relation Qeq by ring. rewrite Hdk. ring.
    + rewrite (distance_signed q d d) in Htie by (rewrite Hneg; reflexivity). fold a in Htie.
      destruct (nearest_tie a Ha d Hd Htie) as (Hev & k & Hk & Hdk).
      { intros EE. apply Hne. by rewrite EE. }
      exists M, k, E. by repeat split.
Qed.

(** The result is an infinity exactly from [2^1024 - 2^970] on, with the
    sign of [q]. *)
Lemma round_double_overflow q neg :
  round_double q = Infinite neg <->
  pow2 1024 - pow2 970 <= Qabs q /\ neg = (Qnum q <? 0)%Z.
Proof.
  destruct (Qeq_bool (Qabs q) 0) eqn:Hz.
  - unfold round_double. rewrite Hz. split; [done |]. intros [H _]. exfalso.
    apply Qeq_bool_iff in Hz. rewrite Hz in H.
    assert (pow2 970 < pow2 1024) by (by apply pow2_lt). lra.
  - rewrite (round_double_unfold q Hz). cbv zeta.
    pose proof (Qabs_not_zero q Hz) as Ha.
    pose proof (mantissa_overflow (Qabs q) Ha) as Hov.
    set (a := Qabs q) in *. set (E := ulp_exp a) in *.
    set (M := round_half_even (a * pow2 (- E))) in *.
    destruct (Qle_bool (pow2 1024) (inject_Z M * pow2 E)) eqn:Hb.
    + apply Qle_bool_iff in Hb. split.
      * intros [= <-]. split; [by apply Hov | done].
      * by intros [_ ->].
    + split; [done |]. intros [H _]. apply Hov in H. apply Qle_bool_iff in H. congruence.
Qed.

End DoubleFacts.

(** ** Substitution into templates *)
Module ReplaceFacts.
Import PyStr StrFacts.

#[local] Arguments String.append : simpl nomatch.

Lemma prefix_length A x : String.prefix A x = true -> (String.length A <= String.length x)%nat.
Proof.
  revert x. induction A as [|a A IH]; intros x; simpl; [intros _; lia |].
  destruct x as [|c x]; simpl; [done |]. destruct (ascii_dec a c); [| done].
  intros H. apply IH in H. lia.
Qed.

(** No occurrence starts in a text without the first character of [old]. *)
Lemma replace_skip a old new s Y :
  all_chars (fun c => negb (Ascii.eqb c a)) s = true ->
  replace_from 0 (String a old) new (s +:+ Y) = s +:+ replace_from 0 (String a old) new Y.
Proof.
  induction s as [|x s IH]; [done |].
  cbn [all_chars]. intros [Hx Hs]%andb_true_iff.
  rewrite !app_cons. cbn [replace_from String.prefix].
  destruct (ascii_dec a x) as [->|Hne]; [by rewrite Ascii.eqb_refl in Hx |].
  by rewrite IH.
Qed.

(** No occurrence crosses a character that [old] does not hold. *)
Lemma replace_barrier old new c Y :
  old <> "" -> all_chars (fun d => negb (Ascii.eqb d c)) old = true ->
  forall X k, (k <= String.length X)%nat ->
  replace_from k old new (X +:+ String c Y) =
  replace_from k old new X +:+ String c (replace_from 0 old new Y).
Proof.
  intros Hold Hc. induction X as [|x X IH]; intros k Hk.
  - simpl in Hk. replace k with O by lia. rewrite app_nil_l.
    destruct old as [|a old]; [done |].
    cbn [replace_from String.prefix]. cbn [all_chars] in Hc.
    apply andb_true_iff in Hc as [Ha _].
    destruct (ascii_dec a c) as [->|Hne]; [by rewrite Ascii.eqb_refl in Ha | done].
  - rewrite app_cons. destruct k as [|k].
    + cbn [replace_from]. rewrite <- app_cons.
      rewrite (prefix_app_stop old (String x X) Y c Hc).
      destruct (String.prefix old (String x X)) eqn:Hp.
      * apply prefix_length in Hp. simpl in Hp.
        rewrite IH by lia. by rewrite app_assoc_s.
      * rewrite IH by lia. by rewrite app_cons.
    + cbn [replace_from]. simpl in Hk. apply IH. lia.
Qed.

Lemma replace_barrier_0 old new c X Y :
  old <> "" -> all_chars (fun d => negb (Ascii.eqb d c)) old = true ->
  replace_from 0 old new (X +:+ String c Y) =
  replace_from 0 old new X +:+ String c (replace_from 0 old new Y).
Proof. intros Hold Hc. apply replace_barrier; [done | done | lia]. Qed.

(** A substitution brings in the characters of [new] only. *)
Lemma replace_chars p old new s k :
  all_chars p s = true -> all_chars p new = true ->
  all_chars p (replace_from k old new s) = true.
Proof.
  intros Hs Hnew. revert k. induction s as [|x s IH]; intros k; [done |].
  cbn [all_chars] in Hs. apply andb_true_iff in Hs as [Hx Hs].
  cbn [replace_from]. destruct k as [|k]; [| by apply IH].
  destruct (String.prefix old (String x s)).
  - rewrite all_chars_app, Hnew. by apply IH.
  - cbn [all_chars]. rewrite Hx. by apply IH.
Qed.

End ReplaceFacts.

(** ** The stratigraphy builder *)
Module StratiFacts.
Import PyStr Py Events History StrFacts NumFacts FloatFacts MonadFacts ReplaceFacts.

#[local] Arguments String.append : simpl nomatch.

Lemma Ok_inj {A} (x y : A) : @Ok A x = Ok y -> x = y.
Proof. by intros [= ->]. Qed.

Ltac inv_result :=
  repeat match goal with
  | H : mbind _ _ = Ok _ |- _ =>
      let a := fresh "a" in
      let H1 := fresh H in
      apply result_bind_ok in H as (a & H1 & H)
  | H : mret _ = Ok _ |- _ => change (mret ?x) with (Ok x) in H
  | H : Ok _ = Ok _ |- _ => apply Ok_inj in H; try subst
  end.

Lemma mapM_result_length {A B} (f : A -> result B) l bs :
  mapM f l = Ok bs -> length bs = length l.
Proof.
  revert bs. induction l as [|x l IH]; intros bs H; simpl in H.
  - by injection H as <-.
  - inv_result. simpl. f_equal. by apply IH.
Qed.

Lemma mapM_result_lookup {A B} (f : A -> result B) l bs i b :
  mapM f l = Ok bs -> bs !! i = Some b -> exists x, l !! i = Some x /\ f x = Ok b.
Proof.
  revert bs i. induction l as [|x l IH]; intros bs i H Hb; simpl in H.
  - injection H as <-. done.
  - inv_result. destruct i as [|i]; simpl in *.
    + simplify_eq. eauto.
    + eauto.
Qed.

(** *** Running sums *)

Lemma cumsum_from_lookup {A B} (add : A -> B -> A) l : forall acc i x,
  cumsum_from add acc l !! i = Some x -> x = foldl add acc (take (S i) l).
Proof.
  induction l as [|y l IH]; intros acc i x; [done |].
  destruct i as [|i]; cbn [cumsum_from lookup list_lookup take foldl].
  - intros [= <-]. by rewrite take_0.
  - apply IH.
Qed.

Lemma cumsum_from_length {A B} (add : A -> B -> A) l :
  forall acc, length (cumsum_from add acc l) = length l.
Proof. induction l as [|y l IH]; intros acc; [done |]. cbn [cumsum_from length]. by rewrite IH. Qed.

Lemma cumsum_int_length zs : length (cumsum_int zs) = length zs.
Proof. destruct zs; [done |]. cbn [cumsum_int length]. by rewrite cumsum_from_length. Qed.

Lemma cumsum_double_length ds : length (cumsum_double ds) = length ds.
Proof. destruct ds; [done |]. cbn [cumsum_double length]. by rewrite cumsum_from_length. Qed.

Lemma cumsum_double_lookup ds i x :
  cumsum_double ds !! i = Some x -> x = double_sum ds i.
Proof.
  destruct ds as [|d l]; [done |].
  destruct i as [|i]; cbn [cumsum_double lookup list_lookup double_sum].
  - intros [= <-]. by rewrite take_0.
  - apply cumsum_from_lookup.
Qed.

Lemma wrap64_spec z : in_int64 (wrap64 z) = true /\ (2 ^ 64 | wrap64 z - z).
Proof.
  unfold wrap64, in_int64.
  pose proof (Z.mod_pos_bound (z + 2 ^ 63) (2 ^ 64) ltac:(lia)) as Hb.
  pose proof (Z.div_mod (z + 2 ^ 63) (2 ^ 64) ltac:(lia)) as Hd.
  split.
  - apply andb_true_iff. split; [apply Z.leb_le | apply Z.ltb_lt]; lia.
  - exists (- ((z + 2 ^ 63) / 2 ^ 64)). lia.
Qed.

Lemma cumsum_int_from l : forall acc s i z,
  (2 ^ 64 | acc - s) ->
  cumsum_from (fun a x => wrap64 (a + x)) acc l !! i = Some z ->
  in_int64 z = true /\ (2 ^ 64 | z - (s + foldr Z.add 0 (take (S i) l))).
Proof.
  induction l as [|y l IH]; intros acc s i z Hs; [done |].
  destruct (wrap64_spec (acc + y)) as [Hr Hw].
  assert (Hs' : (2 ^ 64 | wrap64 (acc + y) - (s + y))).
  { replace (wrap64 (acc + y) - (s + y)) with ((wrap64 (acc + y) - (acc + y)) + (acc - s))
      by lia. by apply Z.divide_add_r. }
  destruct i as [|i]; cbn [cumsum_from lookup list_lookup take foldr].
  - intros [= <-]. split; [done |]. rewrite take_0. cbn [foldr].
    by replace (s + (y + 0)) with (s + y) by lia.
  - intros H. destruct (IH _ (s + y) _ _ Hs' H) as [H1 H2]. split; [done |].
    by replace (s + (y + foldr Z.add 0 (take (S i) l)))
      with (s + y + foldr Z.add 0 (take (S i) l)) by lia.
Qed.

Lemma cumsum_int_lookup zs i z :
  Forall (fun z => in_int64 z = true) zs ->
  cumsum_int zs !! i = Some z ->
  in_int64 z = true /\ (2 ^ 64 | z - foldr Z.add 0 (take (S i) zs)).
Proof.
  destruct zs as [|y l]; [done |]. intros Hin.
  apply Forall_cons in Hin as [Hy _].
  destruct i as [|i]; cbn [cumsum_int lookup list_lookup take foldr].
  - intros [= <-]. split; [done |]. rewrite take_0. cbn [foldr]. exists 0. lia.
  - intros H. apply (cumsum_int_from l y y) in H; [done | exists 0; lia].
Qed.

Lemma sum_inject_Z (l : list Z) :
  (foldr Qplus 0 (inject_Z <$> l) == inject_Z (foldr Z.add 0%Z l))%Q.
Proof.
  induction l as [|x l IH]; [done |]. cbn [fmap list_fmap foldr].
  change (foldr Qplus 0%Q (list_fmap Z Q inject_Z l))
    with (foldr Qplus 0%Q (inject_Z <$> l)).
  by rewrite IH, inject_Z_plus.
Qed.

Lemma prefix_sum_ints zs i :
  (prefix_sum (inject_Z <$> zs) i == inject_Z (foldr Z.add 0%Z (take (S i) zs)))%Q.
Proof. unfold prefix_sum. rewrite <- fmap_take. apply sum_inject_Z. Qed.

Lemma sum_snoc (l : list Q) q : (foldr Qplus 0 (l ++ [q]) == foldr Qplus 0 l + q)%Q.
Proof.
  induction l as [|x l IH]; simpl; [ring |]. rewrite IH. ring.
Qed.

Lemma prefix_sum_0 q qs : (prefix_sum (q :: qs) 0 == q)%Q.
Proof. unfold prefix_sum. change (take 1 (q :: qs)) with [q]. cbn [foldr]. ring. Qed.

Lemma prefix_sum_S qs i q :
  qs !! S i = Some q -> (prefix_sum qs (S i) == prefix_sum qs i + q)%Q.
Proof.
  intros Hq. unfold prefix_sum. rewrite (take_S_r qs (S i) q Hq). apply sum_snoc.
Qed.

(** The items of an array of integers. *)
Lemma items_int64 items : forall qs zs,
  mapM as_number items = Ok qs -> mapM as_int64 items = Ok zs ->
  qs = inject_Z <$> zs /\ Forall (fun z => in_int64 z = true) zs.
Proof.
  induction items as [|v items IH]; intros qs zs Hq Hz; simpl in Hq, Hz.
  - apply Ok_inj in Hq, Hz. subst. by split.
  - inv_result.
    match goal with
    | Hqs : mapM as_number items = Ok _, Hzs : mapM as_int64 items = Ok _ |- _ =>
        destruct (IH _ _ Hqs Hzs) as [-> Hall]
    end.
    destruct v as [x| | | | |]; try done.
    repeat match goal with
    | H : as_number _ = Ok _ |- _ => cbn [as_number] in H; apply Ok_inj in H; subst
    | H : as_int64 _ = Ok _ |- _ => cbn [as_int64] in H
    end.
    destruct (in_int64 x) eqn:Hx; [| done].
    match goal with H : Ok _ = Ok _ |- _ => apply Ok_inj in H; subst end.
    split; [done | by constructor].
Qed.

Lemma finite_ok x q : finite x = Ok q -> x = Finite q.
Proof. destruct x; [| done]. intros H. apply Ok_inj in H. by subst. Qed.

(** The items of an array of doubles. *)
Lemma items_double items : forall qs ds,
  mapM as_number items = Ok qs -> mapM as_double items = Ok ds ->
  Forall2 (fun q d => round_double q = Finite d) qs ds.
Proof.
  induction items as [|v items IH]; intros qs ds Hq Hd; simpl in Hq, Hd.
  - apply Ok_inj in Hq, Hd. subst. constructor.
  - inv_result. constructor; [| by apply IH].
    destruct v as [x| | | | |]; try done.
    + repeat match goal with
      | H : as_number _ = Ok _ |- _ => cbn [as_number] in H; apply Ok_inj in H; subst
      | H : as_double _ = Ok _ |- _ => cbn [as_double] in H
      end.
      inv_result.
      match goal with
      | H : as_int64 _ = Ok _ |- _ =>
          cbn [as_int64] in H; destruct (in_int64 x); [| done]; apply Ok_inj in H; subst
      end.
      match goal with H : float_of_int _ = Ok _ |- _ => by apply finite_ok in H end.
    + repeat match goal with
      | H : as_number _ = Ok _ |- _ => cbn [as_number] in H; apply Ok_inj in H; subst
      | H : as_double _ = Ok _ |- _ => cbn [as_double] in H; apply finite_ok in H
      end.
      done.
Qed.

Lemma is_double_Qeq q q' : (q == q')%Q -> is_double q -> is_double q'.
Proof. intros E (m & e & Hm & He & Hq). exists m, e. by rewrite <- E. Qed.

(** Sums that are doubles are not rounded. *)
Lemma exact_double_sum qs ds :
  Forall2 (fun q d => round_double q = Finite d) qs ds ->
  forall i,
  (i < length qs)%nat ->
  (forall j q, (j <= i)%nat -> qs !! j = Some q ->
     is_double q /\ is_double (prefix_sum qs j)) ->
  exists r, double_sum ds i = Finite r /\ (r == prefix_sum qs i)%Q.
Proof.
  intros Hall.
  assert (Hitem : forall j q d, (forall j q, qs !! j = Some q -> (j <= j)%nat -> True) ->
            qs !! j = Some q -> ds !! j = Some d -> is_double q -> (d == q)%Q).
  { intros j q d _ Hq Hd Hdq.
    pose proof (Forall2_lookup_lr _ _ _ _ _ _ Hall Hq Hd) as Hr. cbv beta in Hr.
    destruct (DoubleFacts.round_double_exact q Hdq) as (r & Hr' & Er).
    rewrite Hr in Hr'. injection Hr' as <-. done. }
  destruct Hall as [|q d qs' ds' Hqd Hall']; [intros i Hi; simpl in Hi; lia |].
  intros i. induction i as [|i IH]; intros Hi Hex.
  - exists d. split; [by cbn [double_sum]; rewrite take_0 |].
    rewrite prefix_sum_0. apply (Hitem 0%nat q d); try done.
    by apply (Hex 0%nat q).
  - cbn [length] in Hi.
    destruct (lookup_lt_is_Some_2 qs' i ltac:(lia)) as [q' Hq'].
    assert (Hlen : length ds' = length qs') by (symmetry; by eapply Forall2_length).
    destruct (lookup_lt_is_Some_2 ds' i ltac:(lia)) as [d' Hd'].
    destruct IH as (r & Hr & Er); [cbn [length]; lia | intros j x Hj; apply Hex; lia |].
    destruct (Hex (S i) q' ltac:(lia) Hq') as [Hdq' Hds].
    assert (Ed : (d' == q')%Q) by (by apply (Hitem (S i) q' d')).
    cbn [double_sum] in Hr |- *.
    rewrite (take_S_r ds' i d' Hd'), foldl_app, Hr. cbn [foldl add_double].
    assert (Esum : (r + d' == prefix_sum (q :: qs') (S i))%Q).
    { rewrite (prefix_sum_S (q :: qs') i q') by done. by rewrite Er, Ed. }
    destruct (DoubleFacts.round_double_exact (r + d')) as (r' & Hr' & Er').
    { eapply is_double_Qeq; [symmetry; exact Esum | done]. }
    exists r'. split; [done |]. by rewrite Er'.
Qed.

(** *** The lines of a layer *)

Definition no_dollar (c : ascii) : bool := negb (Ascii.eqb c "$"%char).
Definition no_lf (c : ascii) : bool := negb (Ascii.eqb c lf).
Definition no_blank (c : ascii) : bool := negb (Ascii.eqb c " "%char).
Definition is_plain (c : ascii) : bool :=
  negb (Ascii.eqb c "$"%char) && negb (Ascii.eqb c lf).

Lemma plain_chars s :
  all_chars is_plain s = true ->
  all_chars no_dollar s = true /\ all_chars no_lf s = true.
Proof.
  intros H. split; (eapply all_chars_impl; [| exact H]); intros c;
    unfold is_plain, no_dollar, no_lf; by intros [? ?]%andb_true_iff.
Qed.

(** The text of a height: digits, a point, a sign, or an infinity. *)
Lemma double_chars (y : float64) :
  all_chars is_plain (fmt_double 1 y) = true /\
  all_chars no_blank (fmt_double 1 y) = true /\ fmt_double 1 y <> "".
Proof.
  destruct y as [q|[]]; [| by vm_compute..]. cbn [fmt_double].
  split; [| split].
  - eapply all_chars_impl; [| apply (fmt_f_chars 0 q)]. intros c Hc.
    destruct c as [[] [] [] [] [] [] [] []]; by vm_compute in Hc |- *.
  - eapply all_chars_impl; [| apply (fmt_f_chars 0 q)]. intros c Hc.
    destruct c as [[] [] [] [] [] [] [] []]; by vm_compute in Hc |- *.
  - destruct (fmt_f_first 0 q) as (c & s & Hs & _). by rewrite Hs.
Qed.

Lemma height_chars (x : np_num) :
  all_chars is_plain (fmt_np 1 x) = true /\
  all_chars no_blank (fmt_np 1 x) = true /\ fmt_np 1 x <> "".
Proof. destruct x; apply double_chars. Qed.

Lemma tabs_blank s :
  all_chars no_blank s = true -> replace_from 0 "    " tab s = s.
Proof.
  intros Hs. pose proof (replace_skip " "%char "   " tab s "" Hs) as H.
  by rewrite !app_empty_r in H.
Qed.

(** The height line after the blanks have become tabs. *)
Lemma tabs_height hs :
  all_chars no_blank hs = true -> hs <> "" ->
  replace_from 0 "    " tab ("    Height    = " +:+ hs) =
  tab +:+ "Height" +:+ tab +:+ "= " +:+ hs.
Proof.
  intros Hs Hne. destruct hs as [|c hs]; [done |].
  cbn [all_chars] in Hs. apply andb_true_iff in Hs as [Hc Hs].
  rewrite <- (app_empty_r hs) at 1.
  rewrite (replace_barrier_0 "    " tab c "    Height    = " (hs +:+ "")).
  - rewrite app_empty_r, (tabs_blank hs Hs). by vm_compute.
  - done.
  - cbn [all_chars]. unfold no_blank in Hc. rewrite Ascii.eqb_sym in Hc.
    by rewrite Hc.
Qed.

Lemma template_name name :
  replace "$NAME$" name Templates.strati_layer =
  ("    Unit Name    = " +:+ name) +:+
  String lf ("    Height    = $HEIGHT$" +:+ String lf Templates.strati_rest).
Proof. vm_compute. reflexivity. Qed.

Lemma template_height hs :
  replace_from 0 "$HEIGHT$" hs
    ("    Height    = $HEIGHT$" +:+ String lf Templates.strati_rest) =
  ("    Height    = " +:+ hs) +:+ String lf Templates.strati_rest.
Proof. vm_compute. reflexivity. Qed.

Lemma split_join sep a b :
  split sep (a +:+ String sep b) = split sep a ++ split sep b.
Proof.
  induction a as [|c a IH]; simpl.
  - by rewrite Ascii.eqb_refl.
  - rewrite IH. destruct (Ascii.eqb c sep); [done |].
    pose proof (split_nonempty sep a). by destruct (split sep a).
Qed.

(** The lines of a layer: those of the name, the height line, and the
    rest.  The name may hold any characters. *)
Lemma layer_text name hs d :
  all_chars is_plain hs = true -> all_chars no_blank hs = true -> hs <> "" ->
  exists name_lines rest,
    split lf (replace "$DENSITY$" d
      (replace "    " tab
        (replace "$HEIGHT$" hs
          (replace "$NAME$" name Templates.strati_layer)))) =
    name_lines ++ (tab +:+ "Height" +:+ tab +:+ "= " +:+ hs) :: rest /\
    (plain_name name = true -> length name_lines = 1%nat).
Proof.
  intros Hhs Hblank Hne.
  destruct (plain_chars hs Hhs) as [Hh1 Hh2].
  rewrite template_name.
  change (replace "$HEIGHT$" hs ?x) with (replace_from 0 "$HEIGHT$" hs x).
  change (replace "    " tab ?x) with (replace_from 0 "    " tab x).
  change (replace "$DENSITY$" d ?x) with (replace_from 0 "$DENSITY$" d x).
  rewrite (replace_barrier_0 "$HEIGHT$" hs lf) by done.
  rewrite template_height.
  rewrite !(replace_barrier_0 "    " tab lf) by done.
  rewrite tabs_height by done.
  set (N0 := replace_from 0 "$HEIGHT$" hs ("    Unit Name    = " +:+ name)).
  set (N1 := replace_from 0 "    " tab N0).
  set (H := tab +:+ "Height" +:+ tab +:+ "= " +:+ hs).
  set (R := replace_from 0 "    " tab Templates.strati_rest).
  assert (HH : all_chars is_plain H = true).
  { unfold H. by rewrite !all_chars_app, Hhs. }
  destruct (plain_chars H HH) as [HHd HHl].
  rewrite !(replace_barrier_0 "$DENSITY$" d lf) by done.
  pose proof (replace_skip "$"%char "DENSITY$" d H "" HHd) as HHr.
  rewrite !app_empty_r in HHr. change (replace_from 0 "$DENSITY$" d "") with "" in HHr.
  rewrite HHr, !split_join, (split_no_sep lf H) by done.
  eexists _, _. split; [reflexivity |].
  intros Hname.
  assert (Hn : all_chars is_plain name = true).
  { eapply all_chars_impl; [| exact Hname]. done. }
  assert (HN0 : all_chars is_plain N0 = true).
  { apply replace_chars; [| done]. by rewrite all_chars_app, Hn. }
  assert (HN1 : all_chars is_plain N1 = true) by (by apply replace_chars).
  destruct (plain_chars N1 HN1) as [HN1d HN1l].
  pose proof (replace_skip "$"%char "DENSITY$" d N1 "" HN1d) as HNr.
  rewrite !app_empty_r in HNr. change (replace_from 0 "$DENSITY$" d "") with "" in HNr.
  by rewrite HNr, (split_no_sep lf N1).
Qed.

Lemma strati_layer_height opts i lines :
  strati_layer_lines opts i = Ok lines ->
  exists thick cum x name_lines rest,
    dict_get "layer_thickness" opts = Some thick /\ np_cumsum thick = Ok cum /\
    cum !! i = Some x /\
    lines = name_lines ++ (tab +:+ "Height" +:+ tab +:+ "= " +:+ fmt_np 1 x) :: rest /\
    (forall name, option_at opts "layer_names" i = Ok (VStr name) ->
                  plain_name name = true -> length name_lines = 1%nat).
Proof.
  unfold strati_layer_lines. intros H. inv_result.
  repeat match goal with
  | H : dict_item _ _ = Ok _ |- _ => apply of_option_ok in H
  | H : list_item _ _ = Ok _ |- _ => apply of_option_ok in H
  | H : as_str ?v = Ok _ |- _ => destruct v; try done; apply Ok_inj in H; subst
  end.
  match goal with
  | Hn : option_at _ "layer_names" _ = Ok (VStr ?name), Hq : _ !! i = Some ?x,
    Hd : percent_e _ = Ok ?d |- _ =>
      destruct (height_chars x) as (Hp & Hb & Hne);
      destruct (layer_text name (fmt_np 1 x) d) as (first & rest & Htext & Hlen);
        [done | done | done |];
      rewrite Htext; eexists _, _, _, first, rest; repeat split; try done;
      intros name' Hn'; rewrite Hn in Hn'; apply Ok_inj in Hn'; by injection Hn' as <-
  end.
Qed.

(** The element of the running sums that a layer reads. *)
Lemma np_cumsum_lookup thick qs cum i x :
  mapM as_number (sequence_items thick) = Ok qs ->
  np_cumsum thick = Ok cum -> cum !! i = Some x ->
  running_sum (forallb is_int (sequence_items thick)) qs i x /\ (i < length qs)%nat.
Proof.
  intros Hqs. unfold np_cumsum, running_sum.
  destruct (forallb is_int (sequence_items thick)); intros Hc Hx; inv_result.
  - match goal with
    | H : mapM as_int64 _ = Ok ?zs |- _ =>
        destruct (items_int64 _ _ _ Hqs H) as [-> Hall];
        apply list_lookup_fmap_Some in Hx as (z & -> & Hz);
        pose proof (lookup_lt_Some _ _ _ Hz) as Hlen;
        destruct (cumsum_int_lookup zs i z Hall Hz) as [Hr Hdiv]
    end.
    split.
    + eexists z, _. split; [done |]. split; [done |].
      split; [symmetry; apply prefix_sum_ints |].
      by apply Z.mod_divide.
    + by rewrite length_fmap, <- cumsum_int_length.
  - match goal with
    | H : mapM as_double _ = Ok ?ds |- _ =>
        pose proof (items_double _ _ _ Hqs H) as Hall;
        apply list_lookup_fmap_Some in Hx as (y & -> & Hy);
        pose proof (lookup_lt_Some _ _ _ Hy) as Hlen;
        apply cumsum_double_lookup in Hy as ->
    end.
    split; [by eexists |].
    by rewrite (Forall2_length _ _ _ Hall), <- cumsum_double_length.
Qed.

(** Where nothing is rounded, the text is that of the sum. *)
Lemma exact_height ints qs i x :
  running_sum ints qs i x -> (i < length qs)%nat -> exact_sums ints qs i ->
  exists q, (q == prefix_sum qs i)%Q /\ fmt_np 1 x = fmt_f 1 q.
Proof.
  unfold running_sum, exact_sums. intros Hrun Hi [Hex Hrange].
  destruct (lookup_lt_is_Some_2 qs i Hi) as [qi Hqi].
  destruct (Hex i qi ltac:(lia) Hqi) as [_ Hsum].
  destruct ints.
  - destruct Hrun as (z & s & -> & Hz & Hs & Hmod).
    destruct (Hrange eq_refl) as [Hlo Hhi]. rewrite <- Hs in Hlo, Hhi.
    rewrite <- Zle_Qle in Hlo. rewrite <- Zlt_Qlt in Hhi.
    assert (Ez : z = s).
    { unfold in_int64 in Hz. apply andb_true_iff in Hz as [H1 H2].
      apply Z.leb_le in H1. apply Z.ltb_lt in H2.
      apply Z.mod_divide in Hmod as [k Hk]; [| lia]. lia. }
    subst z. cbn [fmt_np].
    destruct (DoubleFacts.round_double_exact (inject_Z s)) as (r & Hr & Er).
    { eapply is_double_Qeq; [symmetry; exact Hs | done]. }
    rewrite Hr. exists r. split; [by rewrite Er | done].
  - destruct Hrun as (ds & Hall & ->).
    destruct (exact_double_sum qs ds Hall i Hi Hex) as (r & Hr & Er).
    cbn [fmt_np]. rewrite Hr. by exists r.
Qed.

End StratiFacts.

Module C8.
Import PyStr Py Events History StrFacts NumFacts FloatFacts MonadFacts ReplaceFacts.
Import StratiFacts Samples.

(** C8. When [_create_stratigraphy] builds an event from the thicknesses
    [qs], the event lines are a blank line, the [Num Layers] line, one
    block of lines for each layer, and the [Name] line; the block of layer
    [i] is the lines of its name, then the [Height] line, then the other
    property lines, and the value on the [Height] line is the sum of the
    thicknesses up to and including layer [i], as numpy forms it
    ([running_sum]: integers are added as 64-bit integers, floats as
    doubles), written with one decimal. Where no sum up to layer [i] is
    rounded ([exact_sums]) the value is the sum itself.
    A name without [$] and line feed takes one line, so that the [Height]
    line is the second of the block. *)
Theorem stratigraphy_heights (opts : dict string PyVal) (ev : Event)
    (thick : PyVal) (qs : list Q) :
  _create_stratigraphy opts = Ok ev ->
  dict_get "layer_thickness" opts = Some thick ->
  mapM as_number (sequence_items thick) = Ok qs ->
  let ints := forallb is_int (sequence_items thick) in
  exists n count blocks,
    dict_get "num_layers" opts = Some (VInt n) /\ length blocks = Z.to_nat n /\
    event_lines ev = add_nl ([""; tab +:+ "Num Layers" +:+ tab +:+ "= " +:+ count] ++
                             concat blocks ++ [tab +:+ "Name" +:+ tab +:+ "= Strat"]) /\
    forall i b, blocks !! i = Some b ->
      exists x name_lines rest,
        running_sum ints qs i x /\
        b = name_lines ++ (tab +:+ "Height" +:+ tab +:+ "= " +:+ fmt_np 1 x) :: rest /\
        (exact_sums ints qs i ->
         exists q, (q == prefix_sum qs i)%Q /\ fmt_np 1 x = fmt_f 1 q) /\
        (forall name, option_at opts "layer_names" i = Ok (VStr name) ->
                      plain_name name = true -> length name_lines = 1%nat).
Proof.
  unfold _create_stratigraphy. intros H Hthick Hqs. cbv zeta. inv_result.
  match goal with H : dict_item _ _ = Ok _ |- _ => apply of_option_ok in H end.
  match goal with
  | H : range ?v = Ok _ |- _ => destruct v as [n| | | | |]; try done; apply Ok_inj in H; subst
  end.
  exists n. eexists _, _. split; [done |]. split; [| split; [reflexivity |]].
  - erewrite mapM_result_length by done. by rewrite length_seq.
  - intros i b Hb.
    match goal with
    | H : mapM _ _ = Ok _ |- _ =>
        destruct (mapM_result_lookup _ _ _ _ _ H Hb) as (y & Hy & Hlines)
    end.
    apply lookup_seq in Hy as [-> _]. simpl in Hlines.
    apply strati_layer_height in Hlines
      as (thick' & cum & x & name_lines & rest & Ht & Hc & Hx & Hline & Hlen).
    rewrite Hthick in Ht. apply (inj Some) in Ht. subst thick'.
    destruct (np_cumsum_lookup thick qs cum i x Hqs Hc Hx) as [Hrun Hi].
    exists x, name_lines, rest. split; [done |]. split; [done |].
    split; [| done]. intros Hex. by eapply exact_height.
Qed.

(** Thicknesses 100, 200 and 150: the heights are 100.0, 300.0 and 450.0. *)
Lemma stratigraphy_heights_witness :
  let ev := match _create_stratigraphy three_layers with
            | Ok ev => ev
            | Err _ => new_event Stratigraphy None
            end in
  let thick := VList [VInt 100; VInt 200; VInt 150] in
  let qs := [inject_Z 100; inject_Z 200; inject_Z 150] in
  (_create_stratigraphy three_layers = Ok ev /\
   dict_get "layer_thickness" three_layers = Some thick /\
   mapM as_number (sequence_items thick) = Ok qs) /\
  (let ints := forallb is_int (sequence_items thick) in
   exists n count blocks,
    dict_get "num_layers" three_layers = Some (VInt n) /\ length blocks = Z.to_nat n /\
    event_lines ev = add_nl ([""; tab +:+ "Num Layers" +:+ tab +:+ "= " +:+ count] ++
                             concat blocks ++ [tab +:+ "Name" +:+ tab +:+ "= Strat"]) /\
    forall i b, blocks !! i = Some b ->
      exists x name_lines rest,
        running_sum ints qs i x /\
        b = name_lines ++ (tab +:+ "Height" +:+ tab +:+ "= " +:+ fmt_np 1 x) :: rest /\
        (exact_sums ints qs i ->
         exists q, (q == prefix_sum qs i)%Q /\ fmt_np 1 x = fmt_f 1 q) /\
        (forall name, option_at three_layers "layer_names" i = Ok (VStr name) ->
                      plain_name name = true -> length name_lines = 1%nat)) /\
  (event_lines ev !! 3%nat = Some (tab +:+ "Height" +:+ tab +:+ "= 100.0" +:+ nl) /\
   event_lines ev !! 22%nat = Some (tab +:+ "Height" +:+ tab +:+ "= 300.0" +:+ nl) /\
   event_lines ev !! 41%nat = Some (tab +:+ "Height" +:+ tab +:+ "= 450.0" +:+ nl)).
Proof.
  cbv zeta.
  assert (H1 : _create_stratigraphy three_layers =
               Ok match _create_stratigraphy three_layers with
                  | Ok ev => ev
                  | Err _ => new_event Stratigraphy None
                  end) by (by vm_compute).
  assert (H2 : dict_get "layer_thickness" three_layers
               = Some (VList [VInt 100; VInt 200; VInt 150])) by reflexivity.
  assert (H3 : mapM as_number (sequence_items (VList [VInt 100; VInt 200; VInt 150]))
               = Ok [inject_Z 100; inject_Z 200; inject_Z 150]) by reflexivity.
  split; [by repeat split |].
  split; [exact (stratigraphy_heights three_layers _ _ _ H1 H2 H3) |].
  clear H1 H2 H3. vm_compute. repeat split.
Defined.

(** Thicknesses 185.5 and 19.15: the second height is the double nearest
    to the sum of the two doubles, which is above 204.65, and is written
    as 204.7. *)
Lemma stratigraphy_heights_rounded :
  exists ev,
    _create_stratigraphy two_layers = Ok ev /\
    event_lines ev !! 3%nat = Some (tab +:+ "Height" +:+ tab +:+ "= 185.5" +:+ nl) /\
    event_lines ev !! 22%nat = Some (tab +:+ "Height" +:+ tab +:+ "= 204.7" +:+ nl).
Proof. eexists. split; [by vm_compute |]. vm_compute. by split. Qed.

End C8.

(** ** Origin and extent *)
Module GeometryFacts.
Import PyStr Py Events History Methods Geometry.
Import StrFacts NumFacts FloatFacts MonadFacts CubeFacts.

#[local] Arguments String.append : simpl nomatch.

Lemma gbind_run {A B} (g : G A) (f : A -> G B) m :
  (g ≫= f) m = match g m with
               | (m', Ok a) => f a m'
               | (m', Err e) => (m', Err e)
               end.
Proof. reflexivity. Qed.

Lemma find_index_spec {A} (p : A -> bool) l i :
  find_index p l = Some i <->
  (exists x, l !! i = Some x /\ p x = true) /\
  (forall j y, (j < i)%nat -> l !! j = Some y -> p y = false).
Proof.
  revert i. induction l as [|a l IH]; intros i; cbn [find_index].
  - split; [done | by intros [[x [? _]] _]].
  - destruct (p a) eqn:Hpa.
    + split.
      * intros [= <-]. split; [by exists a | intros; lia].
      * intros [[x [Hx Hpx]] Hlt]. destruct i as [|i]; [done |].
        specialize (Hlt O a ltac:(lia) eq_refl). congruence.
    + destruct (find_index p l) as [k|]; cbn [fmap option_fmap option_map].
      * split.
        -- intros [= <-]. destruct (proj1 (IH k) eq_refl) as [Hx Hlt]. split; [done |].
           intros [|j] y Hj; cbn; [by intros [= <-] | apply Hlt; lia].
        -- intros [[x [Hx Hpx]] Hlt]. destruct i as [|i]; [cbn in Hx; congruence |].
           f_equal. assert (Hi : Some k = Some i); [| congruence].
           apply IH. split; [by exists x |].
           intros j y Hj Hy. apply (Hlt (S j) y); [lia | done].
      * split; [done |]. intros [[x [Hx Hpx]] Hlt].
        destruct i as [|i]; [cbn in Hx; congruence |].
        assert (Hi : None = Some i); [| congruence].
        apply IH. split; [by exists x |].
        intros j y Hj Hy. apply (Hlt (S j) y); [lia | done].
Qed.

Lemma find_index_lt {A} (p : A -> bool) l i :
  find_index p l = Some i -> (i < length l)%nat.
Proof. intros [[x [Hx _]] _]%find_index_spec. by eapply lookup_lt_Some. Qed.




Lemma triple_line_number label v q :
  as_number v = Ok q ->
  triple_line label v = Ok (number_line label q).
Proof.
  unfold triple_line, percent_f, single_arg.
  destruct v; try done; cbn; by intros [= ->].
Qed.



Lemma set_base_base m : set_base (base m) m = m.
Proof. by destruct m. Qed.

Lemma set_footer_line_run i line m ls :
  footer_lines (base m) = Some ls -> (i < length ls)%nat ->
  set_footer_line i line m =
  (set_base (set_footer_lines (Some (<[i := line]> ls)) (base m)) m, Ok tt).
Proof.
  intros Hls Hi. unfold set_footer_line. rewrite gbind_run.
  unfold on_base at 1, attr. rewrite Hls. cbn [of_option]. rewrite set_base_base.
  rewrite decide_True by done. reflexivity.
Qed.

Lemma set_footer_line_out i line m ls :
  footer_lines (base m) = Some ls -> (length ls <= i)%nat ->
  set_footer_line i line m = (m, Err IndexError).
Proof.
  intros Hls Hi. unfold set_footer_line. rewrite gbind_run.
  unfold on_base at 1, attr. rewrite Hls. cbn [of_option]. rewrite set_base_base.
  rewrite decide_False by lia. reflexivity.
Qed.


Lemma write_triple_none anchor a b c m ls :
  footer_lines (base m) = Some ls ->
  find_index (str_in anchor) ls = None ->
  write_triple anchor a b c m = (m, Ok tt).
Proof.
  intros Hls Hi. unfold write_triple. rewrite gbind_run.
  unfold on_base at 1, attr. rewrite Hls. cbn [of_option]. by rewrite set_base_base, Hi.
Qed.

Lemma on_base_ensure_footer m :
  on_base ensure_footer m =
  (set_base (set_footer_lines (Some (footer_of m)) (base m)) m, Ok (footer_of m)).
Proof. unfold on_base. by rewrite ensure_footer_spec. Qed.


Lemma read_triple_none anchor sx sy sz m :
  find_index (str_in anchor) (footer_of m) = None ->
  read_triple anchor sx sy sz m =
  (set_base (set_footer_lines (Some (footer_of m)) (base m)) m, Ok tt).
Proof.
  intros Hi. unfold read_triple. by rewrite gbind_run, on_base_ensure_footer, Hi.
Qed.



End GeometryFacts.

Module OriginExtent.
Import PyStr Py Events History Methods Geometry.
Import StrFacts NumFacts FloatFacts MonadFacts CubeFacts GeometryFacts.

#[local] Arguments String.append : simpl nomatch.

Lemma footer_of_set ls h m :
  footer_of (set_base (set_footer_lines (Some ls) h) m) = ls.
Proof. reflexivity. Qed.







Lemma write_triple_frame anchor a b c m ls m' r :
  footer_lines (base m) = Some ls ->
  write_triple anchor a b c m = (m', r) ->
  exists ls', m' = set_base (set_footer_lines (Some ls') (base m)) m /\
    length ls' = length ls /\
    forall j, outside_triple anchor ls j -> ls' !! j = ls !! j.
Proof.
  intros Hls. unfold write_triple. rewrite gbind_run.
  unfold on_base at 1, attr. rewrite Hls. cbn [of_option]. rewrite set_base_base.
  assert (Hsame : set_base (set_footer_lines (Some ls) (base m)) m = m).
  { rewrite set_footer_lines_same by done. apply set_base_base. }
  destruct (find_index (str_in anchor) ls) as [i|] eqn:Hi.
  2:{ intros [= <- <-]. exists ls. by rewrite Hsame. }
  rewrite gbind_run.
  destruct (decide (i < length ls)%nat) as [H0|H0].
  2:{ rewrite (set_footer_line_out i a m ls) by (done || lia).
      intros [= <- <-]. exists ls. by rewrite Hsame. }
  rewrite (set_footer_line_run i a m ls) by done. rewrite gbind_run.
  destruct (decide (i + 1 < length ls)%nat) as [H1|H1].
  2:{ rewrite (set_footer_line_out (i + 1) b _ (<[i := a]> ls))
        by (done || rewrite length_insert; lia).
      intros [= <- <-]. exists (<[i := a]> ls). split; [done |].
      split; [by rewrite length_insert |].
      intros j Hj. destruct (Hj i Hi); by rewrite list_lookup_insert_ne by lia. }
  rewrite (set_footer_line_run (i + 1) b _ (<[i := a]> ls))
    by (done || rewrite length_insert; lia).
  cbn [base set_base]. rewrite set_footer_lines_twice.
  destruct (decide (i + 2 < length ls)%nat) as [H2|H2].
  2:{ rewrite (set_footer_line_out (i + 2) c _ (<[(i + 1)%nat := b]> (<[i := a]> ls)))
        by (done || rewrite !length_insert; lia).
      intros [= <- <-]. exists (<[(i + 1)%nat := b]> (<[i := a]> ls)). split; [done |].
      split; [by rewrite !length_insert |].
      intros j Hj. destruct (Hj i Hi); by rewrite !list_lookup_insert_ne by lia. }
  rewrite (set_footer_line_run (i + 2) c _ (<[(i + 1)%nat := b]> (<[i := a]> ls)))
    by (done || rewrite !length_insert; lia).
  cbn [base set_base]. rewrite set_footer_lines_twice.
  intros [= <- <-]. eexists. split; [done |].
  split; [by rewrite !length_insert |].
  intros j Hj. destruct (Hj i Hi); by rewrite !list_lookup_insert_ne by lia.
Qed.

Lemma footer_frame_start anchor m f :
  base (f m) = base m ->
  footer_frame anchor m (set_base (set_footer_lines (Some (footer_of m)) (base m)) (f m)).
Proof. by intros _. Qed.

Ltac frame_done :=
  split;
  [split; [reflexivity | split; [reflexivity | intros; reflexivity]]
  | repeat split; reflexivity].

Lemma set_origin_frame m vx vy vz m' r :
  set_origin vx vy vz m = (m', r) ->
  footer_frame "Origin X" m m' /\
  extent_x m' = extent_x m /\
  extent_y m' = extent_y m /\
  extent_z m' = extent_z m /\
  date_saved m' = date_saved m.
Proof.
  unfold set_origin.
  rewrite gbind_run, on_base_ensure_footer.
  rewrite gbind_run. unfold gmodify at 1.
  rewrite gbind_run. unfold gmodify at 1.
  rewrite gbind_run. unfold gmodify at 1.
  rewrite gbind_run. unfold glift at 1.
  destruct (triple_line "Origin X" vx) as [lx|]; [| intros [= <- <-]; frame_done].
  rewrite gbind_run. unfold glift at 1.
  destruct (triple_line "Origin Y" vy) as [ly|]; [| intros [= <- <-]; frame_done].
  rewrite gbind_run. unfold glift at 1.
  destruct (triple_line "Origin Z" vz) as [lz|]; [| intros [= <- <-]; frame_done].
  intros Hw.
  apply (write_triple_frame _ _ _ _ _ (footer_of m)) in Hw as (ls' & -> & Hlen & Hout);
    [| reflexivity].
  split; [| repeat split; reflexivity].
  split; [| split]; [reflexivity | exact Hlen | exact Hout].
Qed.

Lemma set_extent_frame m vx vy vz m' r :
  set_extent vx vy vz m = (m', r) ->
  footer_frame "Length X" m m' /\
  origin_x m' = origin_x m /\
  origin_y m' = origin_y m /\
  origin_z m' = origin_z m /\
  date_saved m' = date_saved m.
Proof.
  unfold set_extent.
  rewrite gbind_run, on_base_ensure_footer.
  rewrite gbind_run. unfold gmodify at 1.
  rewrite gbind_run. unfold gmodify at 1.
  rewrite gbind_run. unfold gmodify at 1.
  rewrite gbind_run. unfold glift at 1.
  destruct (triple_line "Length X" vx) as [lx|]; [| intros [= <- <-]; frame_done].
  rewrite gbind_run. unfold glift at 1.
  destruct (triple_line "Length Y" vy) as [ly|]; [| intros [= <- <-]; frame_done].
  rewrite gbind_run. unfold glift at 1.
  destruct (triple_line "Length Z" vz) as [lz|]; [| intros [= <- <-]; frame_done].
  intros Hw.
  apply (write_triple_frame _ _ _ _ _ (footer_of m)) in Hw as (ls' & -> & Hlen & Hout);
    [| reflexivity].
  split; [| repeat split; reflexivity].
  split; [| split]; [reflexivity | exact Hlen | exact Hout].
Qed.

(** X3. Whatever their arguments and their outcome, [set_origin] and
    [set_extent] touch, beside their own three attributes, nothing but the
    footer; the footer keeps its length, and all its lines but the three
    from the first [Origin X] (or [Length X]) line on. *)
Theorem setters_keep_the_rest (m : Model) (vx vy vz : PyVal) :
  (footer_frame "Origin X" m (set_origin vx vy vz m).1 /\
   extent_x (set_origin vx vy vz m).1 = extent_x m /\
   extent_y (set_origin vx vy vz m).1 = extent_y m /\
   extent_z (set_origin vx vy vz m).1 = extent_z m /\
   date_saved (set_origin vx vy vz m).1 = date_saved m) /\
  (footer_frame "Length X" m (set_extent vx vy vz m).1 /\
   origin_x (set_extent vx vy vz m).1 = origin_x m /\
   origin_y (set_extent vx vy vz m).1 = origin_y m /\
   origin_z (set_extent vx vy vz m).1 = origin_z m /\
   date_saved (set_extent vx vy vz m).1 = date_saved m).
Proof.
  split.
  - destruct (set_origin vx vy vz m) as [m' r] eqn:Hrun. by eapply set_origin_frame.
  - destruct (set_extent vx vy vz m) as [m' r] eqn:Hrun. by eapply set_extent_frame.
Qed.

Lemma write_triple_short anchor a b c m ls i :
  footer_lines (base m) = Some ls ->
  find_index (str_in anchor) ls = Some i -> (length ls <= i + 2)%nat ->
  exists ls', write_triple anchor a b c m =
                (set_base (set_footer_lines (Some ls') (base m)) m, Err IndexError) /\
              ls' !! i = Some a.
Proof.
  intros Hls Hi Hlen. pose proof (find_index_lt _ _ _ Hi) as H0.
  unfold write_triple. rewrite gbind_run.
  unfold on_base at 1, attr. rewrite Hls. cbn [of_option]. rewrite set_base_base, Hi.
  rewrite gbind_run, (set_footer_line_run i a m ls) by done. rewrite gbind_run.
  destruct (decide (i + 1 < length ls)%nat) as [H1|H1].
  - rewrite (set_footer_line_run (i + 1) b _ (<[i := a]> ls))
      by (done || rewrite length_insert; lia).
    cbn [base set_base]. rewrite set_footer_lines_twice.
    rewrite (set_footer_line_out (i + 2) c _ (<[(i + 1)%nat := b]> (<[i := a]> ls)))
      by (done || rewrite !length_insert; lia).
    eexists. split; [reflexivity |].
    rewrite list_lookup_insert_ne by lia. apply list_lookup_insert_eq. lia.
  - rewrite (set_footer_line_out (i + 1) b _ (<[i := a]> ls))
      by (done || rewrite length_insert; lia).
    eexists. split; [reflexivity |]. apply list_lookup_insert_eq. lia.
Qed.

(** X4. [set_extent] on a footer that ends less than two lines after its
    first [Length X] line: the call raises [IndexError] after it has
    assigned the three attributes and rewritten the [Length X] line. *)
Theorem set_extent_short_footer (m : Model) (vx vy vz : PyVal) (x y z : Q) (i : nat) :
  as_number vx = Ok x -> as_number vy = Ok y -> as_number vz = Ok z ->
  find_index (str_in "Length X") (footer_of m) = Some i ->
  (length (footer_of m) <= i + 2)%nat ->
  exists m',
    set_extent vx vy vz m = (m', Err IndexError) /\
    footer_of m' !! i = Some (number_line "Length X" x) /\
    extent_x m' = Some vx /\ extent_y m' = Some vy /\ extent_z m' = Some vz.
Proof.
  intros Hx Hy Hz Hi Hlen. unfold set_extent.
  rewrite gbind_run, on_base_ensure_footer.
  rewrite gbind_run. unfold gmodify at 1.
  rewrite gbind_run. unfold gmodify at 1.
  rewrite gbind_run. unfold gmodify at 1.
  rewrite gbind_run. unfold glift at 1. rewrite (triple_line_number _ _ _ Hx).
  rewrite gbind_run. unfold glift at 1. rewrite (triple_line_number _ _ _ Hy).
  rewrite gbind_run. unfold glift at 1. rewrite (triple_line_number _ _ _ Hz).
  match goal with
  | |- context [write_triple ?an ?a ?b ?c ?m0] =>
      destruct (write_triple_short an a b c m0 (footer_of m) i) as (ls' & -> & Hls');
      [reflexivity | exact Hi | exact Hlen |]
  end.
  eexists. split; [reflexivity |]. split; [exact Hls' | done].
Qed.

Lemma set_extent_short_footer_witness :
  let m := model_of (set_footer_lines (Some short_footer) blank) in
  (as_number (VInt 9000) = Ok (inject_Z 9000) /\
   as_number (VInt 9400) = Ok (inject_Z 9400) /\
   as_number (VInt 4000) = Ok (inject_Z 4000) /\
   find_index (str_in "Length X") (footer_of m) = Some 1%nat /\
   (length (footer_of m) <= 1 + 2)%nat) /\
  exists m',
    set_extent (VInt 9000) (VInt 9400) (VInt 4000) m = (m', Err IndexError) /\
    footer_of m' !! 1%nat = Some (number_line "Length X" (inject_Z 9000)) /\
    extent_x m' = Some (VInt 9000) /\ extent_y m' = Some (VInt 9400) /\
    extent_z m' = Some (VInt 4000).
Proof.
  cbv zeta. split; [repeat split; vm_compute; (reflexivity || lia) |].
  apply (set_extent_short_footer _ (VInt 9000) (VInt 9400) (VInt 4000)
           (inject_Z 9000) (inject_Z 9400) (inject_Z 4000) 1%nat);
    vm_compute; (reflexivity || lia).
Defined.

(** X5. [set_origin] on a footer without an [Origin X] line changes no
    line and does not fail; [get_origin] then returns the arguments as
    they were given, not rounded.  Without the line and without the
    attribute, [get_origin] raises [AttributeError]. *)
Theorem set_origin_without_line (m : Model) (vx vy vz : PyVal) (x y z : Q) :
  as_number vx = Ok x -> as_number vy = Ok y -> as_number vz = Ok z ->
  find_index (str_in "Origin X") (footer_of m) = None ->
  (exists m',
     (set_origin vx vy vz;; get_origin) m = (m', Ok (vx, vy, vz)) /\
     footer_of m' = footer_of m) /\
  (origin_x m = None -> (get_origin m).2 = Err AttributeError).
Proof.
  intros Hx Hy Hz Hi. split.
  - rewrite gbind_run. unfold set_origin.
    rewrite gbind_run, on_base_ensure_footer.
    rewrite gbind_run. unfold gmodify at 1.
    rewrite gbind_run. unfold gmodify at 1.
    rewrite gbind_run. unfold gmodify at 1.
    rewrite gbind_run. unfold glift at 1. rewrite (triple_line_number _ _ _ Hx).
    rewrite gbind_run. unfold glift at 1. rewrite (triple_line_number _ _ _ Hy).
    rewrite gbind_run. unfold glift at 1. rewrite (triple_line_number _ _ _ Hz).
    erewrite write_triple_none; [| reflexivity | exact Hi].
    unfold get_origin. rewrite gbind_run, read_triple_none by exact Hi.
    eexists. split; reflexivity.
  - intros Hnone. unfold get_origin.
    rewrite gbind_run, read_triple_none by exact Hi.
    rewrite gbind_run. unfold gattr at 1. cbn [origin_x set_base]. by rewrite Hnone.
Qed.

Lemma set_origin_without_line_witness :
  let m := model_of (Samples.instance Samples.two_events) in
  (as_number (VInt 100) = Ok (inject_Z 100) /\
   as_number (VFloat (1 # 8)) = Ok (1 # 8)%Q /\
   as_number (VInt 4000) = Ok (inject_Z 4000) /\
   find_index (str_in "Origin X") (footer_of m) = None) /\
  (exists m',
     (set_origin (VInt 100) (VFloat (1 # 8)) (VInt 4000);; get_origin) m
       = (m', Ok (VInt 100, VFloat (1 # 8), VInt 4000)) /\
     footer_of m' = footer_of m) /\
  (origin_x m = None -> (get_origin m).2 = Err AttributeError).
Proof.
  cbv zeta. split; [by vm_compute |].
  apply (set_origin_without_line _ (VInt 100) (VFloat (1 # 8)) (VInt 4000)
           (inject_Z 100) (1 # 8)%Q (inject_Z 4000)); by vm_compute.
Defined.

End OriginExtent.

(** ** The footer and the cube size *)
Module FooterFacts.
Import PyStr Py Events History Methods.
Import StrFacts NumFacts FloatFacts MonadFacts CubeFacts GeometryFacts.

#[local] Arguments String.append : simpl nomatch.

Lemma label_of_cube_line v line : label_of (cube_line v line) = label_of line.
Proof.
  unfold cube_line. fold (label_of line).
  unfold label_of at 1.
  destruct (split_head "="%char line) as (l & t & r & Hs & _ & Hl & _).
  assert (Hlab : label_of line = l) by (unfold label_of; by rewrite Hs).
  rewrite Hlab. rewrite (app_cons "="%char ""), app_nil_l.
  by rewrite split_app.
Qed.

Lemma cube_line_twice v w line : cube_line w (cube_line v line) = cube_line w line.
Proof.
  unfold cube_line at 1. fold (label_of (cube_line v line)).
  by rewrite label_of_cube_line.
Qed.

Lemma change_cube_line_cases v line :
  change_cube_line v line = cube_line v line \/
  (change_cube_line v line = line /\ str_in "Geology Cube Size" line = false /\
   str_in "Geophysics Cube Size" line = false).
Proof.
  unfold change_cube_line.
  destruct (str_in "Geology Cube Size" line); [by left |].
  destruct (str_in "Geophysics Cube Size" line); [by left | by right].
Qed.

Lemma change_cube_line_twice v line :
  change_cube_line v (change_cube_line v line) = change_cube_line v line.
Proof.
  destruct (change_cube_line_cases v line) as [-> | (-> & Hg & Hp)].
  - destruct (change_cube_line_cases v (cube_line v line)) as [-> | (-> & _)]; [| done].
    apply cube_line_twice.
  - unfold change_cube_line. by rewrite Hg, Hp.
Qed.

(** X6. [change_cube_size] is idempotent: a second call with the same
    size leaves the instance as the first call left it, whatever the
    footer holds. *)
Theorem change_cube_size_twice (v : Q) (h : NoddyHistory) :
  (change_cube_size v;; change_cube_size v) h = change_cube_size v h.
Proof.
  rewrite bind_run, !change_cube_size_spec.
  cbn [current_footer footer_lines set_footer_lines default].
  unfold id. rewrite set_footer_lines_twice, <- list_fmap_compose.
  do 3 f_equal. apply list_fmap_ext. intros i line _. apply change_cube_line_twice.
Qed.

Lemma find_index_none {A} (p : A -> bool) l :
  find_index p l = None -> Forall (fun x => p x = false) l.
Proof.
  induction l as [|x l IH]; cbn [find_index]; [by constructor |].
  destruct (p x) eqn:Hx; [done |].
  destruct (find_index p l); [done |]. intros _. constructor; auto.
Qed.

Lemma find_index_take {A} (p : A -> bool) l i :
  find_index p l = Some i -> Forall (fun x => p x = false) (take i l).
Proof.
  intros [_ Hlt]%find_index_spec. apply Forall_lookup_2. intros j x Hj.
  apply lookup_take_Some in Hj as [Hj Hlt']. by eapply Hlt.
Qed.

(** X7. [load_history] keeps as footer a suffix of the document that is
    not empty: the lines from the first that holds [#BlockOptions] on or,
    where no line holds it, the last line alone.  A document without lines
    makes it raise [UnboundLocalError]. *)
Theorem footer_is_suffix (line : string) (rest : list string) (h : NoddyHistory) :
  let lines := line :: rest in
  (exists h' pre l ft,
    load_history lines h = (h', Ok tt) /\ history_lines h' = lines /\
    footer_lines h' = Some (l :: ft) /\ lines = pre ++ l :: ft /\
    Forall (fun x => str_in "#BlockOptions" x = false) pre /\
    (str_in "#BlockOptions" l = true \/ ft = [])) /\
  (load_history [] h).2 = Err UnboundLocalError.
Proof.
  cbv zeta. split; [| reflexivity].
  assert (Hrun : load_history (line :: rest) h =
    (set_footer_lines
       (Some (drop (default (length (line :: rest) - 1)%nat
                      (find_index (str_in "#BlockOptions") (line :: rest))) (line :: rest)))
       (set_history_lines (line :: rest) h), Ok tt)) by reflexivity.
  rewrite Hrun. clear Hrun.
  remember (line :: rest) as lines eqn:Hlines.
  destruct (find_index (str_in "#BlockOptions") lines) as [i|] eqn:Hi; cbn [default]; unfold id.
  - pose proof Hi as [[x [Hx Hpx]] _]%find_index_spec.
    exists (set_footer_lines (Some (drop i lines)) (set_history_lines lines h)),
           (take i lines), x, (drop (S i) lines).
    rewrite (drop_S lines x i Hx).
    split; [reflexivity |]. split; [reflexivity |]. split; [reflexivity |].
    split; [| split; [by apply find_index_take | by left]].
    rewrite <- (drop_S lines x i Hx). symmetry. apply take_drop.
  - destruct (last lines) as [x|] eqn:Hlast.
    2:{ apply last_None in Hlast. congruence. }
    apply last_Some in Hlast as [pre Hpre].
    assert (Hlen : (length lines - 1)%nat = length pre).
    { rewrite Hpre, length_app. simpl. lia. }
    exists (set_footer_lines (Some (drop (length lines - 1) lines))
              (set_history_lines lines h)), pre, x, [].
    assert (Hdrop : drop (length pre) lines = [x])
      by (rewrite Hpre; apply drop_app_length).
    rewrite Hlen, Hdrop.
    split; [reflexivity |]. split; [reflexivity |]. split; [reflexivity |].
    split; [exact Hpre |]. split; [| by right].
    apply find_index_none in Hi. rewrite Hpre in Hi.
    by apply Forall_app in Hi as [? _].
Qed.

End FooterFacts.

(** ** Event headers and event spans *)
Module SpanFacts.
Import PyStr Py Events History Methods RoundTrip.
Import StrFacts NumFacts FloatFacts MonadFacts ScanFacts.

#[local] Arguments String.append : simpl nomatch.

(** *** Slices *)

Lemma clamp_nonneg len i : 0 <= i -> clamp len i = Z.min i len.
Proof. intros Hi. unfold clamp. destruct (i <? 0) eqn:H; [lia | done]. Qed.

Lemma slice_app {A} (a b c : Z) (l : list A) :
  0 <= a <= b -> b <= c -> slice a b l ++ slice b c l = slice a c l.
Proof.
  intros Hab Hbc. unfold slice. rewrite !clamp_nonneg by lia.
  set (len := Z.of_nat (length l)).
  set (a' := Z.to_nat (Z.min a len)). set (b' := Z.to_nat (Z.min b len)).
  set (c' := Z.to_nat (Z.min c len)).
  replace (Z.to_nat (Z.min b len - Z.min a len)) with (b' - a')%nat by lia.
  replace (Z.to_nat (Z.min c len - Z.min b len)) with (c' - b')%nat by lia.
  replace (Z.to_nat (Z.min c len - Z.min a len)) with ((b' - a') + (c' - b'))%nat by lia.
  replace (drop b' l) with (drop (b' - a') (drop a' l)).
  2:{ rewrite drop_drop. f_equal. lia. }
  apply take_take_drop.
Qed.

(** *** The starts of the events *)

Lemma event_starts_bounds lines : forall i s,
  s ∈ event_starts i lines -> i <= s < i + Z.of_nat (length lines).
Proof.
  induction lines as [|line rest IH]; intros i s; cbn [event_starts length].
  - by intros ?%elem_of_nil.
  - intros [Hs|Hs]%elem_of_app.
    + destruct (decide (line_kind line = EventLine)); [| by apply elem_of_nil in Hs].
      apply list_elem_of_singleton in Hs. lia.
    + apply IH in Hs. lia.
Qed.

Lemma event_starts_sorted lines : forall i, StronglySorted Z.lt (event_starts i lines).
Proof.
  induction lines as [|line rest IH]; intros i; cbn [event_starts]; [constructor |].
  destruct (decide (line_kind line = EventLine)); cbn [app]; [| apply IH].
  constructor; [apply IH |].
  apply Forall_forall. intros s Hs%event_starts_bounds. lia.
Qed.

(** *** Spans *)

Lemma set_line_ends_cons e new : exists x xs, set_line_ends (e :: new) = x :: xs.
Proof. destruct new; by eexists _, _. Qed.

Lemma raw_spans new stop :
  (fun e => (line_start e, line_end e)) <$> set_last_line_end stop (set_line_ends new) =
  (fun p => (p.1, Some p.2)) <$> spans (line_start <$> new) stop.
Proof.
  induction new as [|e new IH]; [done |]. destruct new as [|e' new]; [done |].
  change (set_line_ends (e :: e' :: new))
    with (set_line_end (line_start e' - 1) e :: set_line_ends (e' :: new)).
  destruct (set_line_ends_cons e' new) as (x & xs & Hx).
  rewrite Hx in IH |- *.
  change (set_last_line_end stop (?a :: x :: xs))
    with (a :: set_last_line_end stop (x :: xs)).
  rewrite fmap_cons, IH. reflexivity.
Qed.

Lemma spans_tile (lines : list string) stop : forall starts first final,
  StronglySorted Z.lt starts -> head starts = Some first -> last starts = Some final ->
  0 <= first -> final <= stop + 1 ->
  concat ((fun p => slice p.1 (p.2 + 1) lines) <$> spans starts stop) =
  slice first (stop + 1) lines.
Proof.
  induction starts as [|s [|s' starts] IH]; intros first final Hsorted Hhead Hlast H0 Hstop.
  - done.
  - cbn in Hhead |- *. injection Hhead as <-. by rewrite app_nil_r.
  - change (spans (s :: s' :: starts) stop) with ((s, s' - 1) :: spans (s' :: starts) stop).
    rewrite fmap_cons. cbn [concat fst snd]. cbn in Hhead. injection Hhead as <-.
    apply StronglySorted_inv in Hsorted as [Hrest Hlt].
    apply Forall_cons in Hlt as [Hlt _].
    rewrite last_cons_cons in Hlast.
    rewrite (IH s' final); [| done | done | done | lia | done].
    replace (s' - 1 + 1) with s' by lia. apply slice_app; [lia |].
    assert (Hle : s' <= final); [| lia].
    apply StronglySorted_inv in Hrest as [_ Hall].
    rewrite last_cons in Hlast. destruct (last starts) as [y|] eqn:Hy.
    + injection Hlast as <-. apply last_Some_elem_of in Hy.
      rewrite Forall_forall in Hall. specialize (Hall _ Hy). lia.
    + injection Hlast as <-. lia.
Qed.

Lemma span_lines_fmap lines (raw : list RawEvent) (sp : list (Z * Z)) :
  (fun e => (line_start e, line_end e)) <$> raw = (fun p => (p.1, Some p.2)) <$> sp ->
  span_lines lines <$> raw = (fun p => slice p.1 (p.2 + 1) lines) <$> sp.
Proof.
  revert sp. induction raw as [|e raw IH]; intros [|p sp] H; try done.
  rewrite !fmap_cons in H. injection H as Hs He H. rewrite !fmap_cons.
  rewrite (IH sp H). f_equal. unfold span_lines. by rewrite He, Hs.
Qed.

(** The instance after [load_history]. *)
Lemma load_history_ok lines h h' :
  load_history lines h = (h', Ok tt) -> history_lines h' = lines /\ lines <> [] /\
  h' = set_footer_lines (Some (footer_text lines)) (set_history_lines lines h).
Proof.
  unfold load_history. rewrite bind_run. unfold modify at 1.
  unfold get_footer_lines. rewrite bind_run. unfold gets at 1.
  cbn [history_lines set_history_lines].
  destruct lines as [|line rest]; [done |].
  intros [= <-]. done.
Qed.

Lemma init_ok lines h :
  NoddyHistory_init (Some lines) = Ok h ->
  lines <> [] /\
  determine_events (set_footer_lines (Some (footer_text lines))
                      (set_history_lines lines blank)) = (h, Ok tt).
Proof.
  unfold NoddyHistory_init.
  destruct ((load_history lines;; determine_events) blank) as [h1 [[]|e]] eqn:Hrun; [| done].
  intros [= <-]. apply bind_ok in Hrun as (h0 & [] & Hload & Hdet).
  apply load_history_ok in Hload as (_ & Hne & ->). done.
Qed.

End SpanFacts.

Module EventSpans.
Import PyStr Py Events History Methods RoundTrip.
Import StrFacts NumFacts FloatFacts MonadFacts ScanFacts SpanFacts.

#[local] Arguments String.append : simpl nomatch.

(** X8. After a document has been loaded, the raw events start at its
    event header lines, in the order of the document, and where the last
    line with [BlockOptions] comes after the last event header their spans
    follow one another without gap or overlap: together they are the lines
    from the first event header to two lines before that last line.  The
    line just before the footer marker belongs to no event. *)
Theorem event_spans_tile (lines : list string) (h : NoddyHistory) :
  NoddyHistory_init (Some lines) = Ok h ->
  marker_after_events lines = true ->
  line_start <$> raw_events h = event_starts 0 lines /\
  concat (span_lines lines <$> raw_events h) = events_text lines.
Proof.
  intros (Hne & Hdet)%init_ok Hmarker.
  apply determine_events_raw in Hdet as (new & bo & Hstarts & Hnew & Hbo & Hraw & _).
  cbn [history_lines set_footer_lines set_history_lines] in Hstarts, Hbo.
  assert (Hs : line_start <$> raw_events h = event_starts 0 lines).
  { by rewrite Hraw, set_last_line_end_starts, set_line_ends_starts. }
  split; [exact Hs |].
  unfold events_text, marker_after_events in *. rewrite Hbo in *.
  destruct (last (event_starts 0 lines)) as [final|] eqn:Hlast; [| done].
  destruct (head (event_starts 0 lines)) as [first|] eqn:Hhead.
  2:{ apply head_None in Hhead. by rewrite Hhead in Hlast. }
  apply Z.ltb_lt in Hmarker.
  rewrite (span_lines_fmap lines _ (spans (line_start <$> new) (bo - 2))).
  2:{ rewrite Hraw. apply raw_spans. }
  rewrite Hstarts.
  rewrite (spans_tile lines (bo - 2) (event_starts 0 lines) first final).
  - f_equal. lia.
  - apply event_starts_sorted.
  - done.
  - done.
  - apply head_Some_elem_of in Hhead. apply event_starts_bounds in Hhead. lia.
  - lia.
Qed.

Lemma event_spans_tile_witness :
  let lines := Samples.two_events in
  let h := Samples.instance lines in
  (NoddyHistory_init (Some lines) = Ok h /\ marker_after_events lines = true) /\
  line_start <$> raw_events h = event_starts 0 lines /\
  concat (span_lines lines <$> raw_events h) = events_text lines.
Proof.
  cbv zeta. split; [by vm_compute |].
  apply event_spans_tile; by vm_compute.
Defined.

(** X9. A document without an event header line cannot be loaded,
    whatever else it holds: the constructor raises.  The file that
    [write_history] writes for a new history without events is such a
    document. *)
Theorem no_event_no_load (lines : list string) :
  event_starts 0 lines = [] -> is_ok (NoddyHistory_init (Some lines)) = false.
Proof.
  intros Hnone. destruct (NoddyHistory_init (Some lines)) as [h|e] eqn:Hinit; [| done].
  apply init_ok in Hinit as (_ & Hdet).
  apply determine_events_raw in Hdet as (new & bo & Hstarts & Hnew & _).
  cbn [history_lines set_footer_lines set_history_lines] in Hstarts.
  rewrite Hnone in Hstarts. apply fmap_nil_inv in Hstarts. done.
Qed.

Lemma no_event_no_load_witness :
  let new := match NoddyHistory_init None with
             | Ok h => h
             | Err _ => blank
             end in
  let lines := output sample_fmt sample_name sample_time new in
  (NoddyHistory_init None = Ok new /\
   (write_history sample_fmt sample_name sample_time new).2 = Ok lines /\
   event_starts 0 lines = []) /\
  is_ok (NoddyHistory_init (Some lines)) = false.
Proof.
  cbv zeta. split; [by vm_compute |].
  apply no_event_no_load. by vm_compute.
Defined.

End EventSpans.

(** ** The number of an event header *)
Module NumberFacts.
Import PyStr Py Events History Methods RoundTrip.
Import StrFacts NumFacts FloatFacts MonadFacts ScanFacts SpanFacts.

#[local] Arguments String.append : simpl nomatch.

Lemma fixed_digits_split a b n :
  fixed_digits (a + b) n = fixed_digits a (n / 10 ^ N.of_nat b) +:+ fixed_digits b n.
Proof.
  revert n. induction b as [|b IH]; intros n.
  - rewrite Nat.add_0_r. cbn [fixed_digits]. by rewrite N.div_1_r, app_empty_r.
  - rewrite Nat.add_succ_r. cbn [fixed_digits]. rewrite IH, app_assoc_s.
    do 2 f_equal. rewrite N.Div0.div_div. f_equal.
    rewrite Nat2N.inj_succ, N.pow_succ_r'. lia.
Qed.

Lemma count_digits_small f n : (n < 10)%N -> count_digits f n = 1%nat.
Proof.
  intros Hn. destruct f; [done |]. cbn [count_digits].
  by replace (n <? 10)%N with true by (symmetry; apply N.ltb_lt; lia).
Qed.

Lemma ndigits_one n : (n < 10)%N -> ndigits n = 1%nat.
Proof. apply count_digits_small. Qed.

Lemma ndigits_two n : (10 <= n < 100)%N -> ndigits n = 2%nat.
Proof.
  intros Hn. unfold ndigits. cbn [count_digits].
  replace (n <? 10)%N with false by (symmetry; apply N.ltb_ge; lia).
  rewrite count_digits_small; [done |].
  apply N.Div0.div_lt_upper_bound. lia.
Qed.

Lemma ndigits_more n : (10 <= n)%N -> (2 <= ndigits n)%nat.
Proof.
  intros Hn. unfold ndigits. cbn [count_digits].
  replace (n <? 10)%N with false by (symmetry; apply N.ltb_ge; lia).
  destruct (N.to_nat (N.log2 n)); cbn [count_digits]; [lia |].
  destruct (n / 10 <? 10)%N; lia.
Qed.

Lemma rskip_digits s : all_chars is_digit s = true -> rskip s = s.
Proof.
  induction s as [|c s IH]; [done |]. cbn [all_chars].
  intros [Hc Hs]%andb_true_iff. cbn [rskip]. rewrite (IH Hs).
  destruct s; [| done]. by rewrite (not_space_not_blank c (digit_not_space c Hc)).
Qed.

Lemma trim_digits s : all_chars is_digit s = true -> trim s = s.
Proof.
  intros Hs. unfold trim. destruct s as [|c s]; [done |].
  cbn [all_chars] in Hs. pose proof Hs as [Hc _]%andb_true_iff.
  rewrite lskip_keep by (by apply digit_not_space).
  apply rskip_digits. done.
Qed.

Lemma py_int_digits s :
  all_chars is_digit s = true -> s <> "" ->
  py_int s = Some (Z.of_N (val_digits 0%N s)).
Proof.
  intros Hs Hne. unfold py_int. rewrite trim_digits by done.
  destruct s as [|c s]; [done |].
  cbn [all_chars] in Hs. pose proof Hs as [Hc _]%andb_true_iff.
  rewrite split_sign_digit by done.
  by rewrite digits_value_digits.
Qed.

(** [int] of a digit string followed by a tab. *)
Lemma py_int_digit_tab c :
  is_digit c = true ->
  py_int (String c tab) = Some (Z.of_N (digit_val c)).
Proof.
  intros Hc. unfold py_int.
  assert (Hstrip : trim (String c tab) = String c "").
  { unfold trim. rewrite lskip_keep by (by apply digit_not_space).
    cbn. by rewrite (not_space_not_blank c (digit_not_space c Hc)). }
  rewrite Hstrip, split_sign_digit by done.
  rewrite digits_value_digits; [done | | done]. cbn [all_chars]. by rewrite Hc.
Qed.

Lemma slice_7_9 c1 c2 r :
  str_slice 7 9 ("Event #" +:+ String c1 (String c2 r)) = String c1 (String c2 "").
Proof.
  unfold str_slice. rewrite !app_cons, app_nil_l. cbn [String.substring Nat.sub].
  by destruct r.
Qed.

(** The two characters that [line[7:9]] takes from an event header. *)
Lemma header_digits (n : N) (rest : string) :
  py_int (str_slice 7 9 ("Event #" +:+ str_of_N n +:+ String (ascii_of_nat 9) rest)) =
  Some (leading_two (Z.of_N n)).
Proof.
  unfold leading_two. rewrite N2Z.id.
  destruct (decide (n < 10)%N) as [H1|H1].
  - replace (Z.of_N n <? 100) with true by (symmetry; apply Z.ltb_lt; lia).
    unfold str_of_N. rewrite (ndigits_one n H1). cbn [fixed_digits]. rewrite app_nil_l.
    rewrite (app_cons (digit_char (n mod 10)) ""), app_nil_l, slice_7_9. fold tab. destruct (digit_char_spec (n mod 10)) as [Hd Hv].
    { apply N.mod_lt. lia. }
    rewrite py_int_digit_tab, Hv by done. rewrite N.mod_small by done. done.
  - assert (Hk : (2 <= ndigits n)%nat) by (apply ndigits_more; lia).
    unfold str_of_N.
    replace (ndigits n) with (2 + (ndigits n - 2))%nat at 1 by lia.
    rewrite fixed_digits_split.
    set (m := (n / 10 ^ N.of_nat (ndigits n - 2))%N).
    assert (Hm : (m < 100)%N).
    { apply N.Div0.div_lt_upper_bound.
      pose proof (ndigits_bound n) as Hb.
      replace (N.of_nat (ndigits n)) with (N.of_nat (ndigits n - 2) + 2)%N in Hb by lia.
      rewrite N.pow_add_r in Hb. lia. }
    change (fixed_digits 2 m) with
      (String (digit_char (m / 10 mod 10)) (String (digit_char (m mod 10)) "")).
    rewrite (app_cons (digit_char (m / 10 mod 10))), (app_cons (digit_char (m mod 10))).
    rewrite app_nil_l, (app_cons (digit_char (m / 10 mod 10))).
    rewrite (app_cons (digit_char (m mod 10))), slice_7_9.
    change (String (digit_char (m / 10 mod 10)) (String (digit_char (m mod 10)) ""))
      with (fixed_digits 2 m).
    rewrite py_int_digits; [| apply fixed_digits_chars | done].
    rewrite val_fixed_digits. f_equal.
    rewrite N.mul_0_l, N.add_0_l, N.mod_small by (cbn; lia).
    destruct (Z.of_N n <? 100) eqn:Hlt.
    + apply Z.ltb_lt in Hlt. unfold m. rewrite ndigits_two by lia.
      cbn. rewrite N.div_1_r. done.
    + unfold m. rewrite N2Z.inj_div, N2Z.inj_pow. do 2 f_equal. lia.
Qed.

End NumberFacts.

Module EventNumbers.
Import PyStr Py Events History Methods RoundTrip.
Import StrFacts NumFacts FloatFacts MonadFacts ScanFacts SpanFacts NumberFacts.

#[local] Arguments String.append : simpl nomatch.

Lemma fault_line_shape i :
  0 <= i ->
  fault_title i +:+ nl =
  "Event #" +:+ str_of_N (Z.to_N (i + 2)) +:+ String (ascii_of_nat 9) ("= FAULT" +:+ nl).
Proof.
  intros Hi. unfold fault_title, fmt_d.
  replace (i + 2 <? 0) with false by (symmetry; apply Z.ltb_ge; lia).
  rewrite app_nil_l, !app_assoc_s.
  replace (Z.abs_N (i + 2)) with (Z.to_N (i + 2)) by lia. reflexivity.
Qed.

Lemma digit_not c d : is_digit c = true -> is_digit d = false -> negb (Ascii.eqb c d) = true.
Proof.
  intros Hc Hd. destruct (Ascii.eqb c d) eqn:Heq; [| done].
  apply Ascii.eqb_eq in Heq. congruence.
Qed.

Lemma fault_line_kind i : 0 <= i -> line_kind (fault_title i +:+ nl) = EventLine.
Proof.
  intros Hi. rewrite fault_line_shape by done. unfold line_kind.
  rewrite str_in_no_start.
  2:{ rewrite !all_chars_app.
      rewrite (all_chars_impl is_digit _ _ (fun c H => digit_not c "N"%char H eq_refl)
                 (str_of_N_chars _)). done. }
  rewrite str_in_app_l; done.
Qed.

Lemma fault_line_type i :
  0 <= i -> list_item 1 (split "="%char (fault_title i +:+ nl)) = Ok (" FAULT" +:+ nl).
Proof.
  intros Hi. rewrite fault_line_shape by done.
  replace ("Event #" +:+ str_of_N (Z.to_N (i + 2)) +:+
           String (ascii_of_nat 9) ("= FAULT" +:+ nl))
    with (("Event #" +:+ str_of_N (Z.to_N (i + 2)) +:+ tab) +:+
          String "="%char (" FAULT" +:+ nl)).
  2:{ by rewrite !app_assoc_s. }
  rewrite split_app.
  2:{ rewrite !all_chars_app.
      rewrite (all_chars_impl is_digit _ _ (fun c H => digit_not c "="%char H eq_refl)
                 (str_of_N_chars _)). done. }
  reflexivity.
Qed.

(** X10. The loader reads the number of an event header from two
    characters, [line[7:9]].  For the header that
    [createPyNoddyHistoryFile] writes for fault [i], the number read is
    [i + 2] as long as that is below 100; from 100 on it is the number that
    the first two digits make, which is below 100 and so another one. *)
Theorem fault_number_read_back (i : Z) (k : nat) (stop : option Z) (h : NoddyHistory) :
  0 <= i ->
  scan_line stop (k, fault_title i +:+ nl) h =
    (set_raw_events
       (raw_events h ++ [{| raw_type := " FAULT"; num := leading_two (i + 2);
                            line_start := Z.of_nat k; line_end := None |}]) h,
     Ok stop) /\
  (i + 2 < 100 -> leading_two (i + 2) = i + 2) /\
  (100 <= i + 2 -> leading_two (i + 2) < 100).
Proof.
  intros Hi. split; [| split].
  - unfold scan_line. rewrite fault_line_kind by done.
    rewrite bind_run. unfold lift at 1. rewrite fault_line_type by done.
    rewrite bind_run. unfold lift at 1.
    rewrite fault_line_shape at 1 by done. rewrite header_digits.
    rewrite Z2N.id by lia. reflexivity.
  - intros Hlt. unfold leading_two.
    by replace (i + 2 <? 100) with true by (symmetry; apply Z.ltb_lt; lia).
  - intros Hge. pose proof (header_digits (Z.to_N (i + 2)) "") as Hd.
    rewrite Z2N.id in Hd by lia.
    unfold leading_two in *.
    replace (i + 2 <? 100) with false in * by (symmetry; apply Z.ltb_ge; lia).
    assert (Hk : (2 <= ndigits (Z.to_N (i + 2)))%nat) by (apply ndigits_more; lia).
    pose proof (ndigits_bound (Z.to_N (i + 2))) as Hb.
    set (d := ndigits (Z.to_N (i + 2))) in *.
    apply Z.div_lt_upper_bound; [apply Z.pow_pos_nonneg; lia |].
    assert (Hb' : i + 2 < 10 ^ Z.of_nat d).
    { apply N2Z.inj_lt in Hb. rewrite Z2N.id, N2Z.inj_pow, nat_N_Z in Hb by lia. exact Hb. }
    replace (Z.of_nat d) with ((Z.of_nat d - 2) + 2) in Hb' by lia.
    rewrite Z.pow_add_r in Hb' by lia. lia.
Qed.

(** Fault 98 is event 100, and is read as event 10. *)
Lemma fault_number_read_back_witness :
  0 <= 98 /\
  (scan_line None (8%nat, fault_title 98 +:+ nl) blank =
     (set_raw_events
        (raw_events blank ++ [{| raw_type := " FAULT"; num := leading_two (98 + 2);
                                 line_start := Z.of_nat 8; line_end := None |}]) blank,
      Ok None) /\
   (98 + 2 < 100 -> leading_two (98 + 2) = 98 + 2) /\
   (100 <= 98 + 2 -> leading_two (98 + 2) < 100)) /\
  leading_two (98 + 2) = 10.
Proof.
  split; [lia |]. split; [apply (fault_number_read_back 98 8 None blank); lia |].
  by vm_compute.
Defined.

End EventNumbers.

(** ** Attributes that a call leaves as they are *)
Module KeepFacts.
Import PyStr Py Events History Methods RoundTrip.
Import MonadFacts ScanFacts SpanFacts FrameFacts.

Lemma keeps_bind {A B X} (f : NoddyHistory -> X) (m : M A) (k : A -> M B) :
  keeps f m -> (forall a, keeps f (k a)) -> keeps f (m ≫= k).
Proof.
  intros Hm Hk h h' r. rewrite bind_run.
  destruct (m h) as [h1 [a|e]] eqn:H1.
  - intros H2. rewrite (Hk a h1 h' r H2). by eapply Hm.
  - intros [= <- _]. by eapply Hm.
Qed.

Lemma keeps_pure {A X} (f : NoddyHistory -> X) (m : M A) : pure m -> keeps f m.
Proof. intros Hm h h' r H. specialize (Hm h). rewrite H in Hm. cbn in Hm. by subst. Qed.

Lemma keeps_modify {X} (f : NoddyHistory -> X) (g : NoddyHistory -> NoddyHistory) :
  (forall h, f (g h) = f h) -> keeps f (modify g).
Proof. intros Hg h h' r [= <- _]. apply Hg. Qed.

Lemma keeps_foldM {A B X} (f : NoddyHistory -> X) (step : B -> A -> M B) l :
  (forall b x, keeps f (step b x)) -> forall b, keeps f (foldM step b l).
Proof.
  intros Hstep. induction l as [|x l IH]; intros b.
  - apply keeps_pure, pure_mret.
  - cbn [foldM]. apply keeps_bind; [apply Hstep | intros b'; apply IH].
Qed.

Ltac solve_keeps :=
  repeat first
    [ apply keeps_modify; intros ?; reflexivity
    | apply keeps_pure; solve_pure; fail
    | apply keeps_bind; [| intros ?]
    | match goal with |- keeps _ (if ?b then _ else _) => destruct b end
    | match goal with |- keeps _ (match ?b with _ => _ end) => destruct b end ].

Lemma keeps_scan_line {X} (f : NoddyHistory -> X) stop il :
  (forall x h, f (set_n_events x h) = f h) ->
  (forall x h, f (set_raw_events x h) = f h) ->
  keeps f (scan_line stop il).
Proof.
  intros Hn Hr. unfold scan_line. destruct il as [i line].
  destruct (line_kind line).
  - apply keeps_bind; [apply keeps_pure, pure_lift | intros v].
    apply keeps_bind; [apply keeps_pure, pure_lift | intros n].
    apply keeps_bind; [apply keeps_modify, Hn | intros ?]. apply keeps_pure, pure_mret.
  - apply keeps_bind; [apply keeps_pure, pure_lift | intros v].
    apply keeps_bind; [apply keeps_pure, pure_lift | intros n].
    apply keeps_bind; [apply keeps_modify; intros h; apply Hr | intros ?].
    apply keeps_pure, pure_mret.
  - apply keeps_pure, pure_mret.
  - apply keeps_pure, pure_mret.
Qed.

Lemma keeps_store_event {X} (f : NoddyHistory -> X) k ev :
  (forall x h, f (set_events x h) = f h) ->
  (forall x h, f (set_store x h) = f h) ->
  keeps f (store_event k ev).
Proof.
  intros He Hs. unfold store_event. apply keeps_bind.
  - intros h h' r [= <- _]. apply Hs.
  - intros l. apply keeps_modify. intros h. apply He.
Qed.

Lemma keeps_create_event {X} (f : NoddyHistory -> X) e :
  (forall x h, f (set_events x h) = f h) ->
  (forall x h, f (set_store x h) = f h) ->
  keeps f (create_event e).
Proof.
  intros He Hs. unfold create_event.
  apply keeps_bind; [apply keeps_pure, pure_gets | intros lines].
  apply keeps_bind; [apply keeps_pure, pure_lift | intros stop]. cbv zeta.
  destruct (event_class_of (raw_type e)).
  - by apply keeps_store_event.
  - apply keeps_pure, pure_mret.
Qed.

(** [determine_events] does not touch the event counter. *)
Lemma keeps_determine_events : keeps event_counter determine_events.
Proof.
  unfold determine_events.
  apply keeps_bind; [by apply keeps_modify | intros ?].
  apply keeps_bind; [apply keeps_pure, pure_gets | intros lines].
  apply keeps_bind; [apply keeps_foldM; intros; by apply keeps_scan_line | intros stop].
  apply keeps_bind; [by apply keeps_modify | intros ?].
  apply keeps_bind; [apply keeps_pure, pure_lift | intros last_event_stop].
  apply keeps_bind; [apply keeps_pure, pure_gets | intros raw].
  apply keeps_bind.
  { destruct (decide (raw = [])); apply keeps_pure; [apply pure_raise | apply pure_mret]. }
  intros ?.
  apply keeps_bind; [by apply keeps_modify | intros ?].
  apply keeps_bind; [by apply keeps_modify | intros ?].
  apply keeps_bind; [apply keeps_pure, pure_gets | intros raw'].
  apply keeps_bind; [apply keeps_foldM; intros; by apply keeps_create_event | intros ?].
  apply keeps_bind; [apply keeps_pure, pure_lift | intros first].
  apply keeps_bind; [apply keeps_pure, pure_lift | intros final].
  apply keeps_bind; [apply keeps_pure, pure_lift | intros final_end].
  apply keeps_bind; [by apply keeps_modify | intros ?].
  by apply keeps_modify.
Qed.

Lemma loaded_counter lines h :
  NoddyHistory_init (Some lines) = Ok h -> event_counter h = None.
Proof.
  intros (_ & Hdet)%init_ok. by apply keeps_determine_events in Hdet.
Qed.

End KeepFacts.

Module AddEvent.
Import PyStr Py Events History Methods RoundTrip.
Import MonadFacts ScanFacts SpanFacts FrameFacts DictFacts KeepFacts.

Section add_event_facts.
Variable py_str : PyVal -> string.

(** X11. An instance that was loaded from a document has no event
    counter, so that [add_event] raises [AttributeError] on it, whatever
    the event and also when the number is given by [event_num], and leaves
    the instance as it was. *)
Theorem add_event_after_load (lines : list string) (h : NoddyHistory)
    (event_type : string) (event_options : dict string PyVal) (event_num : option Z) :
  NoddyHistory_init (Some lines) = Ok h ->
  add_event py_str event_type event_options event_num h = (h, Err AttributeError).
Proof.
  intros Hc%loaded_counter. unfold add_event. rewrite bind_run.
  unfold get_ev_counter. rewrite bind_run. unfold attr. by rewrite Hc.
Qed.

(** The part of [add_event] that builds the event. *)
Lemma keeps_builder {X} (f : NoddyHistory -> X) event_type event_options :
  keeps f
    (if String.eqb event_type "stratigraphy" then
       ev ← lift (_create_stratigraphy event_options);
       mret (set_event_type "STRATIGRAPHY" ev)
     else if String.eqb event_type "fault" then
       ev ← _create_fault py_str event_options;
       mret (set_event_type "FAULT" ev)
     else if String.eqb event_type "tilt" then
       ev ← _create_tilt event_options;
       mret (set_event_type "TILT" ev)
     else if String.eqb event_type "unconformity" then
       ev ← _create_unconformity py_str event_options;
       mret (set_event_type "UNCONFORMITY" ev)
     else if String.eqb event_type "fold" then
       ev ← _create_fold event_options;
       mret (set_event_type "FOLD" ev)
     else raise NameError).
Proof.
  apply keeps_pure.
  repeat match goal with |- pure (if ?b then _ else _) => destruct b end;
    solve_pure;
    auto using pure_create_fault, pure_create_fold, pure_create_tilt,
               pure_create_unconformity.
Qed.

(** What follows the building of the event. *)
Lemma add_event_stores (m : M Event) (k : Z) (h : NoddyHistory) :
  keeps id m ->
  let run := (ev ← m;
              let ev := set_event_number k ev in
              store_event k ev;;
              modify (fun h => set_all_events_end
                         (all_events_end h + Z.of_nat (length (event_lines ev))) h);;
              _ ← gets (fun h => splice h ev);
              mret tt) h in
  run.2 = Ok tt -> is_Some (dict_get k (events run.1)).
Proof.
  intros Hm. cbv zeta. rewrite bind_run.
  destruct (m h) as [h1 [ev|e]] eqn:Hbuild; [| done].
  apply Hm in Hbuild. unfold id in Hbuild. subst h1.
  intros _. unfold store_event, alloc, modify, gets.
  rewrite !bind_run. cbn [fst events set_events set_all_events_end].
  unfold mret, M_ret. cbn [fst events set_events set_all_events_end set_store].
  rewrite dict_get_set_eq. by eexists.
Qed.

Lemma get_ev_counter_run h c :
  event_counter h = Some c ->
  get_ev_counter h = (set_event_counter (Some (c + 1)) h, Ok (c + 1)).
Proof.
  intros Hc. unfold get_ev_counter. rewrite bind_run. unfold attr. by rewrite Hc.
Qed.

(** X12. [add_event] takes a number from the event counter before it
    does anything else: the counter is one higher after every call, also
    when the number of the event is given by [event_num] and also when the
    call fails.  A call that returns has stored the event under the given
    number or else under the new value of the counter; an event type that
    is none of the five raises [NameError] with the counter incremented. *)
Theorem add_event_counts (h : NoddyHistory) (c : Z)
    (event_type : string) (event_options : dict string PyVal) (event_num : option Z) :
  event_counter h = Some c ->
  event_counter (add_event py_str event_type event_options event_num h).1 = Some (c + 1) /\
  ((add_event py_str event_type event_options event_num h).2 = Ok tt ->
   is_Some (dict_get (default (c + 1) event_num)
              (events (add_event py_str event_type event_options event_num h).1))) /\
  (event_type ∉ ["stratigraphy"; "fault"; "tilt"; "unconformity"; "fold"] ->
   add_event py_str event_type event_options event_num h =
     (set_event_counter (Some (c + 1)) h, Err NameError)).
Proof.
  intros Hc. unfold add_event.
  rewrite bind_run, (get_ev_counter_run h c Hc). cbv zeta.
  split; [| split].
  - match goal with
    | |- event_counter (?m ?h0).1 = _ =>
        destruct (m h0) as [h' r] eqn:Hrun;
        assert (Hk : keeps event_counter m); [| by apply Hk in Hrun]
    end.
    apply keeps_bind; [apply keeps_builder | intros ev].
    apply keeps_bind; [by apply keeps_store_event | intros ?].
    apply keeps_bind; [by apply keeps_modify | intros ?].
    apply keeps_pure. solve_pure.
  - apply add_event_stores. apply keeps_builder.
  - intros Hty.
    assert (Hne : forall s, s ∈ ["stratigraphy"; "fault"; "tilt"; "unconformity"; "fold"] ->
                            String.eqb event_type s = false).
    { intros s Hs. apply String.eqb_neq. intros ->. done. }
    rewrite bind_run.
    rewrite (Hne "stratigraphy"), (Hne "fault"), (Hne "tilt"), (Hne "unconformity"),
      (Hne "fold") by set_solver.
    reflexivity.
Qed.

End add_event_facts.

(** A fault added under the number 5 to a new history: the counter goes
    from 0 to 1. *)
Lemma add_event_counts_witness :
  event_counter new_history = Some 0 /\
  (event_counter (add_event sample_str "fault" Samples.fault_5000 (Some 5) new_history).1
     = Some (0 + 1) /\
   ((add_event sample_str "fault" Samples.fault_5000 (Some 5) new_history).2 = Ok tt ->
    is_Some (dict_get (default (0 + 1) (Some 5))
               (events (add_event sample_str "fault" Samples.fault_5000 (Some 5)
                          new_history).1))) /\
   ("fault" ∉ ["stratigraphy"; "fault"; "tilt"; "unconformity"; "fold"] ->
    add_event sample_str "fault" Samples.fault_5000 (Some 5) new_history =
      (set_event_counter (Some (0 + 1)) new_history, Err NameError))) /\
  (add_event sample_str "fault" Samples.fault_5000 (Some 5) new_history).2 = Ok tt.
Proof.
  split; [reflexivity |].
  split; [apply (add_event_counts sample_str new_history 0); reflexivity |].
  by vm_compute.
Defined.

Lemma add_event_after_load_witness :
  NoddyHistory_init (Some Samples.two_events) = Ok (Samples.instance Samples.two_events) /\
  add_event sample_str "fault" Samples.fault_5000 (Some 3) (Samples.instance Samples.two_events)
    = (Samples.instance Samples.two_events, Err AttributeError).
Proof.
  assert (H : NoddyHistory_init (Some Samples.two_events)
              = Ok (Samples.instance Samples.two_events)) by (by vm_compute).
  split; [exact H |].
  exact (add_event_after_load sample_str _ _ "fault" Samples.fault_5000 (Some 3) H).
Defined.

End AddEvent.

(** ** Reordering *)
Module Reorder.
Import PyStr Py Events History Methods RoundTrip.
Import MonadFacts DictFacts KeepFacts.

(** Running a sequence of calls whose outcomes are known. *)
Ltac run :=
  unfold mbind, M_bind, gets, lift, modify, dict_item; cbv beta iota.

Lemma set_events_same h : set_events (events h) h = h.
Proof. by destruct h. Qed.

Lemma dict_get_is_Some_set (k k' : Z) (v : loc) d :
  is_Some (dict_get k d) -> is_Some (dict_get k (dict_set k' v d)).
Proof.
  intros Hk. destruct (decide (k = k')) as [->|Hne].
  - rewrite dict_get_set_eq. by eexists.
  - by rewrite dict_get_set_ne.
Qed.

(** X13. [reorder_events] with the mapping [{a: b, b: a}] of two
    different numbers that both are there does what [swap_events(a, b)]
    does: the two calls leave the same instance. *)
Theorem reorder_two_is_swap (h : NoddyHistory) (a b : Z) :
  is_Some (dict_get a (events h)) -> is_Some (dict_get b (events h)) -> a <> b ->
  reorder_events [(a, b); (b, a)] h = swap_events a b h.
Proof.
  intros [la Ha] [lb Hb] Hne.
  unfold reorder_events, swap_events. run.
  rewrite Ha, Hb. cbn [of_option foldl fst snd events set_events].
  unfold reorder_step. cbn [fst snd]. rewrite Ha, Hb.
  rewrite (dict_set_comm a b lb la) by (done || by eexists).
  reflexivity.
Qed.

Lemma reorder_two_is_swap_witness :
  let h := Samples.instance Samples.two_events in
  (is_Some (dict_get 1 (events h)) /\ is_Some (dict_get 2 (events h)) /\ 1 <> 2) /\
  reorder_events [(1, 2); (2, 1)] h = swap_events 1 2 h.
Proof.
  cbv zeta.
  assert (H1 : is_Some (dict_get 1 (events (Samples.instance Samples.two_events))))
    by (by eexists; vm_compute).
  assert (H2 : is_Some (dict_get 2 (events (Samples.instance Samples.two_events))))
    by (by eexists; vm_compute).
  assert (H3 : 1 <> 2) by lia.
  split; [done |].
  exact (reorder_two_is_swap _ 1 2 H1 H2 H3).
Defined.

(** X14. A number that is not there: [swap_events] raises [KeyError]
    and leaves the instance as it was, in whichever place the number is
    given; [reorder_events] skips the entry and does not fail, so that a
    mapping with that entry alone only renumbers. *)
Theorem missing_number (h : NoddyHistory) (a b : Z) :
  dict_get a (events h) = None ->
  swap_events a b h = (h, Err KeyError) /\
  swap_events b a h = (h, Err KeyError) /\
  reorder_events [(a, b)] h = update_event_numbers h.
Proof.
  intros Ha. split; [| split].
  - unfold swap_events. run. by rewrite Ha.
  - unfold swap_events. run. rewrite Ha. by destruct (dict_get b (events h)).
  - unfold reorder_events. run.
    cbn [foldl]. unfold reorder_step. cbn [fst snd]. rewrite Ha.
    by rewrite set_events_same.
Qed.

Lemma missing_number_witness :
  let h := Samples.instance Samples.two_events in
  dict_get 7 (events h) = None /\
  swap_events 7 1 h = (h, Err KeyError) /\
  swap_events 1 7 h = (h, Err KeyError) /\
  reorder_events [(7, 1)] h = update_event_numbers h.
Proof.
  cbv zeta. split; [by vm_compute |].
  apply (missing_number (Samples.instance Samples.two_events) 7 1). by vm_compute.
Defined.

(** X15. [reorder_events] with a mapping that is no permutation: after
    [{a: b}], for two different numbers that both are there, the numbers
    [a] and [b] refer to one and the same event object, the one that [a]
    referred to, and the numbers of the history are the same as before. *)
Theorem reorder_one_aliases (h : NoddyHistory) (a b : Z) (la : loc) :
  dict_get a (events h) = Some la -> is_Some (dict_get b (events h)) -> a <> b ->
  let h' := (reorder_events [(a, b)] h).1 in
  (reorder_events [(a, b)] h).2 = Ok tt /\
  dict_get a (events h') = Some la /\ dict_get b (events h') = Some la /\
  dict_keys (events h') = dict_keys (events h).
Proof.
  intros Ha [lb Hb] Hne. cbv zeta.
  unfold reorder_events. run.
  cbn [foldl]. unfold reorder_step. cbn [fst snd]. rewrite Ha.
  rewrite update_event_numbers_run. cbn [fst snd events set_events set_store].
  split; [done |]. split; [| split].
  - by rewrite dict_get_set_ne.
  - apply dict_get_set_eq.
  - by eapply dict_set_keys.
Qed.

Lemma reorder_one_aliases_witness :
  let h := Samples.instance Samples.two_events in
  (dict_get 1 (events h) = Some 0%nat /\ is_Some (dict_get 2 (events h)) /\ 1 <> 2) /\
  let h' := (reorder_events [(1, 2)] h).1 in
  (reorder_events [(1, 2)] h).2 = Ok tt /\
  dict_get 1 (events h') = Some 0%nat /\ dict_get 2 (events h') = Some 0%nat /\
  dict_keys (events h') = dict_keys (events h).
Proof.
  cbv zeta.
  assert (H1 : dict_get 1 (events (Samples.instance Samples.two_events)) = Some 0%nat)
    by (by vm_compute).
  assert (H2 : is_Some (dict_get 2 (events (Samples.instance Samples.two_events))))
    by (by eexists; vm_compute).
  assert (H3 : 1 <> 2) by lia.
  split; [done |].
  exact (reorder_one_aliases _ 1 2 0%nat H1 H2 H3).
Defined.

End Reorder.

(** ** Event parameters *)
Module Params.
Import PyStr Py Events History Methods RoundTrip.
Import MonadFacts DictFacts KeepFacts Reorder.

Lemma set_properties_same e : set_properties (properties e) e = e.
Proof. by destruct e. Qed.

Lemma set_store_same h : set_store (store h) h = h.
Proof. by destruct h. Qed.

Lemma deref_insert h l e :
  (l < length (store h))%nat -> deref (set_store (<[l := e]> (store h)) h) l = e.
Proof.
  intros Hl. unfold deref. cbn [store set_store].
  apply list_lookup_total_correct. by apply list_lookup_insert_eq.
Qed.

Lemma set_event_param_run h k l kv :
  dict_get k (events h) = Some l ->
  set_event_param k kv h =
  (set_store (<[l := set_properties (dict_set kv.1 kv.2 (properties (deref h l)))
                       (deref h l)]> (store h)) h, Ok tt).
Proof. intros Hk. unfold set_event_param, update_obj. run. by rewrite Hk. Qed.

Lemma forM_set_event_param sub_dict : forall h k l,
  dict_get k (events h) = Some l -> (l < length (store h))%nat ->
  forM (set_event_param k) sub_dict h =
  (set_store (<[l := set_properties (assigned sub_dict (properties (deref h l)))
                       (deref h l)]> (store h)) h, Ok tt).
Proof.
  induction sub_dict as [|kv sub_dict IH]; intros h k l Hk Hl.
  - cbn [assigned foldl]. rewrite set_properties_same.
    rewrite list_insert_id; [by rewrite set_store_same |].
    unfold deref. by apply list_lookup_lookup_total_lt.
  - unfold forM. rewrite foldM_cons, bind_run, (set_event_param_run h k l kv Hk).
    fold (forM (set_event_param k) sub_dict).
    rewrite (IH _ k l); [| done | by cbn [store set_store]; rewrite length_insert].
    rewrite deref_insert by done.
    cbn [store set_store properties set_properties assigned foldl].
    by rewrite list_insert_insert_eq.
Qed.

Lemma assigned_snoc sub_dict kv p :
  assigned (sub_dict ++ [kv]) p = dict_set kv.1 kv.2 (assigned sub_dict p).
Proof. unfold assigned. by rewrite foldl_app. Qed.

Lemma assigned_get sub_dict p name v :
  NoDup sub_dict.*1 -> (name, v) ∈ sub_dict -> dict_get name (assigned sub_dict p) = Some v.
Proof.
  induction sub_dict as [|[k0 v0] sub_dict IH] using rev_ind; intros Hnd Hin.
  - by apply elem_of_nil in Hin.
  - rewrite fmap_app in Hnd. apply NoDup_app in Hnd as (Hnd & Hk0 & _).
    rewrite assigned_snoc. cbn [fst snd].
    apply elem_of_app in Hin as [Hin|Hin].
    + rewrite dict_get_set_ne; [by apply IH |].
      intros ->. apply (Hk0 k0); [| cbn; apply list_elem_of_here].
      apply list_elem_of_fmap. by exists (k0, v).
    + apply list_elem_of_singleton in Hin. injection Hin as -> ->. apply dict_get_set_eq.
Qed.

Lemma assigned_other sub_dict p name :
  name ∉ sub_dict.*1 -> dict_get name (assigned sub_dict p) = dict_get name p.
Proof.
  induction sub_dict as [|[k0 v0] sub_dict IH] using rev_ind; intros Hin; [done |].
  rewrite fmap_app in Hin. apply not_elem_of_app in Hin as [Hin Hk0].
  rewrite assigned_snoc. cbn [fst snd]. rewrite dict_get_set_ne; [by apply IH |].
  intros ->. apply Hk0. cbn. apply list_elem_of_here.
Qed.

Lemma set_event_params_run h k l sub_dict :
  dict_get k (events h) = Some l -> (l < length (store h))%nat ->
  set_event_params [(k, sub_dict)] h =
  (set_store (<[l := set_properties (assigned sub_dict (properties (deref h l)))
                       (deref h l)]> (store h)) h, Ok tt).
Proof.
  intros Hk Hl. unfold set_event_params, forM at 1.
  rewrite foldM_cons, bind_run. cbn [fst snd].
  fold (forM (set_event_param k) sub_dict).
  by rewrite (forM_set_event_param sub_dict h k l Hk Hl).
Qed.

Lemma get_event_param_run h k l name :
  dict_get k (events h) = Some l ->
  get_event_param k name h = (h, Ok (dict_get name (properties (deref h l)))).
Proof. intros Hk. unfold get_event_param. run. by rewrite Hk. Qed.

(** X16. [set_event_params({k: sub_dict})] for an event that is there:
    afterwards [get_event_param(k, name)] returns [sub_dict[name]] for
    every name of [sub_dict], and what it returned before for every other
    name. *)
Theorem set_then_get (h : NoddyHistory) (k : Z) (l : loc)
    (sub_dict : dict PyKey PyVal) :
  dict_get k (events h) = Some l -> (l < length (store h))%nat ->
  NoDup sub_dict.*1 ->
  exists h',
    set_event_params [(k, sub_dict)] h = (h', Ok tt) /\
    (forall name v, (name, v) ∈ sub_dict ->
       get_event_param k name h' = (h', Ok (Some v))) /\
    (forall name, name ∉ sub_dict.*1 ->
       (get_event_param k name h').2 = (get_event_param k name h).2).
Proof.
  intros Hk Hl Hnd. eexists. split; [by apply set_event_params_run |].
  split.
  - intros name v Hin. erewrite get_event_param_run; [| exact Hk].
    rewrite deref_insert by done. cbn [properties set_properties].
    by rewrite (assigned_get sub_dict _ name v).
  - intros name Hin. erewrite !get_event_param_run; [| exact Hk | exact Hk].
    rewrite deref_insert by done. cbn [snd properties set_properties].
    by rewrite assigned_other.
Qed.

(** The fault of the sample document: [{2: {'Dip': 45, 'Slip': 300.0}}]. *)
Lemma set_then_get_witness :
  let h := Samples.instance Samples.two_events in
  let sub_dict := [(KStr "Dip", VInt 45); (KStr "Slip", VFloat 300)] in
  (dict_get 2 (events h) = Some 1%nat /\ (1 < length (store h))%nat /\
   NoDup sub_dict.*1) /\
  exists h',
    set_event_params [(2, sub_dict)] h = (h', Ok tt) /\
    (forall name v, (name, v) ∈ sub_dict ->
       get_event_param 2 name h' = (h', Ok (Some v))) /\
    (forall name, name ∉ sub_dict.*1 ->
       (get_event_param 2 name h').2 = (get_event_param 2 name h).2).
Proof.
  cbv zeta.
  assert (H1 : dict_get 2 (events (Samples.instance Samples.two_events)) = Some 1%nat)
    by (vm_compute; reflexivity).
  assert (H2 : (1 < length (store (Samples.instance Samples.two_events)))%nat)
    by (vm_compute; lia).
  assert (H3 : NoDup [(KStr "Dip", VInt 45); (KStr "Slip", VFloat 300)].*1)
    by (apply (bool_decide_unpack _); vm_compute; exact I).
  split; [exact (conj H1 (conj H2 H3)) |].
  exact (set_then_get _ 2 1%nat _ H1 H2 H3).
Defined.

Lemma change_event_params_run h k l name delta old new :
  dict_get k (events h) = Some l ->
  dict_get (KStr name) (properties (deref h l)) = Some old ->
  py_add old delta = Ok new ->
  change_event_params [(k, [(KStr name, delta)])] h =
  (set_store (<[l := set_properties (dict_set (KStr name) new (properties (deref h l)))
                       (deref h l)]> (store h)) h, Ok tt).
Proof.
  intros Hk Hold Hnew. unfold change_event_params, forM.
  rewrite foldM_cons, bind_run. cbn [fst snd]. rewrite foldM_cons, bind_run.
  unfold change_event_param. cbn [fst snd]. run. rewrite Hk. cbn [of_option].
  unfold dict_iadd, dict_item. cbn [of_option].
  change (Ok ?x ≫= ?f) with (f x). cbv beta. rewrite Hold. cbn [of_option].
  do 2 (change (Ok ?x ≫= ?f) with (f x); cbv beta). rewrite Hnew.
  reflexivity.
Qed.

(** X17. [change_event_params({k: {name: delta}})] for a named
    property that the event has: afterwards [get_event_param(k, name)]
    returns the old value plus [delta], and what it returned before for
    every other name. *)
Theorem change_then_get (h : NoddyHistory) (k : Z) (l : loc) (name : string)
    (delta old new : PyVal) :
  dict_get k (events h) = Some l -> (l < length (store h))%nat ->
  dict_get (KStr name) (properties (deref h l)) = Some old ->
  py_add old delta = Ok new ->
  exists h',
    change_event_params [(k, [(KStr name, delta)])] h = (h', Ok tt) /\
    get_event_param k (KStr name) h' = (h', Ok (Some new)) /\
    (forall name', name' <> KStr name ->
       (get_event_param k name' h').2 = (get_event_param k name' h).2).
Proof.
  intros Hk Hl Hold Hnew. eexists.
  split; [by eapply change_event_params_run |]. split.
  - erewrite get_event_param_run; [| exact Hk].
    rewrite deref_insert by done. cbn [properties set_properties].
    by rewrite dict_get_set_eq.
  - intros name' Hne. erewrite !get_event_param_run; [| exact Hk | exact Hk].
    rewrite deref_insert by done. cbn [snd properties set_properties].
    by rewrite dict_get_set_ne.
Qed.

(** The dip of the fault of the sample document, 60, changed by 5. *)
Lemma change_then_get_witness :
  let h := Samples.instance Samples.two_events in
  let old := default (VInt 0) (dict_get (KStr "Dip") (properties (deref h 1))) in
  let new := match py_add old (VInt 5) with
             | Ok v => v
             | Err _ => VInt 0
             end in
  (dict_get 2 (events h) = Some 1%nat /\ (1 < length (store h))%nat /\
   dict_get (KStr "Dip") (properties (deref h 1)) = Some old /\
   py_add old (VInt 5) = Ok new) /\
  (exists h',
    change_event_params [(2, [(KStr "Dip", VInt 5)])] h = (h', Ok tt) /\
    get_event_param 2 (KStr "Dip") h' = (h', Ok (Some new)) /\
    (forall name', name' <> KStr "Dip" ->
       (get_event_param 2 name' h').2 = (get_event_param 2 name' h).2)) /\
  same_scalar old (VInt 60) = true /\ same_scalar new (VInt 65) = true.
Proof.
  intros h old new.
  assert (H1 : dict_get 2 (events h) = Some 1%nat) by (vm_compute; reflexivity).
  assert (H2 : (1 < length (store h))%nat) by (vm_compute; lia).
  assert (H3 : dict_get (KStr "Dip") (properties (deref h 1)) = Some old)
    by (vm_compute; reflexivity).
  assert (H4 : py_add old (VInt 5) = Ok new) by (vm_compute; reflexivity).
  split; [exact (conj H1 (conj H2 (conj H3 H4))) |].
  split; [exact (change_then_get h 2 1%nat "Dip" (VInt 5) old new H1 H2 H3 H4) |].
  clear. split; vm_compute; reflexivity.
Defined.

(** X18. An event or a named property that is not there:
    [get_event_param] returns [None] and [change_event_params] raises
    [KeyError], and both leave the instance as it was.  Where the event
    itself is not there, [get_event_params] raises [KeyError], and so does
    [set_event_params] as soon as the mapping for the event has an entry. *)
Theorem not_there (h : NoddyHistory) (k : Z) (name : string) (delta : PyVal) :
  dict_get k (events h) = None \/
  (exists l, dict_get k (events h) = Some l /\
             dict_get (KStr name) (properties (deref h l)) = None) ->
  get_event_param k (KStr name) h = (h, Ok None) /\
  change_event_params [(k, [(KStr name, delta)])] h = (h, Err KeyError) /\
  (dict_get k (events h) = None ->
   get_event_params k h = (h, Err KeyError) /\
   forall kv sub_dict, set_event_params [(k, kv :: sub_dict)] h = (h, Err KeyError)).
Proof.
  intros Hnone. split; [| split].
  - unfold get_event_param. run.
    destruct Hnone as [-> | (l & -> & Hname)]; [done | by rewrite Hname].
  - unfold change_event_params, forM.
    rewrite foldM_cons, bind_run. cbn [fst snd]. rewrite foldM_cons, bind_run.
    unfold change_event_param. cbn [fst snd]. run.
    destruct Hnone as [-> | (l & -> & Hname)]; [done |]. cbn [of_option].
    unfold dict_iadd, dict_item. cbn [of_option].
    change (Ok ?x ≫= ?f) with (f x). cbv beta. by rewrite Hname.
  - intros Hk. split.
    + unfold get_event_params. run. by rewrite Hk.
    + intros kv sub_dict. unfold set_event_params, forM.
      rewrite foldM_cons, bind_run. cbn [fst snd]. rewrite foldM_cons, bind_run.
      unfold set_event_param at 1. run. by rewrite Hk.
Qed.

Lemma not_there_witness :
  let h := Samples.instance Samples.two_events in
  (dict_get 9 (events h) = None \/
   (exists l, dict_get 9 (events h) = Some l /\
              dict_get (KStr "Dip") (properties (deref h l)) = None)) /\
  get_event_param 9 (KStr "Dip") h = (h, Ok None) /\
  change_event_params [(9, [(KStr "Dip", VInt 5)])] h = (h, Err KeyError) /\
  (dict_get 9 (events h) = None ->
   get_event_params 9 h = (h, Err KeyError) /\
   forall kv sub_dict, set_event_params [(9, kv :: sub_dict)] h = (h, Err KeyError)).
Proof.
  cbv zeta.
  assert (H : dict_get 9 (events (Samples.instance Samples.two_events)) = None
              \/ (exists l, dict_get 9 (events (Samples.instance Samples.two_events)) = Some l
                            /\ dict_get (KStr "Dip")
                                 (properties (deref (Samples.instance Samples.two_events) l))
                               = None))
    by (left; vm_compute; reflexivity).
  split; [exact H |].
  exact (not_there _ 9 "Dip" (VInt 5) H).
Defined.

End Params.

(** ** The header *)
Module HeaderFacts.
Import PyStr Py Events History Methods Geometry RoundTrip.
Import StrFacts NumFacts FloatFacts MonadFacts CubeFacts GeometryFacts NumberFacts.
Import WriteFacts Reorder.

#[local] Arguments String.append : simpl nomatch.

(** The characters of a date. *)
Definition is_datechar (c : ascii) : bool :=
  is_digit c || char_in c "-/: ".

Lemma fmt_d_chars z : all_chars is_datechar (fmt_d z) = true.
Proof.
  unfold fmt_d. rewrite all_chars_app.
  rewrite (all_chars_impl is_digit is_datechar (str_of_N _)).
  - by destruct (z <? 0).
  - intros c Hc. unfold is_datechar. by rewrite Hc.
  - apply str_of_N_chars.
Qed.

Lemma fmt_d_last z : exists s c, fmt_d z = s +:+ String c "" /\ is_digit c = true.
Proof.
  unfold fmt_d, str_of_N. pose proof (ndigits_pos (Z.abs_N z)) as Hk.
  destruct (ndigits (Z.abs_N z)) as [|k]; [lia |]. cbn [fixed_digits].
  eexists (_ +:+ _), _. split; [symmetry; apply app_assoc_s |].
  apply digit_char_spec. apply N.mod_lt. lia.
Qed.

Lemma time_string_chars t : all_chars is_datechar (time_string t) = true.
Proof. unfold time_string. by rewrite !all_chars_app, !fmt_d_chars. Qed.

Lemma time_string_last t :
  exists s c, time_string t = s +:+ String c "" /\ is_digit c = true.
Proof.
  unfold time_string. destruct (fmt_d_last (tm_sec t)) as (s & c & -> & Hc).
  exists (fmt_d (tm_mday t) +:+ "/" +:+ fmt_d (tm_mon t) +:+ "/" +:+ fmt_d (tm_year t) +:+
          " " +:+ fmt_d (tm_hour t) +:+ ":" +:+ fmt_d (tm_min t) +:+ ":" +:+ s), c.
  split; [| done]. by rewrite !app_assoc_s.
Qed.

Lemma datechar_not c d : is_datechar d = false -> is_datechar c = true ->
  negb (Ascii.eqb c d) = true.
Proof.
  intros Hd Hc. destruct (Ascii.eqb c d) eqn:Heq; [| done].
  apply Ascii.eqb_eq in Heq. congruence.
Qed.

(** The lines of the header that [_create_header] makes, as
    [write_history] splits it. *)
Lemma header_lines_split name t :
  all_chars (fun c => negb (Ascii.eqb c lf)) name = true ->
  add_nl (split lf (header_text name t)) =
  [("#Filename = " +:+ name +:+ " ") +:+ nl; ("#Date Saved = " +:+ time_string t) +:+ nl;
   "FileType = 111" +:+ nl; "Version = 7.11" +:+ nl; nl; nl].
Proof.
  intros Hname. unfold header_text.
  replace ("#Filename = " +:+ name +:+ " " +:+ nl +:+ "#Date Saved = " +:+ time_string t +:+
           nl +:+ "FileType = 111" +:+ nl +:+ "Version = 7.11" +:+ nl +:+ nl)
    with (("#Filename = " +:+ name +:+ " ") +:+ String lf
          (("#Date Saved = " +:+ time_string t) +:+ String lf
           ("FileType = 111" +:+ nl +:+ "Version = 7.11" +:+ nl +:+ nl))).
  2:{ unfold nl. change (ascii_of_nat 10) with lf.
      rewrite !app_assoc_s. rewrite !(app_cons lf ""), !app_nil_l. reflexivity. }
  rewrite split_app by (by rewrite !all_chars_app, Hname).
  rewrite split_app.
  2:{ rewrite all_chars_app.
      rewrite (all_chars_impl is_datechar _ (time_string t)
                 (fun c => datechar_not c lf eq_refl) (time_string_chars t)). done. }
  reflexivity.
Qed.

End HeaderFacts.

Module HeaderReadBack.
Import PyStr Py Events History Methods Geometry RoundTrip.
Import StrFacts NumFacts FloatFacts MonadFacts CubeFacts GeometryFacts NumberFacts.
Import WriteFacts Reorder HeaderFacts.

#[local] Arguments String.append : simpl nomatch.

Lemma header_field_0 h name t rest :
  all_chars (fun c => negb (Ascii.eqb c lf) && negb (Ascii.eqb c "="%char)) name = true ->
  history_lines h = add_nl (split lf (header_text name t)) ++ rest ->
  header_field 0 h = (h, Ok (rstrip (" " +:+ name))).
Proof.
  intros Hname Hlines.
  assert (Hlf : all_chars (fun c => negb (Ascii.eqb c lf)) name = true).
  { eapply all_chars_impl; [| exact Hname]. by intros c [? _]%andb_true_iff. }
  assert (Heq : all_chars (fun c => negb (Ascii.eqb c "="%char)) name = true).
  { eapply all_chars_impl; [| exact Hname]. by intros c [_ ?]%andb_true_iff. }
  unfold header_field. run. rewrite Hlines, header_lines_split by done.
  cbn [app list_item lookup list_lookup of_option].
  replace (("#Filename = " +:+ name +:+ " ") +:+ nl)
    with ("#Filename " +:+ String "="%char ((" " +:+ name) +:+ (" " +:+ nl))).
  2:{ by rewrite !app_assoc_s. }
  rewrite split_app by done.
  rewrite split_no_sep by (by rewrite !all_chars_app, Heq).
  cbn [list_item lookup list_lookup of_option].
  by rewrite rstrip_app_space.
Qed.

Lemma header_field_1 h name t rest :
  all_chars (fun c => negb (Ascii.eqb c lf) && negb (Ascii.eqb c "="%char)) name = true ->
  history_lines h = add_nl (split lf (header_text name t)) ++ rest ->
  header_field 1 h = (h, Ok (" " +:+ time_string t)).
Proof.
  intros Hname Hlines.
  assert (Hlf : all_chars (fun c => negb (Ascii.eqb c lf)) name = true).
  { eapply all_chars_impl; [| exact Hname]. by intros c [? _]%andb_true_iff. }
  unfold header_field. run. rewrite Hlines, header_lines_split by done.
  cbn [app list_item lookup list_lookup of_option].
  replace (("#Date Saved = " +:+ time_string t) +:+ nl)
    with ("#Date Saved " +:+ String "="%char ((" " +:+ time_string t) +:+ nl)).
  2:{ by rewrite !app_assoc_s. }
  rewrite split_app by done.
  rewrite split_no_sep.
  2:{ rewrite !all_chars_app.
      rewrite (all_chars_impl is_datechar _ (time_string t)
                 (fun c => datechar_not c "="%char eq_refl) (time_string_chars t)). done. }
  cbn [list_item lookup list_lookup of_option].
  rewrite rstrip_app_space by done.
  destruct (time_string_last t) as (s & c & -> & Hc).
  rewrite <- app_assoc_s. by rewrite rstrip_keep by (by apply digit_not_space).
Qed.

(** X19. The header that [_create_header] makes, read back: where the
    document starts with the header lines that [write_history] writes for
    the file name [name] and the time [t], and [name] has neither [=] nor a
    line feed, [get_filename] sets the name with a blank before it and
    without the white space at its end, and [get_date_saved] sets the date
    with a blank before it. *)
Theorem header_read_back (m : Model) (name : string) (t : tm) (rest : list string) :
  all_chars (fun c => negb (Ascii.eqb c lf) && negb (Ascii.eqb c "="%char)) name = true ->
  history_lines (base m) = add_nl (split lf (header_text name t)) ++ rest ->
  get_filename (base m) = (set_filename (Some (rstrip (" " +:+ name))) (base m), Ok tt) /\
  get_date_saved m = (set_date_saved (Some (" " +:+ time_string t)) m, Ok tt).
Proof.
  intros Hname Hlines. split.
  - unfold get_filename. rewrite bind_run, (header_field_0 _ name t rest) by done.
    reflexivity.
  - unfold get_date_saved. rewrite gbind_run. unfold on_base at 1.
    rewrite (header_field_1 _ name t rest) by done. by rewrite set_base_base.
Qed.

(** The file written for a new history, loaded again. *)
Lemma header_read_back_witness :
  let lines := output sample_fmt sample_name sample_time new_history in
  let m := model_of (set_history_lines lines blank) in
  (all_chars (fun c => negb (Ascii.eqb c lf) && negb (Ascii.eqb c "="%char)) sample_name
     = true /\
   history_lines (base m) =
     add_nl (split lf (header_text sample_name sample_time)) ++ drop 6 lines) /\
  (get_filename (base m) =
     (set_filename (Some (rstrip (" " +:+ sample_name))) (base m), Ok tt) /\
   get_date_saved m =
     (set_date_saved (Some (" " +:+ time_string sample_time)) m, Ok tt)) /\
  rstrip (" " +:+ sample_name) = " out.his" /\
  " " +:+ time_string sample_time = " 3/11/2026 9:30:5".
Proof.
  cbv zeta. split; [split; vm_compute; reflexivity |].
  split; [| split; vm_compute; reflexivity].
  apply (header_read_back _ sample_name sample_time
           (drop 6 (output sample_fmt sample_name sample_time new_history)));
    vm_compute; reflexivity.
Defined.

Section sticky.
Variable fmt : string -> Q -> string.

(** X20. [write_history] records the file name only where the instance
    has none yet: after two calls with the names [name1] and [name2], the
    instance, and the header made for the second file, still carry the
    name the instance had before or else [name1]. *)
Theorem write_history_keeps_name (h : NoddyHistory) (name1 name2 : string) (t1 t2 : tm) :
  let h2 := ((write_history fmt name1 t1;; write_history fmt name2 t2) h).1 in
  is_ok ((write_history fmt name1 t1;; write_history fmt name2 t2) h).2 = true /\
  filename h2 = Some (default name1 (filename h)) /\
  header_lines h2 = Some (header_text (default name1 (filename h)) t2).
Proof.
  cbv zeta. rewrite bind_run, write_history_run, write_history_run.
  cbn [fst snd is_ok]. unfold written.
  cbn [filename header_lines set_footer_lines set_header_lines set_filename set_store default].
  done.
Qed.

End sticky.
End HeaderReadBack.

(** ** What [write_history] writes *)
Module C2.
Import PyStr Py Events History StrFacts NumFacts FloatFacts MonadFacts DictFacts.
Import CubeFacts WriteFacts NumberFacts.

#[local] Arguments String.append : simpl nomatch.

Lemma dict_get_key {V} (k : Z) (d : dict Z V) :
  k ∈ dict_keys d -> exists v, dict_get k d = Some v.
Proof.
  unfold dict_keys. induction d as [|[k' v'] d IH]; simpl.
  - by intros ?%elem_of_nil.
  - intros [->|Hin]%elem_of_cons.
    + exists v'. by destruct (decide (k' = k')).
    + destruct (decide (k = k')); [by eexists | by apply IH].
Qed.

(** The count line that is written, read as [determine_events] reads
    it. *)
Lemma count_line_read (n : nat) stop i h0 :
  scan_line stop (i, "No of Events" +:+ tab +:+ "= " +:+ fmt_d (Z.of_nat n) +:+ nl) h0 =
  (set_n_events (Some (Z.of_nat n)) h0, Ok stop).
Proof.
  unfold fmt_d. replace (Z.of_nat n <? 0) with false by (symmetry; apply Z.ltb_ge; lia).
  rewrite app_nil_l. set (ds := str_of_N (Z.abs_N (Z.of_nat n))).
  assert (Hds : all_chars is_digit ds = true) by apply str_of_N_chars.
  assert (Hne : ds <> "").
  { unfold ds. destruct (str_of_N_cons (Z.abs_N (Z.of_nat n))) as (c & s & -> & _). done. }
  assert (Hval : Z.of_N (val_digits 0%N ds) = Z.of_nat n).
  { unfold ds. rewrite val_str_of_N. lia. }
  unfold scan_line.
  assert (Hkind : line_kind ("No of Events" +:+ tab +:+ "= " +:+ ds +:+ nl) = CountLine).
  { unfold line_kind. by rewrite (str_in_app_l "No of Events" "No of Events"). }
  rewrite Hkind.
  replace ("No of Events" +:+ tab +:+ "= " +:+ ds +:+ nl)
    with (("No of Events" +:+ tab) +:+ String "="%char (" " +:+ ds +:+ nl))
    by (by rewrite !app_assoc_s).
  rewrite bind_run. unfold lift at 1.
  rewrite split_app by done.
  rewrite (split_no_sep "="%char (" " +:+ ds +:+ nl)).
  2:{ rewrite !all_chars_app. apply andb_true_iff. split; [done |].
      apply andb_true_iff. split; [| done].
      eapply all_chars_impl; [| exact Hds]. intros c Hc.
      exact (EventNumbers.digit_not c "="%char Hc eq_refl). }
  cbn [list_item lookup list_lookup of_option].
  assert (Hint : py_int (" " +:+ ds +:+ nl) = Some (Z.of_nat n)).
  { rewrite <- Hval, <- (py_int_digits ds Hds Hne). unfold py_int.
    replace (trim (" " +:+ ds +:+ nl)) with (trim ds); [done |].
    unfold trim. change (" " +:+ ds +:+ nl) with (String " " (ds +:+ nl)).
    cbn [lskip]. change (is_blank " ") with true. cbv iota.
    destruct ds as [|c ds']; [done |].
    cbn [all_chars] in Hds. apply andb_true_iff in Hds as [Hc Hds'].
    rewrite app_cons, !lskip_keep by (by apply digit_not_space).
    rewrite <- app_cons. by rewrite rskip_app_blank. }
  rewrite bind_run. unfold lift at 1. rewrite Hint. cbn [of_option].
  rewrite bind_run. reflexivity.
Qed.

(** C2. [write_history] always succeeds. The lines it assembles are the
    header, then the count line [No of Events<TAB>= n] with [n] the number
    of entries of the events mapping, then one block for every key of the
    mapping, in ascending order of the keys, each the event lines of the
    object under that key, then the footer. The count line is read by
    [determine_events] as the number of entries. Every line with the
    marker [BlockOptions] is written right after a blank line: the line
    before it when that is blank, an inserted blank line otherwise. *)
Theorem write_history_layout (fmt : string -> Q -> string) (name : string)
    (t : tm) (h : NoddyHistory) :
  let h' := written fmt name t h in
  let header := add_nl (split lf (header_text (default name (filename h)) t)) in
  let count := "No of Events" +:+ tab +:+ "= " +:+
               fmt_d (Z.of_nat (length (events h))) +:+ nl in
  let keys := sorted_keys (events h) in
  exists blocks : list (list string),
    let L := header ++ [count] ++ concat blocks ++ current_footer h in
    write_history fmt name t h = (h', Ok (write_lines L)) /\
    events h' = events h /\
    (forall stop i h0,
       scan_line stop (i, count) h0 =
       (set_n_events (Some (Z.of_nat (length (events h)))) h0, Ok stop)) /\
    Sorted Z.le keys /\ keys ≡ₚ dict_keys (events h) /\
    Forall2 (fun k block => exists l, dict_get k (events h) = Some l /\
                                      block = event_lines (deref h' l)) keys blocks /\
    (forall pre p line post,
       L = pre ++ p :: line :: post -> str_in "BlockOptions" line = true ->
       write_lines L =
       write_from (default "" (last L)) (pre ++ [p]) ++
       (if decide (p = nl) then [] else [nl]) ++ line :: write_from line post).
Proof.
  cbv zeta. exists (lines_of (written fmt name t h) <$> sorted_keys (events h)).
  split; [apply write_history_run |]. split; [done |].
  split; [intros; apply count_line_read |].
  split; [apply Sorted_merge_sort; intros x y; lia |].
  split; [apply merge_sort_Permutation |].
  split.
  - apply Forall2_fmap_r, Forall_Forall2_diag, Forall_forall. intros k Hk.
    assert (Hin : k ∈ dict_keys (events h)).
    { eapply elem_of_Permutation_proper; [| exact Hk].
      symmetry. apply merge_sort_Permutation. }
    destruct (dict_get_key k (events h) Hin) as [l Hl]. exists l. split; [done |].
    unfold lines_of. change (events (written fmt name t h)) with (events h).
    by rewrite Hl.
  - intros pre p line post HL Hm. rewrite write_lines_from.
    rewrite HL at 2. by apply write_from_marker.
Qed.

End C2.

(** ** The model information of a history built from scratch *)
Module InfoFacts.
Import PyStr Py Events History Methods Geometry Info RoundTrip.
Import MonadFacts FrameFacts KeepFacts GeometryFacts.

(** A history without lines and without a date, as every history built
    from scratch is: [history_lines] is assigned by [create_new_history]
    and the loaders only, and [date_saved] by [get_date_saved] only. *)
Definition unloaded (m : Model) : Prop :=
  history_lines (base m) = [] /\ date_saved m = None.

(** A call that keeps a history unloaded, whatever its outcome. *)
Definition stays {A} (g : G A) : Prop :=
  forall m m' r, unloaded m -> g m = (m', r) -> unloaded m'.

Lemma stays_bind {A B} (g : G A) (f : A -> G B) :
  stays g -> (forall a, stays (f a)) -> stays (g ≫= f).
Proof.
  intros Hg Hf m m' r Hm. rewrite gbind_run.
  destruct (g m) as [m1 [a|e]] eqn:H1.
  - intros H2. eapply Hf; [| exact H2]. by eapply Hg.
  - intros [= <- _]. by eapply Hg.
Qed.

Lemma stays_on_base {A} (f : M A) : keeps history_lines f -> stays (on_base f).
Proof.
  intros Hf m m' r [Hl Hd]. unfold on_base.
  destruct (f (base m)) as [h r'] eqn:Hrun. intros [= <- _].
  split; [| done]. cbn [base set_base]. rewrite <- Hl. by eapply Hf.
Qed.

Lemma stays_gmodify (f : Model -> Model) :
  (forall m, history_lines (base (f m)) = history_lines (base m)) ->
  (forall m, date_saved (f m) = date_saved m) -> stays (gmodify f).
Proof.
  intros H1 H2 m m' r [Hl Hd] [= <- _]. split; [by rewrite H1 | by rewrite H2].
Qed.

Lemma stays_glift {A} (r : result A) : stays (glift r).
Proof. by intros m m' r' Hm [= <- _]. Qed.

Lemma stays_gattr {A} (f : Model -> option A) : stays (gattr f).
Proof. by intros m m' r' Hm [= <- _]. Qed.

Lemma stays_mret {A} (a : A) : stays (mret a : G A).
Proof. by intros m m' r' Hm [= <- _]. Qed.

Lemma keeps_ensure_footer : keeps history_lines ensure_footer.
Proof.
  unfold ensure_footer. apply keeps_bind; [apply keeps_pure, pure_gets | intros f].
  destruct f; [apply keeps_pure, pure_mret |].
  apply keeps_bind; [| intros ?; apply keeps_pure, pure_attr].
  unfold create_footer_from_template. by apply keeps_modify.
Qed.

Lemma stays_read_triple anchor sx sy sz :
  (forall x m, history_lines (base (sx x m)) = history_lines (base m)) ->
  (forall x m, date_saved (sx x m) = date_saved m) ->
  (forall x m, history_lines (base (sy x m)) = history_lines (base m)) ->
  (forall x m, date_saved (sy x m) = date_saved m) ->
  (forall x m, history_lines (base (sz x m)) = history_lines (base m)) ->
  (forall x m, date_saved (sz x m) = date_saved m) ->
  stays (read_triple anchor sx sy sz).
Proof.
  intros. unfold read_triple.
  apply stays_bind; [apply stays_on_base, keeps_ensure_footer | intros ls].
  destruct (find_index (str_in anchor) ls); [| apply stays_mret].
  repeat first
    [ apply stays_glift | by apply stays_gmodify
    | apply stays_bind; [| intros ?] ].
Qed.

Lemma stays_get_extent : stays get_extent.
Proof.
  unfold get_extent. apply stays_bind; [by apply stays_read_triple | intros ?].
  repeat first [ apply stays_gattr | apply stays_mret | apply stays_bind; [| intros ?] ].
Qed.

Lemma stays_get_origin : stays get_origin.
Proof.
  unfold get_origin. apply stays_bind; [by apply stays_read_triple | intros ?].
  repeat first [ apply stays_gattr | apply stays_mret | apply stays_bind; [| intros ?] ].
Qed.

Lemma keeps_get_cube_size ty : keeps history_lines (get_cube_size ty).
Proof.
  unfold get_cube_size. apply keeps_bind; [apply keeps_ensure_footer | intros ls].
  destruct (find _ ls); [| apply keeps_pure, pure_mret].
  apply keeps_bind; [apply keeps_pure, pure_lift | intros q].
  apply keeps_bind; [by apply keeps_modify | intros ?]. apply keeps_pure, pure_mret.
Qed.

Lemma keeps_header_field i : keeps history_lines (header_field i).
Proof. apply keeps_pure. unfold header_field. solve_pure. Qed.

Lemma keeps_get_filename : keeps history_lines get_filename.
Proof.
  unfold get_filename. apply keeps_bind; [apply keeps_header_field | intros v].
  by apply keeps_modify.
Qed.

Lemma stays_unless_has {A B} (f : Model -> option A) (g : G B) :
  stays g -> stays (unless_has f g).
Proof.
  intros Hg m m' r Hm. unfold unless_has. destruct (f m).
  - by intros [= <- _].
  - apply (stays_bind g (fun _ => mret tt)); [done | intros ?; apply stays_mret | done].
Qed.

(** Without lines no header field can be read. *)
Lemma header_field_unloaded i h :
  history_lines h = [] -> header_field i h = (h, Err IndexError).
Proof.
  intros Hl. unfold header_field. rewrite bind_run. unfold gets. rewrite Hl.
  rewrite bind_run. unfold lift. by destruct i.
Qed.

Lemma get_date_saved_unloaded m :
  history_lines (base m) = [] -> get_date_saved m = (m, Err IndexError).
Proof.
  intros Hl. unfold get_date_saved. rewrite gbind_run. unfold on_base.
  rewrite (header_field_unloaded 1 (base m) Hl). by rewrite set_base_base.
Qed.

(** A call that keeps the history unloaded, before calls that raise. *)
Lemma raises_after {A B} (g : G A) (k : A -> G B) m :
  stays g -> unloaded m ->
  (forall a m1, unloaded m1 -> exists m' e, k a m1 = (m', Err e) /\ unloaded m') ->
  exists m' e, (g ≫= k) m = (m', Err e) /\ unloaded m'.
Proof.
  intros Hg Hm Hk. rewrite gbind_run. destruct (g m) as [m1 [a|e]] eqn:H1.
  - apply Hk. by eapply Hg.
  - exists m1, e. split; [done |]. by eapply Hg.
Qed.

(** X21. On a history built from scratch [get_info_string], and with it
    [info()] and [repr()], raises, whatever events have been added:
    with [events_only] because [n_events] is assigned by
    [determine_events] only, and without it because the file name or the
    date is read from the lines of a loaded document.  The history stays
    without lines and date, so that every later call raises too. *)
Theorem info_from_scratch (m : Model) :
  history_lines (base m) = [] -> date_saved m = None ->
  (exists m' e, get_info_string false m = (m', Err e) /\
                history_lines (base m') = [] /\ date_saved m' = None) /\
  (n_events (base m) = None -> get_info_string true m = (m, Err AttributeError)).
Proof.
  intros Hl Hd. split.
  - unfold get_info_string. rewrite gbind_run.
    assert (Hrun : exists m' e, complete m = (m', Err e) /\ unloaded m').
    { unfold complete.
      apply raises_after; [apply stays_unless_has, stays_get_extent | done |].
      intros _ m1 Hm1.
      apply raises_after; [apply stays_unless_has, stays_get_origin | done |].
      intros _ m2 Hm2.
      apply raises_after;
        [apply stays_unless_has, stays_on_base, keeps_get_cube_size | done |].
      intros _ m3 Hm3.
      apply raises_after;
        [apply stays_unless_has, stays_on_base, keeps_get_filename | done |].
      intros _ m4 [Hl4 Hd4].
      unfold unless_has. rewrite Hd4, gbind_run, (get_date_saved_unloaded m4 Hl4).
      by exists m4, IndexError. }
    destruct Hrun as (m' & e & -> & Hun). by exists m', e.
  - intros Hn. unfold get_info_string. rewrite gbind_run.
    change ((mret tt : G unit) m) with (m, Ok tt : result unit). cbv iota beta.
    rewrite gbind_run. cbv iota beta. unfold glift, info_text, events_info, the.
    by rewrite Hn.
Qed.

(** A new history, and a new history with a fault added. *)
Lemma info_from_scratch_witness :
  let m := model_of new_history in
  (history_lines (base m) = [] /\ date_saved m = None) /\
  ((exists m' e, get_info_string false m = (m', Err e) /\
                 history_lines (base m') = [] /\ date_saved m' = None) /\
   (n_events (base m) = None -> get_info_string true m = (m, Err AttributeError))) /\
  (get_info_string false m).2 = Err IndexError /\
  (get_info_string true m).2 = Err AttributeError.
Proof.
  cbv zeta. split; [by split |].
  split; [apply (info_from_scratch (model_of new_history)); reflexivity |].
  split; vm_compute; reflexivity.
Defined.

End InfoFacts.
